(* ===== verification/_CoqProject ===== *)
-Q . S2P
Prelude.v
JsString.v
JsArray.v
V8Sort.v
JsDate.v
HtmlEmail.v
Catalog.v
CatalogDates.v
ProductsPage.v
CatalogFetch.v
ContactForm.v
