(* ===== verification/Prelude.v ===== *)
(** * A verification library for the motorcade website

    The repository is a React/TypeScript marketing site with two pieces of
    client-side logic, both under [src/src/]:

    - [pages/Products.tsx] (component [Products]): loads [/products.json]
      once ([fetchProducts], lines 31-44), keeps the React state
      [selectedCategory], [searchQuery], [sortBy], [products],
      [filteredProducts], [currentPage] and [loading] (lines 22-28), and
      recomputes the derived view in an effect (lines 46-70): keep the
      products of the selected category whose translated name or description
      contains the query case-insensitively, sort them by the date comparator
      of [sortBy], store them and reset the page to 1.  The render slices the
      current page of nine items (lines 72-76) and offers category buttons, a
      search box, a sort select and previous / numbered / next page buttons.
    - [components/ContactForm.tsx] (component [ContactForm]): four required
      fields kept in the object [formData], an [isSubmitting] flag, a
      [handleChange] that writes one field under its [name] attribute, and an
      asynchronous [handleSubmit] that sends the four fields through the
      emailjs client, then clears the form and toasts success, or toasts an
      error and keeps the form.

    The two components do not interact.  Both call JavaScript built-ins
    and browser behaviour, which are modelled after ECMA-262 and the HTML
    Standard in their own files, and both depend on external
    collaborators (the translation function [t], the JSON fetch, emailjs),
    which are parameters of the model.

    ** Files

    - [Prelude] (this file): the [mc_scope] notation for strict string
      equality, the [motorcade] hint databases, the tactics [reflect_bool]
      and [str_simpl], and generic lemmas on filters, sortedness (of a
      reversed list, pairwise), pages of a list and string append.
    - [JsString]: [String.prototype.toLowerCase] on the ASCII range and
      [String.prototype.includes]; [includes] is characterised as substring
      containment and case-insensitive matching is shown insensitive to case.
    - [JsArray]: [Array.prototype.slice] with its negative and out-of-range
      index rules, [Math.ceil] of a quotient, and the contract of
      [Array.prototype.sort] (a comparator that is consistent yields a
      stable sorted permutation) as the typeclass [ArraySort], with a stable
      insertion sort as an instance that discharges it.
    - [V8Sort]: a second instance, V8's sort of an array shorter than 64
      ([CountAndMakeRun], then [BinaryInsertionSort] whose binary search
      [binSearch] is defined by well-founded recursion with Equations).
    - [JsDate]: [new Date(s).getTime()] on ECMA-262's Date Time String
      Format ([DayFromYear], [MakeDay], [MakeTime], [MakeDate],
      [TimeClip]): the date-only forms, which are UTC, and the date-time
      forms, with a [Z] or [+HH:mm] offset or, without one, local time
      converted by the engine's [localToUtc] (LocalTZA) parameter; strings
      outside the format go to an engine [fallback] parameter.
    - [HtmlEmail]: the HTML Standard's value sanitization and valid email
      address check of [<input type="email">].
    - [Catalog]: the product record and the pure pipeline of
      [Products.tsx]: [productMatches] (lines 52-58), [compareProducts]
      (lines 59-66), [updatedProducts] (lines 51-66), [totalPages] and
      [paginatedProducts] (lines 72-76); the theorems on filtering, sorting
      and pagination are proved against the [ArraySort] interface, with the
      date parser a parameter [getTime].
    - [CatalogDates]: the pipeline with [getTime] := [JsDate.dateGetTime]:
      the sort orders stated on calendar dates, and the engine dependence
      of a NaN date.
    - [ProductsPage]: the state of the [Products] component as a record, the
      user and network events as a step relation whose handlers are those of
      the JSX, React's effect re-run when a dependency changes, the render as
      a view, and the invariants of every reachable state.
    - [CatalogFetch]: [fetchProducts] (lines 31-44) from the fetch result
      (a network error, or a response with its [ok] flag and its JSON
      body, the inductive [Json]) to the page event it dispatches, or to
      the [TypeError] of the filter effect's first run on a body that is
      not an array of product records.
    - [ContactForm]: [formData] as a [gmap string string] updated with the
      computed key of [handleChange], [handleSubmit] split at its [await]
      into a start and a resume step, the browser's checks of the email
      input in [formEventEnabled], and the invariants and scenarios of the
      form.

    ** What the theorems show

    - Filtering ([Catalog]): a product is listed exactly when it is in the
      catalog, in the selected category or "all", and its translated name
      or description contains the query up to case
      ([updatedProducts_spec], built on [JsString.includesIgnoreCase_spec]);
      "all" with an empty query lists everything.
    - Sorting ([Catalog], [JsArray], [V8Sort], [CatalogDates]): when every
      date parses, "newest" and "oldest" order the dates, and with the real
      parser they order calendar dates; every engine that honours the
      ECMA-262 contract gives the same list ([arraySort_unique]), V8's
      engine among them ([v8Sort_insertionSort]); products of the same
      date keep their catalog order under every sort key; the name orders
      keep catalog order; a date that does not parse makes the comparator
      inconsistent, and V8 then lists a 2023 product before a 2024 one
      under "newest" where the insertion sort does not.
    - Dates ([JsDate]): the parser accepts only calendar dates, prints and
      parses back (years 0-9999), orders time values as the calendar, and
      keeps the years -271820 to 275759 out of [TimeClip]; a printed
      date-time [YYYY-MM-DDTHH:mm:ss.sss] parses back to its time value,
      the offset subtracted (east) or added (west), so with [Z] or an
      offset it is the same in every time zone and under every engine
      fallback; two dates of 4-digit years differ by less than 2^53 ms, so
      line 61 subtracts exactly.
    - The fetch ([CatalogFetch]): [response.ok] is never read, so a catalog
      of product records loads whatever the status, a body that is not
      JSON shows the empty catalog, and a JSON error object (a 404) makes
      the filter effect throw; when the catalog loads, the first render
      lists all of it, newest first, on page 1 with its first nine
      products.
    - Pagination ([Catalog]): the pages of the page buttons concatenate to
      the list, each page holds one to nine products, page 0 and pages
      past [totalPages] are empty.
    - The page as a state machine ([ProductsPage]): by induction over the
      reachable states, the list is always the effect's result on the
      current inputs once loaded and empty while loading, and the page is
      in [1..totalPages] or, on an empty list, 0 or 1; a filter change
      resets the page, page moves do not; the "next" button reaches page 0
      on an empty list; pressing "next" while enabled stops on the last
      page within [totalPages + 1] presses; a failed fetch looks like an
      empty catalog; React 17's unbatched setters of the fetch reach the
      state of React 18's batched render.
    - The contact form ([ContactForm], [HtmlEmail]): by induction over the
      reachable states, [formData] keeps its four keys and at most one send
      is pending, exactly while the button is disabled; from every state
      the form returns to idle once the send settles; a submission sends
      the current fields, with an email that is a valid address (the
      executable check is the Standard's grammar); success clears the form
      and failure keeps it; whatever is typed while a send is pending, the
      pending request stays the one of the submission, so the edit is
      never sent; and from every state, once the send settles either way,
      a user can send a new message with exactly the values typed.

    ** Bounds and fuel

    Every recursion but one is structural (on strings and lists) and the
    event loops are explicit lists of events ([runEvents]) or the inductive
    [reachable].  [V8Sort.binSearch] recurses on the width of its window
    with Equations ([by wf]), so it terminates by construction.  The one
    fuelled loop, [ProductsPage.pressNext], models a user's presses; its
    theorem gives the fuel that suffices, [totalPages + 2].  Page numbers,
    lengths and dates are [Z] and JavaScript numbers are not rounded: the
    page arithmetic stays far below 2^53, where doubles are exact;
    [JsDate.dateValue_diff_exact] shows the date subtraction exact for
    4-digit years, and the comparator is only used through its sign, which
    a rounded subtraction of two time values preserves anyway.

    ** What is not modelled

    - Styling, layout, icons, navigation, the translation tables and the
      toast presentation: presentation only.  The translation function is
      a parameter, a toast is the record of its title, description and
      variant; the [use-toast] hook and [ProductCard] are not under [src/].
    - The emailjs client and the network of [fetch]: external services
      whose outcomes are the events of the models.
    - [Date.parse] on strings outside the Date Time String Format: ECMA-262
      leaves them to "implementation-specific heuristics", so they are the
      parameter [fallback]; the local time zone's offsets (LocalTZA) are
      time-zone data of the host, the parameter [localToUtc].
    - Array elements that are objects without the four string fields: the
      callbacks then pass [undefined] to [t], whose result depends on the
      i18next configuration; [CatalogFetch.fetchOutcome] says [Unmodelled].
      JSON numbers are integers, which the page never reads.
    - V8's merging of runs for arrays of 64 elements or more: when every
      date parses, [arraySort_unique] already gives the same list for every
      engine that honours the contract, merging included; only the NaN case
      of [CatalogDates] depends on the engine's algorithm, and it is shown
      on a short array.
    - Unicode case mapping beyond ASCII in [toLowerCase]. *)

From Stdlib Require Export ZArith Lia String Ascii List Permutation Sorted Bool.
From stdpp Require Export base list strings gmap.
Export ListNotations.

Declare Scope mc_scope.
Delimit Scope mc_scope with mc.
Open Scope mc_scope.

(** JavaScript's strict equality on strings. *)
Notation "a === b" := (String.eqb a b) (at level 70, no associativity) : mc_scope.

Create HintDb motorcade.
Create Rewrite HintDb motorcade_rw.

(** Turn the boolean tests the code makes into the propositions they
    decide, in the goal and in every hypothesis. *)
Ltac reflect_bool :=
  repeat first
    [ rewrite andb_true_iff in *
    | rewrite orb_true_iff in *
    | rewrite negb_true_iff in *
    | rewrite String.eqb_eq in *
    | rewrite Z.ltb_lt in *
    | rewrite Z.leb_le in *
    | rewrite Z.eqb_eq in *
    | rewrite Nat.leb_le in *
    | rewrite Nat.ltb_lt in *
    | rewrite Nat.eqb_eq in * ].

(** ** Generic lemmas on lists *)

Section ListFacts.
Context {A : Type}.

Lemma filter_true_id (f : A -> bool) (l : list A) :
  (forall x, In x l -> f x = true) -> List.filter f l = l.
Proof.
  induction l as [|x l IH]; intros Hl; simpl; [done|].
  rewrite (Hl x (or_introl eq_refl)), IH; [done|].
  intros y Hy; apply Hl; by right.
Qed.

End ListFacts.


(** ** Strings

    stdpp blocks [simpl] on [String.append]; these are its two equations. *)

Lemma string_app_nil_l (s : string) : ("" ++ s)%string = s.
Proof. reflexivity. Qed.

Lemma string_app_cons (c : ascii) (s1 s2 : string) :
  (String c s1 ++ s2)%string = String c (s1 ++ s2).
Proof. reflexivity. Qed.

Lemma string_app_assoc (s1 s2 s3 : string) :
  ((s1 ++ s2) ++ s3)%string = (s1 ++ (s2 ++ s3))%string.
Proof. induction s1 as [|c s1 IH]; [done|]. rewrite !string_app_cons. by f_equal. Qed.

Lemma string_app_nil_r (s : string) : (s ++ "")%string = s.
Proof. induction s as [|c s IH]; [done|]. rewrite string_app_cons. by f_equal. Qed.

#[export] Hint Rewrite string_app_nil_l string_app_nil_r string_app_cons string_app_assoc : motorcade_rw.

(** [simpl], then the equations of string append. *)
Ltac str_simpl := simpl; autorewrite with motorcade_rw.

Lemma filter_all_false {A : Type} (f : A -> bool) (l : list A) :
  (forall x, In x l -> f x = false) -> List.filter f l = [].
Proof.
  induction l as [|x l IH]; intros Hl; simpl; [done|].
  rewrite (Hl x (or_introl eq_refl)). apply IH. intros y Hy; apply Hl; by right.
Qed.

Lemma Forall_In_self {A : Type} (l : list A) : Forall (fun x => In x l) l.
Proof. apply List.Forall_forall. done. Qed.

Lemma Forall_perm {A : Type} (P : A -> Prop) (l1 l2 : list A) :
  Permutation l1 l2 -> Forall P l2 -> Forall P l1.
Proof.
  intros Hp Hl. apply List.Forall_forall. intros x Hx.
  apply (proj1 (List.Forall_forall _ _) Hl). by apply (Permutation_in x Hp).
Qed.

Lemma Forall_filter_sub {A : Type} (P : A -> Prop) (f : A -> bool) (l : list A) :
  Forall P l -> Forall P (List.filter f l).
Proof.
  intros Hl. apply List.Forall_forall. intros x Hx. apply filter_In in Hx as [Hx _].
  exact (proj1 (List.Forall_forall _ _) Hl x Hx).
Qed.

#[export] Hint Resolve Forall_In_self Forall_filter_sub : motorcade.

(** Filtering by a test that implies a previous one forgets the previous
    one. *)
Lemma filter_filter_sub {A : Type} (f g : A -> bool) (l : list A) :
  (forall x, f x = true -> g x = true) -> List.filter f (List.filter g l) = List.filter f l.
Proof.
  intros Hfg. induction l as [|x l IH]; [done|]. cbn [List.filter].
  destruct (g x) eqn:Hg; cbn [List.filter]; destruct (f x) eqn:Hf; rewrite ?IH; try done.
  by rewrite Hfg in Hg.
Qed.

(** Two permutations have the same filtered length; a filter that keeps
    nothing of one keeps nothing of the other. *)
Lemma filter_perm_nil {A : Type} (f : A -> bool) (l1 l2 : list A) :
  Permutation l1 l2 -> List.filter f l2 = [] -> List.filter f l1 = [].
Proof.
  intros Hp H. apply filter_all_false. intros x Hx.
  destruct (f x) eqn:Hf; [|done].
  assert (Hin : In x (List.filter f l2)) by (apply filter_In; split; [by apply (Permutation_in x Hp)|done]).
  by rewrite H in Hin.
Qed.

(** A list sorted by [R] is sorted by any [R'] that [R] implies on its
    elements. *)
Lemma Sorted_impl_in {A : Type} (R R' : A -> A -> Prop) (l : list A) :
  (forall a b, In a l -> In b l -> R a b -> R' a b) -> Sorted R l -> Sorted R' l.
Proof.
  induction l as [|a l IH]; intros HR Hs; [constructor|].
  inversion Hs as [|? ? Hl Hd]; subst. constructor.
  - apply IH; [|done]. intros x y Hx Hy. apply HR; by right.
  - destruct l as [|b l]; constructor. inversion Hd; subst.
    apply HR; simpl; auto.
Qed.

(** The reverse of a sorted list is sorted by the converse relation. *)
Lemma Sorted_snoc {A : Type} (R : A -> A -> Prop) (l : list A) (a : A) :
  Sorted R l -> (forall x, last l = Some x -> R x a) -> Sorted R (l ++ [a]).
Proof.
  induction l as [|b l IH]; intros Hs Hl; simpl; [by repeat constructor|].
  inversion Hs as [|? ? Hsl Hd]; subst. constructor.
  - apply IH; [done|]. intros x Hx. apply Hl. destruct l; [discriminate|done].
  - destruct l as [|c l]; simpl; constructor; [apply Hl; done|by inversion Hd].
Qed.

Lemma Sorted_rev {A : Type} (R : A -> A -> Prop) (l : list A) :
  Sorted R l -> Sorted (fun a b => R b a) (rev l).
Proof.
  induction l as [|a l IH]; intros Hs; simpl; [constructor|].
  inversion Hs as [|? ? Hsl Hd]; subst. apply Sorted_snoc; [by apply IH|].
  intros x Hx. destruct l as [|b l]; [discriminate|]. inversion Hd; subst.
  simpl in Hx. rewrite last_snoc in Hx. by injection Hx as <-.
Qed.

(** A list sorted by a relation transitive on its elements is sorted
    pairwise. *)
Lemma Sorted_strongly_on {A : Type} (Q : A -> Prop) (R : A -> A -> Prop) (l : list A) :
  (forall a b c, Q a -> Q b -> Q c -> R a b -> R b c -> R a c) ->
  Forall Q l -> Sorted R l -> StronglySorted R l.
Proof.
  intros Ht. induction l as [|a l IH]; intros HQ Hs; constructor.
  - apply IH; [by inversion HQ|by inversion Hs].
  - clear IH. revert a HQ Hs. induction l as [|b l IH]; intros a HQ Hs; constructor.
    + inversion Hs as [|? ? _ Hd]; subst. by inversion Hd.
    + inversion HQ as [|? ? Ha HQl]; subst. inversion HQl as [|? ? Hb HQl']; subst.
      inversion Hs as [|? ? Hsl Hd]; subst. inversion Hd as [|? ? Hab]; subst.
      pose proof (IH b HQl Hsl) as Hall.
      apply List.Forall_forall. intros c Hc.
      apply (Ht a b c Ha Hb); [exact (proj1 (List.Forall_forall _ _) HQl' c Hc)|done|].
      exact (proj1 (List.Forall_forall _ _) Hall c Hc).
Qed.

Lemma StronglySorted_nth {A : Type} (R : A -> A -> Prop) (l : list A) (i j : nat) (d : A) :
  StronglySorted R l -> i < j < length l -> R (nth i l d) (nth j l d).
Proof.
  revert i j; induction l as [|a l IH]; intros i j Hs Hij; simpl in *; [lia|].
  inversion Hs as [|? ? Hsl Hall]; subst. destruct i as [|i], j as [|j]; try lia.
  - apply (proj1 (List.Forall_forall _ _) Hall). apply nth_In. lia.
  - apply IH; [done|lia].
Qed.

Lemma filter_rev {A : Type} (f : A -> bool) (l : list A) :
  List.filter f (rev l) = rev (List.filter f l).
Proof.
  induction l as [|a l IH]; [done|]. simpl. rewrite List.filter_app, IH. simpl.
  destruct (f a); simpl; [done|by rewrite app_nil_r].
Qed.

(** Consecutive pages of [k] elements, concatenated, are a prefix. *)
Lemma concat_pages {A : Type} (k : nat) (l : list A) (j m : nat) :
  concat (map (fun i => take k (drop (k * i) l)) (seq j m)) = take (k * m) (drop (k * j) l).
Proof.
  revert j; induction m as [|m IH]; intros j; simpl; [by rewrite Nat.mul_0_r|].
  rewrite IH. replace (k * S j) with (k * j + k) by lia. rewrite <- drop_drop.
  rewrite take_take_drop. f_equal. lia.
Qed.
