(* ===== verification/JsString.v ===== *)
(** * JavaScript string built-ins used by the product search

    [Products.tsx] lines 55-56 call [toLowerCase] on the translated name,
    description and query, and [includes] on the results.  A string is a
    Stdlib [string] (a list of 8-bit characters); [toLowerCase] maps the
    ASCII letters A-Z to a-z and leaves every other character unchanged
    (ECMA-262's full Unicode mapping agrees with this on ASCII text);
    [includes] follows ECMA-262's StringIndexOf from position 0: it tries
    every start position in order.  The theorems characterise [includes] as
    substring containment and the case-insensitive test of the page as
    containment up to case. *)

From S2P Require Import Prelude.

Module JsString.

(** ** Definitions *)

(** The case mapping of one character: [A]-[Z] (codes 65-90) to [a]-[z]. *)
Definition lowerChar (c : ascii) : ascii :=
  let n := nat_of_ascii c in
  if (65 <=? n) && (n <=? 90) then ascii_of_nat (n + 32) else c.

(** [String.prototype.toLowerCase]. *)
Fixpoint toLowerCase (s : string) : string :=
  match s with
  | EmptyString => EmptyString
  | String c s' => String (lowerChar c) (toLowerCase s')
  end.

(** [String.prototype.startsWith] at position 0, the inner test of
    StringIndexOf. *)
Fixpoint startsWith (s search : string) {struct search} : bool :=
  match search with
  | EmptyString => true
  | String c search' =>
      match s with
      | EmptyString => false
      | String d s' => Ascii.eqb c d && startsWith s' search'
      end
  end.

(** [String.prototype.includes] with the default position 0: some start
    position, tried from the left, begins an occurrence of [search]. *)
Fixpoint includes (s search : string) : bool :=
  startsWith s search ||
  match s with
  | EmptyString => false
  | String _ s' => includes s' search
  end.

(** The test of lines 55-56 for one field: [field.toLowerCase().includes(
    query.toLowerCase())]. *)
Definition includesIgnoreCase (field query : string) : bool :=
  includes (toLowerCase field) (toLowerCase query).

(** The meaning of the test: [field] has a substring equal to [query]
    up to case. *)
Definition ContainsIgnoringCase (field query : string) : Prop :=
  exists pre mid post,
    field = (pre ++ mid ++ post)%string /\ toLowerCase mid = toLowerCase query.

(** ** Lemmas *)

Lemma startsWith_spec (s search : string) :
  startsWith s search = true <-> exists rest, s = (search ++ rest)%string.
Proof.
  revert s; induction search as [|c search IH]; intros s; simpl.
  - split; intros _; [by exists s | done].
  - destruct s as [|d s]; simpl.
    + split; [done|]. by intros [rest ?].
    + rewrite andb_true_iff, Ascii.eqb_eq, IH. split.
      * intros [-> [rest ->]]. by exists rest.
      * intros [rest Heq]. injection Heq as -> ->. eauto.
Qed.

(** [includes] is substring containment. *)
Lemma includes_spec (s search : string) :
  includes s search = true <->
  exists pre post, s = (pre ++ search ++ post)%string.
Proof.
  induction s as [|c s IH]; simpl; rewrite orb_true_iff, startsWith_spec.
  - split.
    + intros [[rest Hr] | Hf]; [|discriminate]. exists EmptyString, rest. exact Hr.
    + intros [pre [post Hp]]. left. exists post.
      destruct pre; [done|discriminate].
  - rewrite IH. split.
    + intros [[rest Hr] | [pre [post Hp]]].
      * exists EmptyString, rest. exact Hr.
      * exists (String c pre), post. simpl. by rewrite Hp.
    + intros [[|c' pre] [post Hp]]; [left; by exists post|].
      right. injection Hp as -> Hp. eauto.
Qed.

Lemma includes_empty (s : string) : includes s EmptyString = true.
Proof. destruct s; reflexivity. Qed.

Lemma toLowerCase_app (s1 s2 : string) :
  toLowerCase (s1 ++ s2) = (toLowerCase s1 ++ toLowerCase s2)%string.
Proof.
  induction s1 as [|c s1 IH]; str_simpl; congruence.
Qed.

(** A lower-cased string splits where its source splits. *)
Lemma toLowerCase_app_inv (s a b : string) :
  toLowerCase s = (a ++ b)%string ->
  exists s1 s2, s = (s1 ++ s2)%string /\ toLowerCase s1 = a /\ toLowerCase s2 = b.
Proof.
  revert s; induction a as [|c a IH]; intros s Hs.
  - by exists EmptyString, s.
  - destruct s as [|d s]; [discriminate|]. simpl in Hs.
    injection Hs as <- Hs. destruct (IH s Hs) as (s1 & s2 & -> & <- & <-).
    by exists (String d s1), s2.
Qed.

#[export] Hint Rewrite toLowerCase_app : motorcade_rw.
#[export] Hint Resolve includes_empty : motorcade.

(** ** Properties *)

(** C27: The case-insensitive test of the page holds exactly when the field has
    a substring that equals the query up to case. *)
Theorem includesIgnoreCase_spec (field query : string) :
  includesIgnoreCase field query = true <-> ContainsIgnoringCase field query.
Proof.
  unfold includesIgnoreCase, ContainsIgnoringCase. rewrite includes_spec. split.
  - intros (pre & post & Hl).
    destruct (toLowerCase_app_inv _ _ _ Hl) as (f1 & r & -> & <- & Hr).
    destruct (toLowerCase_app_inv _ _ _ Hr) as (m & p & -> & <- & <-).
    by exists f1, m, p.
  - intros (pre & mid & post & -> & Hm).
    exists (toLowerCase pre), (toLowerCase post).
    by rewrite !toLowerCase_app, Hm.
Qed.

(** The empty query is found in every field. *)
Lemma includesIgnoreCase_empty (field : string) : includesIgnoreCase field "" = true.
Proof. apply includes_empty. Qed.

End JsString.
