(* ===== verification/JsArray.v ===== *)
(** * JavaScript array and number built-ins used by the product listing

    - [slice]: [Array.prototype.slice(start, end)] of ECMA-262 with its
      index rules (negative indices count from the end, indices are clamped
      to the length), called at [Products.tsx] lines 73-76.
    - [ceilDiv]: [Math.ceil(a / b)] on integers (line 72).
    - [Consistent]: ECMA-262's "consistent comparator" for a comparator
      returning a number (here a [Z]; NaN is mapped to +0 before the engine
      sees it, as SortCompare does).
    - [ArraySort]: the contract of [Array.prototype.sort(comparefn)] as a
      typeclass: the result is a permutation of the input, and when the
      comparator is consistent it is sorted and stable (ES2019 and later).
      [insertionSort] is an instance that discharges it, and
      [arraySort_unique] shows that every instance computes the same result
      on a consistent comparator, so theorems proved against the class hold
      for every conforming engine. *)

From S2P Require Import Prelude.

Module JsArray.

(** ** [Array.prototype.slice] *)

(** Steps 4-7 of ECMA-262's [Array.prototype.slice]: a relative index is
    counted from the end when negative and clamped to [[0, len]]. *)
Definition relativeIndex (len rel : Z) : Z :=
  if (rel <? 0)%Z then Z.max (len + rel) 0 else Z.min rel len.

Definition slice {A : Type} (l : list A) (start end_ : Z) : list A :=
  let len := Z.of_nat (length l) in
  let k := relativeIndex len start in
  let final := relativeIndex len end_ in
  let count := Z.max (final - k) 0 in
  take (Z.to_nat count) (drop (Z.to_nat k) l).

(** ** [Math.ceil(a / b)] *)

Definition ceilDiv (a b : Z) : Z := (- ((- a) / b))%Z.

(** ** Comparators and [Array.prototype.sort] *)

(** Step 4 of ECMA-262's SortCompare: the comparator's result converted to
    a number, NaN (here [None]) read as +0. *)
Definition sortCompare (v : option Z) : Z :=
  match v with
  | Some z => z
  | None => 0%Z
  end.

(** A comparator that is consistent, in the sense of ECMA-262, for the set
    of values [P]: for all [a], [b], [c] in [P], [a =C a]; the sign of
    [cmp b a] is the opposite of that of [cmp a b] (ECMA's "a <C b implies
    b >C a" and "a =C b implies b =C a"); and [<=C] is transitive (which
    gives the transitivity of [<C] and [=C] and their mixed forms).  The
    engine asks this of the set of the array's elements. *)
Class ConsistentOn {A : Type} (P : A -> Prop) (cmp : A -> A -> Z) : Prop := {
  cmp_refl : forall a, P a -> cmp a a = 0%Z;
  cmp_sgn_antisym : forall a b, P a -> P b -> Z.sgn (cmp b a) = (- Z.sgn (cmp a b))%Z;
  cmp_le_trans : forall a b c, P a -> P b -> P c ->
    (cmp a b <= 0)%Z -> (cmp b c <= 0)%Z -> (cmp a c <= 0)%Z
}.

(** [a <=C b]: [a] may come before [b]. *)
Definition cmpLe {A : Type} (cmp : A -> A -> Z) (a b : A) : Prop := (cmp a b <= 0)%Z.

(** [a =C b], as the boolean the engine tests. *)
Definition cmpEqb {A : Type} (cmp : A -> A -> Z) (a b : A) : bool := (cmp a b =? 0)%Z.

(** Stability: for every element [k] of the input, the elements equal to
    [k] under the comparator keep their relative order. *)
Definition Stable {A : Type} (cmp : A -> A -> Z) (input output : list A) : Prop :=
  forall k, In k input ->
    List.filter (cmpEqb cmp k) output = List.filter (cmpEqb cmp k) input.

(** The contract of [Array.prototype.sort]: a permutation in every case;
    sorted and stable when the comparator is consistent on the array's
    elements (otherwise the order is implementation-defined). *)
Class ArraySort := {
  sort : forall {A : Type}, (A -> A -> Z) -> list A -> list A;
  sort_perm : forall {A} (cmp : A -> A -> Z) l, Permutation (sort cmp l) l;
  sort_sorted : forall {A} (cmp : A -> A -> Z) l,
    ConsistentOn (fun x => In x l) cmp -> Sorted (cmpLe cmp) (sort cmp l);
  sort_stable : forall {A} (cmp : A -> A -> Z) l,
    ConsistentOn (fun x => In x l) cmp -> Stable cmp l (sort cmp l)
}.

(** ** A stable insertion sort *)

(** Insert [x] before the first element it is strictly smaller than, that
    is after every element it compares equal to. *)
Fixpoint insertBy {A : Type} (cmp : A -> A -> Z) (x : A) (l : list A) : list A :=
  match l with
  | [] => [x]
  | y :: l' => if (cmp x y <? 0)%Z then x :: l else y :: insertBy cmp x l'
  end.

Fixpoint sortInto {A : Type} (cmp : A -> A -> Z) (acc l : list A) : list A :=
  match l with
  | [] => acc
  | x :: l' => sortInto cmp (insertBy cmp x acc) l'
  end.

Definition insertionSort {A : Type} (cmp : A -> A -> Z) (l : list A) : list A :=
  sortInto cmp [] l.

(** ** Lemmas on consistent comparators *)

Section ConsistentFacts.
Context {A : Type} (P : A -> Prop) (cmp : A -> A -> Z) `{!ConsistentOn P cmp}.

(** Case on the signs of [cmp a b] and [cmp b a], which are opposite. *)
Local Ltac sgn_cases a b :=
  match goal with Ha : P a, Hb : P b |- _ => pose proof (cmp_sgn_antisym a b Ha Hb) end;
  destruct (Z.sgn_spec (cmp a b)) as [[? ?]|[[? ?]|[? ?]]];
  destruct (Z.sgn_spec (cmp b a)) as [[? ?]|[[? ?]|[? ?]]]; lia.

Lemma cmp_antisym_le a b :
  P a -> P b -> (cmp a b <= 0)%Z -> (cmp b a <= 0)%Z -> cmp a b = 0%Z.
Proof. intros Ha Hb H1 H2. sgn_cases a b. Qed.

Lemma cmp_lt_flip a b : P a -> P b -> (cmp a b < 0)%Z -> (0 < cmp b a)%Z.
Proof. intros Ha Hb H. sgn_cases a b. Qed.

Lemma cmp_not_lt a b : P a -> P b -> ~ (cmp a b < 0)%Z -> (cmp b a <= 0)%Z.
Proof. intros Ha Hb H. sgn_cases a b. Qed.

Lemma cmp_lt_le_trans a b c : P a -> P b -> P c ->
  (cmp a b < 0)%Z -> (cmp b c <= 0)%Z -> (cmp a c < 0)%Z.
Proof.
  intros Ha Hb Hc H1 H2. destruct (Z_lt_le_dec (cmp a c) 0) as [|H3]; [done|].
  exfalso. pose proof (cmp_le_trans b c a Hb Hc Ha H2 (cmp_not_lt a c Ha Hc ltac:(lia))).
  pose proof (cmp_lt_flip a b Ha Hb H1). lia.
Qed.

Lemma cmpEqb_sym a b : P a -> P b -> cmpEqb cmp a b = cmpEqb cmp b a.
Proof.
  intros Ha Hb. unfold cmpEqb.
  destruct (Z.eqb_spec (cmp a b) 0), (Z.eqb_spec (cmp b a) 0); try done; sgn_cases a b.
Qed.

Lemma cmpEqb_trans a b c : P a -> P b -> P c ->
  cmpEqb cmp a b = true -> cmpEqb cmp b c = true -> cmpEqb cmp a c = true.
Proof.
  unfold cmpEqb; rewrite !Z.eqb_eq; intros Ha Hb Hc H1 H2.
  apply cmp_antisym_le; [done|done|..].
  - apply (cmp_le_trans a b c); auto with lia.
  - apply (cmp_le_trans c b a); auto; apply cmp_not_lt; auto with lia.
Qed.

Lemma cmpEqb_refl a : P a -> cmpEqb cmp a a = true.
Proof. intros Ha. unfold cmpEqb. by rewrite cmp_refl. Qed.

(** In a sorted list of elements of [P], the head is below every
    element of the tail, and so the list is sorted pairwise. *)
Lemma sorted_head_all a l :
  Forall P (a :: l) -> Sorted (cmpLe cmp) (a :: l) -> Forall (cmpLe cmp a) l.
Proof.
  revert a; induction l as [|b l IH]; intros a HP Hs; [constructor|].
  inversion HP as [|? ? Ha HPl]; subst. inversion HPl as [|? ? Hb HPl']; subst.
  inversion Hs as [|? ? Hsl Hd]; subst. inversion Hd as [|? ? Hab]; subst.
  specialize (IH b HPl Hsl). constructor; [done|].
  apply List.Forall_forall. intros c Hc.
  apply (cmp_le_trans a b c Ha Hb); [exact (proj1 (List.Forall_forall _ _) HPl' c Hc)|done|].
  exact (proj1 (List.Forall_forall _ _) IH c Hc).
Qed.

Lemma sorted_strongly (l : list A) :
  Forall P l -> Sorted (cmpLe cmp) l -> StronglySorted (cmpLe cmp) l.
Proof.
  induction l as [|a l IH]; intros HP Hs; constructor.
  - apply IH; [by inversion HP|by inversion Hs].
  - by apply sorted_head_all.
Qed.

(** The head of a sorted list is below each of its elements. *)
Lemma head_le a b l :
  Forall P (b :: l) -> Sorted (cmpLe cmp) (b :: l) -> In a (b :: l) -> cmpLe cmp b a.
Proof.
  intros HP Hs [<-|Ha].
  - unfold cmpLe. rewrite cmp_refl; [lia|]. by inversion HP.
  - apply sorted_strongly in Hs; [|done]. inversion Hs as [|? ? _ Hall]; subst.
    exact (proj1 (List.Forall_forall _ _) Hall a Ha).
Qed.
End ConsistentFacts.

#[export] Hint Resolve cmp_refl : motorcade.

(** ** The insertion sort discharges [ArraySort] *)

Section InsertionSort.
Context {A : Type} (cmp : A -> A -> Z).

Lemma insertBy_perm x l : Permutation (insertBy cmp x l) (x :: l).
Proof.
  induction l as [|y l IH]; simpl; [done|].
  destruct (cmp x y <? 0)%Z; [done|].
  rewrite IH. apply perm_swap.
Qed.

Lemma sortInto_perm acc l : Permutation (sortInto cmp acc l) (acc ++ l).
Proof.
  revert acc; induction l as [|x l IH]; intros acc; simpl.
  - by rewrite app_nil_r.
  - rewrite IH, insertBy_perm. apply Permutation_middle.
Qed.

Context (P : A -> Prop) `{!ConsistentOn P cmp}.

Lemma insertBy_hdrel y x l :
  HdRel (cmpLe cmp) y l -> cmpLe cmp y x -> HdRel (cmpLe cmp) y (insertBy cmp x l).
Proof.
  destruct l as [|z l]; simpl; intros Hd Hyx; [by constructor|].
  inversion Hd; subst. destruct (cmp x z <? 0)%Z; by constructor.
Qed.

Lemma insertBy_sorted x l :
  P x -> Forall P l -> Sorted (cmpLe cmp) l -> Sorted (cmpLe cmp) (insertBy cmp x l).
Proof.
  intros Hx; induction l as [|y l IH]; simpl; intros HP Hs; [by repeat constructor|].
  inversion Hs as [|? ? Hl Hd]; subst. inversion HP as [|? ? Hy HPl]; subst.
  destruct (Z.ltb_spec (cmp x y) 0) as [Hlt|Hge].
  - constructor; [done|]. constructor. unfold cmpLe; lia.
  - constructor; [by apply IH|]. apply insertBy_hdrel; [done|].
    apply (cmp_not_lt P cmp x y Hx Hy). lia.
Qed.

Lemma insertBy_Forall x l : P x -> Forall P l -> Forall P (insertBy cmp x l).
Proof. intros Hx Hl. apply (Forall_perm _ _ _ (insertBy_perm x l)). by constructor. Qed.

(** Every element after the insertion point is strictly greater than
    [x], so none of them is equal to a key that [x] is equal to. *)
Lemma filter_after_insert k x y l :
  P k -> P x -> Forall P (y :: l) -> Sorted (cmpLe cmp) (y :: l) ->
  (cmp x y < 0)%Z -> cmpEqb cmp k x = true ->
  List.filter (cmpEqb cmp k) (y :: l) = [].
Proof.
  intros Hk Hx HP Hs Hlt Hkx. apply filter_all_false. intros z Hz.
  pose proof (proj1 (List.Forall_forall _ _) HP z Hz) as HPz.
  inversion HP as [|? ? Hy HPl]; subst.
  destruct (cmpEqb cmp k z) eqn:Hkz; [exfalso|done].
  assert (Hxz : (cmp x z < 0)%Z).
  { destruct Hz as [<-|Hz]; [done|].
    apply (cmp_lt_le_trans P cmp x y z Hx Hy HPz Hlt).
    exact (proj1 (List.Forall_forall _ _) (sorted_head_all P cmp y l HP Hs) z Hz). }
  rewrite (cmpEqb_sym P cmp k x Hk Hx) in Hkx.
  pose proof (cmpEqb_trans P cmp x k z Hx Hk HPz Hkx Hkz) as Hxz'.
  unfold cmpEqb in Hxz'; reflect_bool; lia.
Qed.

Lemma insertBy_stable k x l :
  P k -> P x -> Forall P l -> Sorted (cmpLe cmp) l ->
  List.filter (cmpEqb cmp k) (insertBy cmp x l) =
  List.filter (cmpEqb cmp k) l ++ List.filter (cmpEqb cmp k) [x].
Proof.
  intros Hk Hx; induction l as [|y l IH]; intros HP Hs; [done|]. cbn [insertBy].
  destruct (Z.ltb_spec (cmp x y) 0) as [Hlt|Hge].
  - change (x :: y :: l) with ([x] ++ y :: l). rewrite List.filter_app.
    destruct (cmpEqb cmp k x) eqn:Hkx.
    + rewrite (filter_after_insert k x y l Hk Hx HP Hs Hlt Hkx). by rewrite app_nil_r.
    + simpl. by rewrite Hkx, app_nil_r.
  - simpl. inversion Hs; subst. inversion HP; subst. rewrite IH by done.
    destruct (cmpEqb cmp k y); reflexivity.
Qed.

Lemma sortInto_sorted acc l :
  Forall P acc -> Forall P l -> Sorted (cmpLe cmp) acc -> Sorted (cmpLe cmp) (sortInto cmp acc l).
Proof.
  revert acc; induction l as [|x l IH]; intros acc Hacc HP Hs; simpl; [done|].
  inversion HP; subst.
  apply IH; [by apply insertBy_Forall|done|by apply insertBy_sorted].
Qed.

Lemma sortInto_stable k acc l :
  P k -> Forall P acc -> Forall P l -> Sorted (cmpLe cmp) acc ->
  List.filter (cmpEqb cmp k) (sortInto cmp acc l) =
  List.filter (cmpEqb cmp k) acc ++ List.filter (cmpEqb cmp k) l.
Proof.
  intros Hk; revert acc; induction l as [|x l IH]; intros acc Hacc HP Hs; simpl.
  - by rewrite app_nil_r.
  - inversion HP; subst.
    rewrite IH; [|by apply insertBy_Forall|done|by apply insertBy_sorted].
    rewrite insertBy_stable by done. rewrite <- app_assoc. simpl.
    by destruct (cmpEqb cmp k x).
Qed.
End InsertionSort.

#[export] Instance insertionArraySort : ArraySort.
Proof.
  refine {| sort := @insertionSort |}.
  - intros A cmp l. apply sortInto_perm.
  - intros A cmp l Hc. apply (sortInto_sorted cmp (fun x => In x l)); auto with motorcade.
  - intros A cmp l Hc k Hk. unfold insertionSort.
    by rewrite (sortInto_stable cmp (fun x => In x l)); auto with motorcade.
Defined.

(** ** A stable sorted permutation is unique *)

Section Uniqueness.
Context {A : Type} (P : A -> Prop) (cmp : A -> A -> Z) `{!ConsistentOn P cmp}.

Lemma in_of_filter_eq a l1 l2 :
  P a -> List.filter (cmpEqb cmp a) (a :: l1) = List.filter (cmpEqb cmp a) l2 -> In a l2.
Proof.
  intros Ha. simpl. rewrite (cmpEqb_refl P cmp a Ha). intros H.
  apply (proj1 (filter_In (cmpEqb cmp a) a l2)). rewrite <- H. by left.
Qed.

Lemma sorted_stable_unique l1 l2 :
  Forall P l1 -> Forall P l2 -> Sorted (cmpLe cmp) l1 -> Sorted (cmpLe cmp) l2 ->
  (forall k, P k -> List.filter (cmpEqb cmp k) l1 = List.filter (cmpEqb cmp k) l2) ->
  l1 = l2.
Proof.
  revert l2; induction l1 as [|a l1 IH]; intros [|b l2] HP1 HP2 H1 H2 Hf; try done.
  - inversion HP2; subst. exfalso. exact (in_of_filter_eq b l2 [] ltac:(done) (eq_sym (Hf b ltac:(done)))).
  - inversion HP1; subst. exfalso. exact (in_of_filter_eq a l1 [] ltac:(done) (Hf a ltac:(done))).
  - inversion HP1 as [|? ? Ha HPl1]; inversion HP2 as [|? ? Hb HPl2]; subst.
    assert (Hab : cmp a b = 0%Z).
    { apply (cmp_antisym_le P cmp a b Ha Hb).
      - apply (head_le P cmp b a l1 HP1 H1), (in_of_filter_eq b l2); [done|].
        symmetry; by apply Hf.
      - apply (head_le P cmp a b l2 HP2 H2), (in_of_filter_eq a l1); [done|].
        by apply Hf. }
    assert (a = b) as <-.
    { specialize (Hf a Ha). simpl in Hf. rewrite (cmpEqb_refl P cmp a Ha) in Hf.
      unfold cmpEqb in Hf at 2. rewrite Hab in Hf. simpl in Hf. congruence. }
    f_equal. apply IH; [done|done|by inversion H1|by inversion H2|].
    intros k Hk. specialize (Hf k Hk). simpl in Hf. destruct (cmpEqb cmp k a); congruence.
Qed.
End Uniqueness.

(** ** Comparators by a numeric key *)

(** [(a, b) => key(a) - key(b)]: the shape of both date comparators of the
    product page once the dates are numbers. *)
Definition keyCmp {A : Type} (key : A -> Z) (a b : A) : Z := (key a - key b)%Z.

#[export] Instance keyCmp_consistent {A : Type} (P : A -> Prop) (key : A -> Z) :
  ConsistentOn P (keyCmp key).
Proof.
  unfold keyCmp. split.
  - intros a _. lia.
  - intros a b _ _. rewrite <- Z.sgn_opp. f_equal. lia.
  - intros a b c _ _ _. lia.
Qed.

(** A comparator that agrees with a consistent one on [P] is consistent on
    [P]. *)
Lemma consistentOn_ext {A : Type} (P : A -> Prop) (cmp1 cmp2 : A -> A -> Z) :
  (forall a b, P a -> P b -> cmp1 a b = cmp2 a b) ->
  ConsistentOn P cmp1 -> ConsistentOn P cmp2.
Proof.
  intros Heq [Hr Ha Ht]. split.
  - intros a Hpa. rewrite <- Heq by done. auto.
  - intros a b Hpa Hpb. rewrite <- !Heq by done. auto.
  - intros a b c Hpa Hpb Hpc. rewrite <- !Heq by done. eauto.
Qed.

(** ** Lemmas on [slice] and [ceilDiv] *)

Lemma relativeIndex_bounds (len rel : Z) :
  (0 <= len)%Z -> (0 <= relativeIndex len rel <= len)%Z.
Proof. unfold relativeIndex. destruct (Z.ltb_spec rel 0); lia. Qed.

(** With non-negative indices, [slice] is [take] after [drop]. *)
Lemma slice_nonneg {A : Type} (l : list A) (s e : Z) :
  (0 <= s <= e)%Z ->
  slice l s e = take (Z.to_nat (e - s)) (drop (Z.to_nat s) l).
Proof.
  intros Hse. unfold slice, relativeIndex.
  destruct (Z.ltb_spec s 0), (Z.ltb_spec e 0); try lia.
  destruct (Z.le_gt_cases s (Z.of_nat (length l))) as [Hs|Hs].
  - rewrite (Z.min_l s) by done.
    destruct (Z.le_gt_cases e (Z.of_nat (length l))) as [He|He].
    + rewrite (Z.min_l e), Z.max_l by lia. done.
    + rewrite !take_ge; [done| |]; rewrite length_drop; lia.
  - rewrite !drop_ge by lia. by rewrite !take_nil.
Qed.

(** A slice that ends at index 0 is empty, whatever its start. *)
Lemma slice_end_zero {A : Type} (l : list A) (s : Z) : slice l s 0 = [].
Proof.
  unfold slice; cbv zeta.
  pose proof (relativeIndex_bounds (Z.of_nat (length l)) s ltac:(lia)) as Hb.
  replace (relativeIndex (Z.of_nat (length l)) 0) with 0%Z
    by (unfold relativeIndex; simpl; lia).
  replace (Z.to_nat (Z.max (0 - relativeIndex (Z.of_nat (length l)) s) 0)) with 0
    by lia.
  done.
Qed.

Lemma ceilDiv_spec (a b : Z) :
  (0 < b)%Z -> (b * (ceilDiv a b - 1) < a <= b * ceilDiv a b)%Z.
Proof.
  intros Hb. unfold ceilDiv.
  pose proof (Z.div_mod (- a) b ltac:(lia)). pose proof (Z.mod_pos_bound (- a) b Hb).
  nia.
Qed.

Lemma ceilDiv_nonneg (a b : Z) : (0 <= a)%Z -> (0 < b)%Z -> (0 <= ceilDiv a b)%Z.
Proof. intros Ha Hb. pose proof (ceilDiv_spec a b Hb). nia. Qed.

Lemma sort_nil `{ArraySort} {A : Type} (cmp : A -> A -> Z) : sort cmp [] = [].
Proof. apply Permutation_nil, Permutation_sym, sort_perm. Qed.

#[export] Hint Resolve relativeIndex_bounds ceilDiv_nonneg : motorcade.

(** ** Properties *)

(** A sorted, stable permutation of [l] under a comparator consistent
    on [l] is the insertion sort of [l]. *)
Lemma sorted_stable_insertionSort {A : Type} (cmp : A -> A -> Z) (l out : list A) :
  ConsistentOn (fun x => In x l) cmp -> Permutation out l -> Sorted (cmpLe cmp) out ->
  Stable cmp l out -> out = insertionSort cmp l.
Proof.
  intros Hc Hp Hs Hst. pose proof (Forall_In_self l) as Hl.
  apply (sorted_stable_unique (fun x => In x l) cmp).
  - exact (Forall_perm _ _ _ Hp Hl).
  - exact (Forall_perm _ _ _ (sortInto_perm cmp [] l) Hl).
  - done.
  - apply (sortInto_sorted cmp (fun x => In x l)); [constructor|exact Hl|constructor].
  - intros k Hk. rewrite (Hst k Hk). unfold insertionSort.
    by rewrite (sortInto_stable cmp (fun x => In x l) k [] l); [| |constructor|exact Hl|constructor].
Qed.

(** C10: Every implementation of the [Array.prototype.sort] contract computes,
    on a comparator consistent on the array's elements, the same array as
    the insertion sort: the order of the product page does not depend on
    the engine. *)
Theorem arraySort_unique (S : ArraySort) {A : Type} (cmp : A -> A -> Z) (l : list A) :
  ConsistentOn (fun x => In x l) cmp -> @sort S A cmp l = insertionSort cmp l.
Proof.
  intros Hc. apply sorted_stable_insertionSort; [done|apply sort_perm|by apply sort_sorted|by apply sort_stable].
Qed.

(** ** Witnesses *)

Lemma arraySort_unique_witness :
  ConsistentOn (fun x => In x [3%Z; 1%Z; 2%Z; 1%Z]) (keyCmp (fun z : Z => z)) /\
  @sort insertionArraySort Z (keyCmp (fun z => z)) [3%Z; 1%Z; 2%Z; 1%Z] = [1%Z; 1%Z; 2%Z; 3%Z].
Proof.
  pose proof (keyCmp_consistent (fun x => In x [3%Z; 1%Z; 2%Z; 1%Z]) (fun z : Z => z)) as Hc.
  split; [exact Hc|].
  rewrite (arraySort_unique insertionArraySort (keyCmp (fun z => z)) _ Hc). reflexivity.
Defined.

End JsArray.
