(* ===== verification/V8Sort.v ===== *)
(** * A second engine: V8's sort of short arrays

    V8 implements [Array.prototype.sort] with TimSort
    ([third_party/v8/builtins/array-sort.tq]).  An array shorter than 64
    elements is one TimSort run: [CountAndMakeRun] takes the longest
    prefix that is ascending ([b] not [<C] its predecessor) or strictly
    descending (each element [<C] its predecessor), reverses it when it
    descends, and [BinaryInsertionSort] inserts the remaining elements one
    by one, each at the position a binary search finds: after every
    element it is not [<C] to.

    [v8Sort] is this engine, written over lists; [binSearch] is the
    binary search, by well-founded recursion on the width of its window.
    The theorems: on a sorted prefix the binary search finds the position
    of the linear [JsArray.insertBy]; [v8Sort] discharges the
    [ArraySort] contract; on a comparator that is not consistent, such as
    the date comparator with a NaN date, it can order products differently
    from [JsArray.insertionSort]. *)

From Equations Require Import Equations.
From S2P Require Import Prelude JsArray.
Import JsArray.

Module V8Sort.

Section Engine.
Context {A : Type} (cmp : A -> A -> Z).

(** [CountAndMakeRun]: the run continues while each element keeps the
    direction of the first two. *)
Fixpoint takeRun (descending : bool) (prev : A) (l : list A) : list A * list A :=
  match l with
  | [] => ([], [])
  | x :: l' =>
      let order := cmp x prev in
      if (if descending then (order >=? 0)%Z else (order <? 0)%Z) then ([], l)
      else let '(run, rest) := takeRun descending x l' in (x :: run, rest)
  end.

(** The run of an array of at least two elements, reversed when it
    descends, and the elements after it. *)
Definition countAndMakeRun (l : list A) : list A * list A :=
  match l with
  | x0 :: x1 :: l' =>
      let descending := (cmp x1 x0 <? 0)%Z in
      let '(run, rest) := takeRun descending x1 l' in
      (if descending then rev (x0 :: x1 :: run) else x0 :: x1 :: run, rest)
  | _ => (l, [])
  end.

(** The binary search of [BinaryInsertionSort] in the sorted prefix
    [acc], on the window [[lo, hi)] ([left] and [right] in V8): [hi] moves to
    [mid] when the pivot is [<C] the middle element, [lo] past it
    otherwise. *)
Equations? binSearch (pivot : A) (acc : list A) (lo hi : nat) : nat by wf (hi - lo) lt :=
binSearch pivot acc lo hi with lt_dec lo hi => {
  | left _ =>
      let mid := (lo + (hi - lo) / 2)%nat in
      if (cmp pivot (nth mid acc pivot) <? 0)%Z then binSearch pivot acc lo mid
      else binSearch pivot acc (S mid) hi;
  | right _ => lo }.
Proof.
  all: pose proof (Nat.div_mod (hi - lo) 2 ltac:(lia)); pose proof (Nat.mod_upper_bound (hi - lo) 2 ltac:(lia)); lia.
Qed.

(** The pivot placed at the position found, after the elements before
    it (the shift of [BinaryInsertionSort]). *)
Definition binInsert (pivot : A) (acc : list A) : list A :=
  let k := binSearch pivot acc 0 (length acc) in
  take k acc ++ pivot :: drop k acc.

Fixpoint binSortInto (acc l : list A) : list A :=
  match l with
  | [] => acc
  | x :: l' => binSortInto (binInsert x acc) l'
  end.

(** [ArrayTimSortImpl] on an array shorter than 64: arrays of fewer than
    two elements are left as they are. *)
Definition v8Sort (l : list A) : list A :=
  let '(run, rest) := countAndMakeRun l in binSortInto run rest.
End Engine.

(** ** The binary search finds the first element greater than the pivot *)

Section BinSearch.
Context {A : Type} (cmp : A -> A -> Z) (pivot : A) (acc : list A).

(** The pivot is [<C] the element at index [i]. *)
Let below (i : nat) : Prop := (cmp pivot (nth i acc pivot) < 0)%Z.

(** In a sorted prefix, the elements above the pivot form a suffix. *)
Hypothesis below_up : forall i j, i <= j < length acc -> below i -> below j.

Lemma binSearch_spec lo hi :
  lo <= hi <= length acc ->
  (forall i, i < lo -> ~ below i) -> (forall i, hi <= i < length acc -> below i) ->
  let k := binSearch cmp pivot acc lo hi in
  lo <= k <= hi /\ (forall i, i < k -> ~ below i) /\ (forall i, k <= i < length acc -> below i).
Proof.
  funelim (binSearch cmp pivot acc lo hi); intros Hb Hlo Hhi; cbv zeta; try rewrite <- Heqcall.
  - pose proof (Nat.div_mod (hi - lo) 2 ltac:(lia)).
    pose proof (Nat.mod_upper_bound (hi - lo) 2 ltac:(lia)).
    set (mid := (lo + (hi - lo) / 2)%nat) in *.
    destruct (Z.ltb_spec (cmp pivot (nth mid acc pivot)) 0) as [Hm|Hm].
    + destruct (H ltac:(lia) Hlo) as (? & ? & ?); [|split; [lia|done]].
      intros i Hi. destruct (Nat.eq_dec i mid) as [->|]; [exact Hm|].
      apply (below_up mid); [lia|exact Hm].
    + destruct (H0 ltac:(lia)) as (? & ? & ?); [|exact Hhi|split; [lia|done]].
      intros i Hi Hbi. destruct (Nat.lt_ge_cases i lo); [by apply (Hlo i)|].
      assert (below mid) by (apply (below_up i); [lia|exact Hbi]). unfold below in *. lia.
  - split; [lia|]. split; [done|]. intros i Hi. apply Hhi. lia.
Qed.
End BinSearch.

(** ** Every run of the engine permutes the array *)

Section Perm.
Context {A : Type} (cmp : A -> A -> Z).

Lemma takeRun_app d prev l run rest :
  takeRun cmp d prev l = (run, rest) -> run ++ rest = l.
Proof.
  revert prev run rest; induction l as [|x l IH]; intros prev run rest H; simpl in H.
  - by simplify_eq.
  - case_match; [by simplify_eq|].
    destruct (takeRun cmp d x l) as [run' rest'] eqn:Hr. simplify_eq. simpl. f_equal. by apply (IH x).
Qed.

(** The run, reversed or not, and the rest hold the array's elements. *)
Lemma countAndMakeRun_spec l run rest :
  countAndMakeRun cmp l = (run, rest) ->
  exists orig, l = orig ++ rest /\ (run = orig \/ run = rev orig).
Proof.
  unfold countAndMakeRun. destruct l as [|x0 [|x1 l]]; intros H; simplify_eq;
    [by exists []; auto|by exists [x0]; auto|].
  destruct (takeRun cmp (cmp x1 x0 <? 0)%Z x1 l) as [r rs] eqn:Hr. simplify_eq.
  apply takeRun_app in Hr. exists (x0 :: x1 :: r). split; [by rewrite <- Hr|].
  destruct (cmp x1 x0 <? 0)%Z; auto.
Qed.

Lemma binInsert_perm x acc : Permutation (binInsert cmp x acc) (x :: acc).
Proof.
  unfold binInsert. rewrite <- Permutation_middle. by rewrite take_drop.
Qed.

Lemma binSortInto_perm acc l : Permutation (binSortInto cmp acc l) (acc ++ l).
Proof.
  revert acc; induction l as [|x l IH]; intros acc; simpl.
  - by rewrite app_nil_r.
  - rewrite IH, binInsert_perm. apply Permutation_middle.
Qed.

Lemma v8Sort_perm l : Permutation (v8Sort cmp l) l.
Proof.
  unfold v8Sort. destruct (countAndMakeRun cmp l) as [run rest] eqn:Hc.
  destruct (countAndMakeRun_spec l run rest Hc) as (orig & -> & [->| ->]);
    rewrite binSortInto_perm; [done|]. by rewrite <- Permutation_rev.
Qed.
End Perm.

(** ** On a consistent comparator, binary insertion is linear insertion *)

Section Consistent.
Context {A : Type} (P : A -> Prop) (cmp : A -> A -> Z) `{!ConsistentOn P cmp}.

(** [insertBy] puts [x] before the first element it is [<C] to. *)
Lemma insertBy_split x acc k :
  (forall y, In y (take k acc) -> ~ (cmp x y < 0)%Z) ->
  (forall y rest, drop k acc = y :: rest -> (cmp x y < 0)%Z) ->
  insertBy cmp x acc = take k acc ++ x :: drop k acc.
Proof.
  revert k; induction acc as [|y acc IH]; intros k Hbefore Hat.
  - by rewrite take_nil, drop_nil.
  - destruct k as [|k]; simpl.
    + by rewrite (proj2 (Z.ltb_lt _ _) (Hat y acc eq_refl)).
    + destruct (Z.ltb_spec (cmp x y) 0) as [Hlt|]; [exfalso; apply (Hbefore y); [by left|done]|].
      f_equal. apply IH; [|done]. intros z Hz. apply Hbefore. by right.
Qed.

(** In a sorted prefix, the elements the pivot is [<C] to form a
    suffix. *)
Lemma below_up x acc :
  P x -> Forall P acc -> Sorted (cmpLe cmp) acc ->
  forall i j, i <= j < length acc ->
  (cmp x (nth i acc x) < 0)%Z -> (cmp x (nth j acc x) < 0)%Z.
Proof.
  intros Hx HP Hs i j Hij Hi.
  assert (HPn : forall n, n < length acc -> P (nth n acc x))
    by (intros n Hn; apply (proj1 (List.Forall_forall _ _) HP), nth_In; lia).
  destruct (Nat.eq_dec i j) as [<-|Hne]; [done|].
  apply (cmp_lt_le_trans P cmp x (nth i acc x)); auto with lia.
  apply (StronglySorted_nth (cmpLe cmp)); [by apply (sorted_strongly P cmp)|lia].
Qed.

(** On a sorted prefix of elements on which the comparator is
    consistent, V8's binary insertion puts the pivot where the linear
    insertion of [JsArray.insertBy] does: after every element it is not
    [<C] to. *)
Lemma binInsert_insertBy x acc :
  P x -> Forall P acc -> Sorted (cmpLe cmp) acc -> binInsert cmp x acc = insertBy cmp x acc.
Proof.
  intros Hx HP Hs. unfold binInsert.
  destruct (binSearch_spec cmp x acc (below_up x acc Hx HP Hs) 0 (length acc))
    as (Hk & Hbefore & Hafter); [lia|lia|lia|].
  set (k := binSearch cmp x acc 0 (length acc)) in *.
  symmetry. apply insertBy_split.
  - intros y Hy. apply list_elem_of_In, list_elem_of_lookup in Hy as [i Hi].
    rewrite lookup_take_Some in Hi. destruct Hi as [Hi Hik].
    rewrite <- (nth_lookup_Some acc i x y Hi). apply Hbefore. done.
  - intros y rest Hd. assert (Hy : acc !! k = Some y).
    { rewrite <- (Nat.add_0_r k), <- lookup_drop, Hd. done. }
    rewrite <- (nth_lookup_Some acc k x y Hy). apply Hafter.
    split; [lia|]. by apply lookup_lt_Some in Hy.
Qed.

Lemma binSortInto_sortInto acc l :
  Forall P acc -> Forall P l -> Sorted (cmpLe cmp) acc -> binSortInto cmp acc l = sortInto cmp acc l.
Proof.
  revert acc; induction l as [|x l IH]; intros acc Hacc HP Hs; [done|].
  inversion HP as [|? ? Hx HPl]; subst. simpl.
  rewrite binInsert_insertBy by done.
  apply IH; [by apply insertBy_Forall|done|by apply (insertBy_sorted cmp P)].
Qed.

(** An ascending run is sorted. *)
Lemma takeRun_ascending prev l run rest :
  takeRun cmp false prev l = (run, rest) -> Forall P (prev :: l) -> Sorted (cmpLe cmp) (prev :: run).
Proof.
  revert prev run rest; induction l as [|x l IH]; intros prev run rest H HP; simpl in H.
  - simplify_eq. by repeat constructor.
  - inversion HP as [|? ? Hp HPl]; subst. inversion HPl as [|? ? Hx HPl']; subst.
    destruct (Z.ltb_spec (cmp x prev) 0) as [Hlt|Hge]; [simplify_eq; by repeat constructor|].
    destruct (takeRun cmp false x l) as [run' rest'] eqn:Hr. simplify_eq.
    constructor; [eapply IH; [exact Hr|by constructor]|]. constructor.
    apply (cmp_not_lt P cmp x prev Hx Hp). lia.
Qed.

(** A descending run descends strictly. *)
Lemma takeRun_descending prev l run rest :
  takeRun cmp true prev l = (run, rest) -> Sorted (fun a b => (cmp b a < 0)%Z) (prev :: run).
Proof.
  revert prev run rest; induction l as [|x l IH]; intros prev run rest H; simpl in H.
  - simplify_eq. by repeat constructor.
  - destruct (Z.geb_spec (cmp x prev) 0) as [Hge|Hlt]; [simplify_eq; by repeat constructor|].
    destruct (takeRun cmp true x l) as [run' rest'] eqn:Hr. simplify_eq.
    constructor; [eapply IH; exact Hr|]. by constructor.
Qed.

(** No two elements of a strictly descending list compare equal. *)
Lemma strict_filter_eq k l :
  P k -> Forall P l -> StronglySorted (fun a b => (cmp b a < 0)%Z) l ->
  length (List.filter (cmpEqb cmp k) l) <= 1.
Proof.
  intros Hk. induction l as [|a l IH]; intros HP Hs; simpl; [lia|].
  inversion HP as [|? ? Ha HPl]; subst. inversion Hs as [|? ? Hsl Hall]; subst.
  destruct (cmpEqb cmp k a) eqn:Hka; [|by apply IH].
  rewrite filter_all_false; [simpl; lia|]. intros z Hz.
  destruct (cmpEqb cmp k z) eqn:Hkz; [exfalso|done].
  pose proof (proj1 (List.Forall_forall _ _) HPl z Hz) as HPz.
  pose proof (proj1 (List.Forall_forall _ _) Hall z Hz) as Hlt. simpl in Hlt.
  rewrite (cmpEqb_sym P cmp k z Hk HPz) in Hkz.
  pose proof (cmpEqb_trans P cmp z k a HPz Hk Ha Hkz Hka) as Hza.
  unfold cmpEqb in Hza. reflect_bool. lia.
Qed.

(** The run of [CountAndMakeRun] is sorted, and reversing a descending
    run keeps its equal elements (there are none) in order. *)
Lemma countAndMakeRun_sorted l run rest :
  Forall P l -> countAndMakeRun cmp l = (run, rest) ->
  exists orig, l = orig ++ rest /\ Sorted (cmpLe cmp) run /\ Permutation run orig /\
    forall k, P k -> List.filter (cmpEqb cmp k) run = List.filter (cmpEqb cmp k) orig.
Proof.
  intros HP Hc. pose proof (countAndMakeRun_spec cmp l run rest Hc) as (orig & Hl & _).
  exists orig. split; [done|].
  assert (HPo : Forall P orig) by (rewrite Hl in HP; by apply Forall_app in HP as [? _]).
  unfold countAndMakeRun in Hc. destruct l as [|x0 [|x1 l]]; simplify_eq.
  1,2: rewrite app_nil_r in Hl; subst orig; split; [by repeat constructor|done].
  inversion HP as [|? ? Hx0 HPl]; subst. inversion HPl as [|? ? Hx1 HPl']; subst.
  destruct (takeRun cmp (cmp x1 x0 <? 0)%Z x1 l) as [r rs] eqn:Hr. simplify_eq.
  pose proof (takeRun_app cmp _ _ _ _ _ Hr) as Happ. subst l.
  assert (orig = x0 :: x1 :: r) as ->.
  { change (x0 :: x1 :: r ++ rest) with ((x0 :: x1 :: r) ++ rest) in Hl.
    by apply app_inv_tail in Hl. }
  destruct (Z.ltb_spec (cmp x1 x0) 0) as [Hd|Ha].
  - pose proof (takeRun_descending _ _ _ _ Hr) as Hs.
    assert (Hs' : Sorted (fun a b => (cmp b a < 0)%Z) (x0 :: x1 :: r)) by
      (constructor; [done|by constructor]).
    assert (Hss : StronglySorted (fun a b => (cmp b a < 0)%Z) (x0 :: x1 :: r)).
    { apply (Sorted_strongly_on P); [|done|done].
      intros a b c Ha Hb Hc Hab Hbc. apply (cmp_lt_le_trans P cmp c b a); auto with lia. }
    split; [|split; [apply Permutation_sym, Permutation_rev|]].
    + apply (Sorted_impl_in (fun a b => (cmp a b < 0)%Z)); [unfold cmpLe; intros; lia|].
      by apply (Sorted_rev (fun a b => (cmp b a < 0)%Z)).
    + intros k Hk. rewrite filter_rev.
      pose proof (strict_filter_eq k _ Hk HPo Hss) as Hlen.
      destruct (List.filter _ _) as [|? [|]]; simpl in *; [done|done|lia].
  - split; [|split; [done|done]].
    apply (takeRun_ascending x0 (x1 :: r ++ rest) (x1 :: r) rest); [|done].
    simpl. rewrite (proj2 (Z.ltb_ge _ _) Ha), Hr. done.
Qed.
End Consistent.

(** ** V8's engine discharges the [Array.prototype.sort] contract *)

Lemma v8Sort_sorted_stable {A : Type} (cmp : A -> A -> Z) (l : list A) :
  ConsistentOn (fun x => In x l) cmp -> Sorted (cmpLe cmp) (v8Sort cmp l) /\ Stable cmp l (v8Sort cmp l).
Proof.
  intros Hc. set (P := fun x => In x l). pose proof (Forall_In_self l) as HP.
  unfold v8Sort. destruct (countAndMakeRun cmp l) as [run rest] eqn:Hrun.
  destruct (countAndMakeRun_sorted P cmp l run rest HP Hrun) as (orig & Hl & Hs & Hperm & Hf).
  assert (HPor : Forall P (orig ++ rest)) by (rewrite <- Hl; exact HP).
  apply Forall_app in HPor as [HPo HPr].
  assert (HPrun : Forall P run) by exact (Forall_perm _ _ _ Hperm HPo).
  rewrite (binSortInto_sortInto P cmp) by done. split.
  - by apply (sortInto_sorted cmp P).
  - intros k Hk. rewrite (sortInto_stable cmp P k run rest Hk HPrun HPr Hs), Hf by done.
    by rewrite Hl, List.filter_app.
Qed.


(** ** Properties *)

(** C33: On an array whose elements the comparator orders consistently,
    V8's short-array sort (run detection, then binary insertion) computes
    the reference insertion sort: the optimised engine refines the
    ECMA-262 contract's unique result. *)
Theorem v8Sort_insertionSort {A : Type} (cmp : A -> A -> Z) (l : list A) :
  ConsistentOn (fun x => In x l) cmp -> v8Sort cmp l = insertionSort cmp l.
Proof.
  intros Hc. destruct (v8Sort_sorted_stable cmp l Hc) as [Hs Hst].
  apply sorted_stable_insertionSort; [done|apply v8Sort_perm|done|done].
Qed.

(** ** Witnesses *)

Lemma v8Sort_insertionSort_witness :
  ConsistentOn (fun x => In x [5%Z; 4%Z; 3%Z; 9%Z; 1%Z; 4%Z]) (keyCmp (fun z : Z => z)) /\
  v8Sort (keyCmp (fun z : Z => z)) [5%Z; 4%Z; 3%Z; 9%Z; 1%Z; 4%Z] = [1%Z; 3%Z; 4%Z; 4%Z; 5%Z; 9%Z].
Proof.
  pose proof (keyCmp_consistent (fun x => In x [5%Z; 4%Z; 3%Z; 9%Z; 1%Z; 4%Z]) (fun z : Z => z)) as Hc.
  split; [exact Hc|]. rewrite (v8Sort_insertionSort _ _ Hc). reflexivity.
Defined.

(** ** The instance *)

#[export] Instance v8ArraySort : ArraySort.
Proof.
  refine {| sort := @v8Sort |}.
  - intros A cmp l. apply v8Sort_perm.
  - intros A cmp l Hc. by apply v8Sort_sorted_stable.
  - intros A cmp l Hc. by apply v8Sort_sorted_stable.
Defined.

End V8Sort.
