(* ===== verification/JsDate.v ===== *)
(** * [new Date(s).getTime()] on the date strings of the catalog

    [Products.tsx] lines 61 and 63 compare two products by
    [new Date(x).getTime()].  ECMA-262's [Date] constructor called with a
    string runs [Date.parse] and then [TimeClip]; [Date.parse] first tries
    the Date Time String Format (21.4.1.32) and, when the string is not an
    instance of it, "may fall back to any implementation-specific
    heuristics".  This file models the format: the date-only forms
    ([YYYY], [YYYY-MM], [YYYY-MM-DD], with the expanded years [+YYYYYY]
    and [-YYYYYY]), which date-only strings such as the catalog's
    ["2024-01-15"] are, and the date-time forms, one of them followed by
    [THH:mm], [THH:mm:ss] or [THH:mm:ss.sss] and an optional offset [Z],
    [+HH:mm] or [-HH:mm].  Every other string (a month 13, a February 30,
    the engine's own formats) goes to a [fallback] parameter.

    Date-only forms are UTC: the time value is
    [MakeDate(MakeDay(year, month - 1, day), 0)] of 21.4.1.28-29, with
    [DayFromYear] and [DaysInYear] of 21.4.1.3.  A date-time adds
    [MakeTime] (21.4.1.27) and subtracts its offset; without an offset it
    is local time, converted by the parameter [localToUtc] (LocalTZA,
    which depends on the host's time zone).  [TimeClip] (21.4.1.31) makes
    values beyond 8.64e15 ms NaN ([None]).

    The theorems: the parser accepts only real calendar dates; the
    printer [formatIsoDate] and the parser are inverse on years 0-9999;
    the time value orders dates as the calendar does (year, then month,
    then day); every date of a year between -271820 and 275759 survives
    [TimeClip]; two dates of 4-digit years are less than 2^53 ms apart; a
    date-time printed as [YYYY-MM-DDTHH:mm:ss.sss] with [Z], an offset or
    nothing parses back to its time value, which with [Z] or an offset is
    the same in every time zone. *)

From S2P Require Import Prelude.

Module JsDate.

Local Open Scope Z_scope.

(** ** Days and time values (ECMA-262 21.4.1) *)

(** 21.4.1.3: [DaysInYear(y)]. *)
Definition daysInYear (y : Z) : Z :=
  if negb (y mod 4 =? 0)%Z then 365
  else if negb (y mod 100 =? 0)%Z then 366
  else if negb (y mod 400 =? 0)%Z then 365
  else 366.

(** 21.4.1.3: [DayFromYear(y)], the day number of January 1 of [y]. *)
Definition dayFromYear (y : Z) : Z :=
  365 * (y - 1970) + (y - 1969) / 4 - (y - 1901) / 100 + (y - 1601) / 400.

(** [InLeapYear]: 1 in a leap year, 0 otherwise. *)
Definition inLeapYear (y : Z) : Z := daysInYear y - 365.

(** 21.4.1.6 ([MonthFromTime]): the day within the year on which month
    [mn] (0-based) starts. *)
Definition monthStart (y mn : Z) : Z :=
  nth (Z.to_nat mn) [0; 31; 59; 90; 120; 151; 181; 212; 243; 273; 304; 334] 0 +
  (if (2 <=? mn)%Z then inLeapYear y else 0).

(** The number of days of month [m] (1-based), as [DateFromTime] counts
    them. *)
Definition daysInMonth (y m : Z) : Z :=
  nth (Z.to_nat (m - 1)) [31; 28 + inLeapYear y; 31; 30; 31; 30; 31; 31; 30; 31; 30; 31] 0.

Definition msPerDay : Z := 86400000.

(** 21.4.1.28 [MakeDay(year, month, date)] on integers: [ym] and [mn]
    normalise the month, then the day of the first of the month plus
    [date - 1]. *)
Definition makeDay (year month date : Z) : Z :=
  let ym := (year + month / 12)%Z in
  let mn := (month mod 12)%Z in
  dayFromYear ym + monthStart ym mn + date - 1.

(** 21.4.1.29 [MakeDate(day, time)]. *)
Definition makeDate (day time : Z) : Z := day * msPerDay + time.

(** 21.4.1.31 [TimeClip]: NaN beyond 8.64e15 ms from the epoch. *)
Definition timeClip (time : Z) : option Z :=
  if (Z.abs time <=? 8640000000000000)%Z then Some time else None.

(** ** The date-only forms of the Date Time String Format (21.4.1.32) *)

(** A decimal digit. *)
Definition digitValue (c : ascii) : option Z :=
  let n := nat_of_ascii c in
  if Nat.leb 48 n && Nat.leb n 57 then Some (Z.of_nat n - 48) else None.

(** Exactly [n] digits, read into the accumulator [acc]. *)
Fixpoint readDigits (n : nat) (acc : Z) (s : string) : option (Z * string) :=
  match n with
  | O => Some (acc, s)
  | S n' =>
      match s with
      | EmptyString => None
      | String c s' =>
          match digitValue c with
          | Some d => readDigits n' (acc * 10 + d) s'
          | None => None
          end
      end
  end.

(** [YYYY], or [+YYYYYY] / [-YYYYYY] (the expanded years; [-000000] is
    not an instance of the format). *)
Definition isoYear (s : string) : option (Z * string) :=
  match s with
  | EmptyString => None
  | String c s' =>
      if Ascii.eqb c "+" then readDigits 6 0 s'
      else if Ascii.eqb c "-" then
        match readDigits 6 0 s' with
        | Some (y, r) => if (y =? 0)%Z then None else Some ((- y)%Z, r)
        | None => None
        end
      else readDigits 4 0 s
  end.

(** [MM] is 01 to 12 and [DD] a day of that month: out-of-bounds values
    are not instances of the format. *)
Definition validMonth (m : Z) : bool := (1 <=? m)%Z && (m <=? 12)%Z.

Definition validDay (y m d : Z) : bool := (1 <=? d)%Z && (d <=? daysInMonth y m)%Z.

(** A date form at the start of the string: [YYYY], [YYYY-MM] or
    [YYYY-MM-DD], an absent month or day being 01, and the text after it. *)
Definition isoDatePart (s : string) : option (Z * Z * Z * string) :=
  match isoYear s with
  | None => None
  | Some (y, EmptyString) => Some (y, 1, 1, EmptyString)
  | Some (y, String c r) =>
      if negb (Ascii.eqb c "-") then Some (y, 1, 1, String c r) else
      match readDigits 2 0 r with
      | None => None
      | Some (m, EmptyString) => if validMonth m then Some (y, m, 1, EmptyString) else None
      | Some (m, String c' r') =>
          if negb (Ascii.eqb c' "-") then
            (if validMonth m then Some (y, m, 1, String c' r') else None)
          else
          match readDigits 2 0 r' with
          | Some (d, r'') => if validMonth m && validDay y m d then Some (y, m, d, r'') else None
          | None => None
          end
      end
  end.

(** The year, month and day of a date-only string. *)
Definition isoDateFields (s : string) : option (Z * Z * Z) :=
  match isoDatePart s with
  | Some (y, m, d, EmptyString) => Some (y, m, d)
  | _ => None
  end.

(** The time value of a date-only form: UTC midnight of that day. *)
Definition dateValue (y m d : Z) : Z := makeDate (makeDay y (m - 1) d) 0.

(** [new Date(s).getTime()]: [None] is NaN.  A string that is not a
    date-only form goes to the engine's [fallback]. *)
Definition dateGetTime (fallback : string -> option Z) (s : string) : option Z :=
  match isoDateFields s with
  | Some (y, m, d) => timeClip (dateValue y m d)
  | None => fallback s
  end.

(** ** The date-time forms *)

(** [HH:mm], [HH:mm:ss] or [HH:mm:ss.sss] after the ["T"], and the text
    after it. *)
Definition isoTimeFields (r : string) : option (Z * Z * Z * Z * string) :=
  match readDigits 2 0 r with
  | Some (hh, String c1 r1) =>
      if negb (Ascii.eqb c1 ":") then None else
      match readDigits 2 0 r1 with
      | None => None
      | Some (mm, EmptyString) => Some (hh, mm, 0, 0, EmptyString)
      | Some (mm, String c2 r2) =>
          if negb (Ascii.eqb c2 ":") then Some (hh, mm, 0, 0, String c2 r2) else
          match readDigits 2 0 r2 with
          | None => None
          | Some (ss, EmptyString) => Some (hh, mm, ss, 0, EmptyString)
          | Some (ss, String c3 r3) =>
              if negb (Ascii.eqb c3 ".") then Some (hh, mm, ss, 0, String c3 r3) else
              match readDigits 3 0 r3 with
              | Some (ms, r4) => Some (hh, mm, ss, ms, r4)
              | None => None
              end
          end
      end
  | _ => None
  end.

(** [HH] is 00 to 24, [mm] and [ss] 00 to 59; hour 24 is only
    [24:00:00.000], the end of the day. *)
Definition validTime (hh mm ss ms : Z) : bool :=
  (hh <=? 24) && (mm <=? 59) && (ss <=? 59) &&
  ((hh <? 24) || ((mm =? 0) && (ss =? 0) && (ms =? 0))).

(** 21.4.1.27 [MakeTime(hour, min, sec, ms)]. *)
Definition makeTime (hh mm ss ms : Z) : Z := hh * 3600000 + mm * 60000 + ss * 1000 + ms.

(** The UTC offset representation: absent ([Some None]), [Z], or
    [+HH:mm] / [-HH:mm] (in ms, positive east of UTC); [None] when the
    text is not one. *)
Definition isoOffset (r : string) : option (option Z) :=
  match r with
  | EmptyString => Some None
  | String c r' =>
      if Ascii.eqb c "Z" then
        match r' with EmptyString => Some (Some 0) | _ => None end
      else if Ascii.eqb c "+" || Ascii.eqb c "-" then
        match readDigits 2 0 r' with
        | Some (oh, String c' r'') =>
            if negb (Ascii.eqb c' ":") then None else
            match readDigits 2 0 r'' with
            | Some (om, EmptyString) =>
                if (oh <=? 23) && (om <=? 59) then
                  Some (Some ((if Ascii.eqb c "+" then 1 else -1) * (oh * 3600000 + om * 60000)))
                else None
            | _ => None
            end
        | _ => None
        end
      else None
  end.

(** [Date.parse] on a date-time form: local time without an offset,
    converted by the engine's [localToUtc] (LocalTZA, which depends on the
    time zone and its rules), otherwise the time minus the offset.  A
    string that is no date-time form goes to the engine's [fallback]. *)
Definition dateTimeGetTime (localToUtc : Z -> Z) (fallback : string -> option Z) (s : string)
    : option Z :=
  match isoDatePart s with
  | Some (y, m, d, String c r) =>
      if negb (Ascii.eqb c "T") then fallback s else
      match isoTimeFields r with
      | Some (hh, mm, ss, ms, rest) =>
          if negb (validTime hh mm ss ms) then fallback s else
          match isoOffset rest with
          | Some off =>
              let t := makeDate (makeDay y (m - 1) d) (makeTime hh mm ss ms) in
              timeClip (match off with Some o => t - o | None => localToUtc t end)
          | None => fallback s
          end
      | None => fallback s
      end
  | _ => fallback s
  end.

(** [new Date(s).getTime()]: the date-only forms, then the date-time
    forms, then the engine's own formats. *)
Definition dateParse (localToUtc : Z -> Z) (fallback : string -> option Z) : string -> option Z :=
  dateGetTime (dateTimeGetTime localToUtc fallback).

(** ** The printer of the round trip *)

Definition digitChar (d : Z) : ascii := ascii_of_nat (48 + Z.to_nat d)%nat.

(** The last [n] decimal digits of [v], most significant first. *)
Fixpoint showDigits (n : nat) (v : Z) : string :=
  match n with
  | O => EmptyString
  | S n' => (showDigits n' (v / 10) ++ String (digitChar (v mod 10)) EmptyString)%string
  end.

(** [YYYY-MM-DD], the date part of [Date.prototype.toISOString] for the
    years 0 to 9999. *)
Definition formatIsoDate (y m d : Z) : string :=
  (showDigits 4 y ++ String "-" (showDigits 2 m ++ String "-" (showDigits 2 d)))%string.

(** A calendar date is before another: by year, then month, then day. *)
(** [THH:mm:ss.sss] without its ["T"]. *)
Definition formatIsoTime (hh mm ss ms : Z) : string :=
  (showDigits 2 hh ++ String ":" (showDigits 2 mm ++ String ":" (showDigits 2 ss ++
     String "." (showDigits 3 ms))))%string.

(** The end of a date-time string: nothing (local time), [Z], or an
    offset [+HH:mm] east or [-HH:mm] west of UTC. *)
Inductive TzSuffix :=
| LocalTime
| Zulu
| UtcOffset (east : bool) (oh om : Z).

Definition formatTz (z : TzSuffix) : string :=
  match z with
  | LocalTime => EmptyString
  | Zulu => "Z"
  | UtcOffset east oh om =>
      String (if east then "+" else "-") (showDigits 2 oh ++ String ":" (showDigits 2 om))
  end.

Definition validTz (z : TzSuffix) : bool :=
  match z with
  | UtcOffset _ oh om => (0 <=? oh) && (oh <=? 23) && (0 <=? om) && (om <=? 59)
  | _ => true
  end.

Definition formatIsoDateTime (y m d hh mm ss ms : Z) (z : TzSuffix) : string :=
  (formatIsoDate y m d ++ String "T" (formatIsoTime hh mm ss ms ++ formatTz z))%string.

Definition dateLtb (a b : Z * Z * Z) : bool :=
  let '(y1, m1, d1) := a in
  let '(y2, m2, d2) := b in
  (y1 <? y2)%Z || ((y1 =? y2)%Z && ((m1 <? m2)%Z || ((m1 =? m2)%Z && (d1 <? d2)%Z))).

Definition ValidDate (y m d : Z) : Prop := validMonth m && validDay y m d = true.

(** ** Lemmas on the calendar *)

Lemma daysInYear_cases (y : Z) : daysInYear y = 365 \/ daysInYear y = 366.
Proof. unfold daysInYear. repeat case_match; auto. Qed.

Lemma inLeapYear_bounds (y : Z) : 0 <= inLeapYear y <= 1.
Proof. unfold inLeapYear. destruct (daysInYear_cases y); lia. Qed.

(** One year after January 1 of [y] comes January 1 of [y + 1]. *)
Lemma dayFromYear_succ (y : Z) : dayFromYear (y + 1) = dayFromYear y + daysInYear y.
Proof.
  unfold dayFromYear, daysInYear.
  destruct (Z.eqb_spec (y mod 4) 0), (Z.eqb_spec (y mod 100) 0), (Z.eqb_spec (y mod 400) 0);
    simpl; Z.div_mod_to_equations; lia.
Qed.

(** The days of the years from [y1] on come before January 1 of any
    later year. *)
Lemma dayFromYear_lt (y1 y2 : Z) : y1 < y2 -> dayFromYear y1 + daysInYear y1 <= dayFromYear y2.
Proof.
  intros Hlt. rewrite <- dayFromYear_succ.
  assert (Hk : forall k : nat, dayFromYear (y1 + 1) <= dayFromYear (y1 + 1 + Z.of_nat k)).
  { induction k as [|k IH]; [simpl; rewrite Z.add_0_r; lia|].
    replace (y1 + 1 + Z.of_nat (S k)) with (y1 + 1 + Z.of_nat k + 1) by lia.
    rewrite (dayFromYear_succ (y1 + 1 + Z.of_nat k)).
    destruct (daysInYear_cases (y1 + 1 + Z.of_nat k)); lia. }
  specialize (Hk (Z.to_nat (y2 - y1 - 1))). rewrite Z2Nat.id in Hk by lia.
  by replace (y1 + 1 + (y2 - y1 - 1)) with y2 in Hk by lia.
Qed.

(** The twelve months, one at a time. *)
Ltac month_cases m :=
  let H := fresh in
  assert (H : m = 1 \/ m = 2 \/ m = 3 \/ m = 4 \/ m = 5 \/ m = 6 \/ m = 7 \/ m = 8 \/
              m = 9 \/ m = 10 \/ m = 11 \/ m = 12) by lia;
  repeat destruct H as [H|H]; subst m.

(** A month ends where the next one starts, December where the year
    ends. *)
Lemma monthStart_next (y m : Z) : 1 <= m <= 12 ->
  monthStart y (m - 1) + daysInMonth y m =
  if (m =? 12) then daysInYear y else monthStart y m.
Proof.
  intros Hm. unfold monthStart, daysInMonth, inLeapYear.
  month_cases m; simpl; lia.
Qed.

Lemma daysInMonth_pos (y m : Z) : 1 <= m <= 12 -> 28 <= daysInMonth y m.
Proof. intros Hm. pose proof (inLeapYear_bounds y). unfold daysInMonth. month_cases m; simpl; lia. Qed.

(** Months start in the order of the calendar. *)
Lemma monthStart_mono (y m1 m2 : Z) : 1 <= m1 < m2 -> m2 <= 12 ->
  monthStart y (m1 - 1) + daysInMonth y m1 <= monthStart y (m2 - 1).
Proof.
  intros Hm1 Hm2. pose proof (inLeapYear_bounds y).
  unfold monthStart, daysInMonth. month_cases m2; month_cases m1; simpl; lia.
Qed.

(** For a month of the calendar, [MakeDay] does not carry into the
    year. *)
Lemma makeDay_month (y m d : Z) : 1 <= m <= 12 ->
  makeDay y (m - 1) d = dayFromYear y + monthStart y (m - 1) + d - 1.
Proof.
  intros Hm. unfold makeDay.
  rewrite (Z.div_small (m - 1) 12), (Z.mod_small (m - 1) 12), Z.add_0_r by lia. done.
Qed.

(** The day of a valid date within its year. *)
Lemma dayWithinYear_bounds (y m d : Z) : ValidDate y m d ->
  0 <= monthStart y (m - 1) + d - 1 /\ monthStart y (m - 1) + d - 1 < daysInYear y.
Proof.
  unfold ValidDate, validMonth, validDay. intros H. reflect_bool.
  pose proof (monthStart_next y m ltac:(lia)) as Hn.
  assert (0 <= monthStart y (m - 1)) by
    (pose proof (inLeapYear_bounds y); unfold monthStart; month_cases m; simpl; lia).
  destruct (Z.eqb_spec m 12) as [->|Hm]; [lia|].
  pose proof (monthStart_mono y m 12 ltac:(lia) ltac:(lia)).
  pose proof (monthStart_next y 12 ltac:(lia)) as H12. simpl in H12.
  pose proof (daysInMonth_pos y 12 ltac:(lia)). lia.
Qed.

(** ** Lemmas on digits *)

Lemma digitValue_digitChar (d : Z) : 0 <= d < 10 -> digitValue (digitChar d) = Some d.
Proof.
  intros Hd.
  assert (H : d = 0 \/ d = 1 \/ d = 2 \/ d = 3 \/ d = 4 \/ d = 5 \/ d = 6 \/ d = 7 \/
              d = 8 \/ d = 9) by lia.
  repeat destruct H as [H|H]; subst d; reflexivity.
Qed.

Lemma digitValue_bounds (c : ascii) (d : Z) : digitValue c = Some d -> 0 <= d < 10.
Proof.
  unfold digitValue. destruct (Nat.leb_spec 48 (nat_of_ascii c)), (Nat.leb_spec (nat_of_ascii c) 57);
    simpl; intros; simplify_eq; lia.
Qed.

(** Reading [n + 1] digits is reading [n], then one more. *)
Lemma readDigits_succ (n : nat) (acc : Z) (s : string) :
  readDigits (n + 1) acc s =
  match readDigits n acc s with Some (a, r) => readDigits 1 a r | None => None end.
Proof.
  revert acc s; induction n as [|n IH]; intros acc s; [reflexivity|].
  destruct s as [|c s]; [reflexivity|]. simpl. destruct (digitValue c); [apply IH|reflexivity].
Qed.

(** The reader reads back what the printer prints. *)
Lemma readDigits_showDigits (n : nat) (acc v : Z) (r : string) :
  0 <= v < 10 ^ Z.of_nat n ->
  readDigits n acc (showDigits n v ++ r) = Some (acc * 10 ^ Z.of_nat n + v, r).
Proof.
  revert acc v r; induction n as [|n IH]; intros acc v r Hv.
  - simpl in *. f_equal. f_equal. lia.
  - replace (S n) with (n + 1)%nat by lia. rewrite readDigits_succ.
    cbn [showDigits]. replace (n + 1)%nat with (S n) by lia. cbn [showDigits].
    rewrite string_app_assoc, string_app_cons, string_app_nil_l.
    rewrite Nat2Z.inj_succ, Z.pow_succ_r in Hv by lia.
    rewrite IH by (split; [apply Z.div_pos|apply Z.div_lt_upper_bound]; lia).
    cbn [readDigits]. rewrite digitValue_digitChar by (apply Z.mod_pos_bound; lia).
    f_equal. f_equal. rewrite Nat2Z.inj_succ, Z.pow_succ_r by lia.
    pose proof (Z.div_mod v 10 ltac:(lia)). lia.
Qed.

(** A successful read consumed [n] digits. *)
Lemma readDigits_bounds (n : nat) (acc v : Z) (s r : string) :
  0 <= acc -> readDigits n acc s = Some (v, r) ->
  acc * 10 ^ Z.of_nat n <= v < (acc + 1) * 10 ^ Z.of_nat n.
Proof.
  revert acc s; induction n as [|n IH]; intros acc s Hacc Hr.
  - simpl in *. simplify_eq. lia.
  - destruct s as [|c s]; [discriminate|]. simpl in Hr.
    destruct (digitValue c) as [d|] eqn:Hd; [|discriminate].
    pose proof (digitValue_bounds c d Hd).
    pose proof (IH (acc * 10 + d) s ltac:(lia) Hr) as Hb.
    rewrite Nat2Z.inj_succ, Z.pow_succ_r by lia.
    assert (0 < 10 ^ Z.of_nat n) by (apply Z.pow_pos_nonneg; lia).
    set (P := 10 ^ Z.of_nat n) in *.
    assert (0 <= d * P) by nia. assert ((d + 1) * P <= 10 * P) by nia. nia.
Qed.

(** The first character printed is a digit. *)
Lemma showDigits_head (n : nat) (v : Z) :
  exists c rest, showDigits (S n) v = String c rest /\ is_Some (digitValue c).
Proof.
  revert v; induction n as [|n IH]; intros v.
  - eexists _, _. split; [reflexivity|].
    rewrite digitValue_digitChar by (apply Z.mod_pos_bound; lia). by eexists.
  - destruct (IH (v / 10)) as (c & rest & Heq & Hc). cbn [showDigits] in *.
    rewrite Heq, string_app_cons. eexists _, _. split; [reflexivity|exact Hc].
Qed.

(** A string that starts with a digit has no sign: its year has four
    digits. *)
Lemma isoYear_digit (c : ascii) (rest : string) :
  is_Some (digitValue c) -> isoYear (String c rest) = readDigits 4 0 (String c rest).
Proof.
  intros Hc. unfold isoYear.
  destruct (Ascii.eqb_spec c "+"), (Ascii.eqb_spec c "-"); subst;
    try (destruct Hc as [? Hc]; discriminate); reflexivity.
Qed.

(** ** Lemmas on day numbers *)

(** The day number of a valid date. *)
Lemma makeDay_valid (y m d : Z) : ValidDate y m d ->
  makeDay y (m - 1) d = dayFromYear y + monthStart y (m - 1) + d - 1.
Proof. unfold ValidDate, validMonth. intros H. reflect_bool. apply makeDay_month. lia. Qed.

Lemma dayFromYear_le (y1 y2 : Z) : y1 <= y2 -> dayFromYear y1 <= dayFromYear y2.
Proof.
  intros H. destruct (Z.eq_dec y1 y2) as [->|Hne]; [lia|].
  pose proof (dayFromYear_lt y1 y2 ltac:(lia)). destruct (daysInYear_cases y1); lia.
Qed.

(** The day number grows with the calendar order. *)
Lemma makeDay_lt (y1 m1 d1 y2 m2 d2 : Z) :
  ValidDate y1 m1 d1 -> ValidDate y2 m2 d2 -> dateLtb (y1, m1, d1) (y2, m2, d2) = true ->
  makeDay y1 (m1 - 1) d1 < makeDay y2 (m2 - 1) d2.
Proof.
  intros H1 H2 Hlt. rewrite (makeDay_valid _ _ _ H1), (makeDay_valid _ _ _ H2).
  pose proof (dayWithinYear_bounds _ _ _ H1). pose proof (dayWithinYear_bounds _ _ _ H2).
  unfold ValidDate, validMonth, validDay in *. simpl in Hlt. reflect_bool.
  destruct Hlt as [Hy|[-> [Hm|[-> Hd]]]].
  - pose proof (dayFromYear_lt y1 y2 Hy). lia.
  - pose proof (monthStart_mono y2 m1 m2 ltac:(lia) ltac:(lia)). lia.
  - lia.
Qed.


(** The calendar order is total. *)
Lemma dateLtb_total (a b : Z * Z * Z) : dateLtb a b = false -> a = b \/ dateLtb b a = true.
Proof.
  destruct a as [[y1 m1] d1], b as [[y2 m2] d2]. simpl. intros H.
  destruct (Z.lt_trichotomy y1 y2) as [Hy|[<-|Hy]].
  - apply Z.ltb_lt in Hy. by rewrite Hy in H.
  - rewrite Z.ltb_irrefl, Z.eqb_refl in *. simpl in *.
    destruct (Z.lt_trichotomy m1 m2) as [Hm|[<-|Hm]].
    + apply Z.ltb_lt in Hm. by rewrite Hm in H.
    + rewrite Z.ltb_irrefl, Z.eqb_refl in *. simpl in *.
      destruct (Z.lt_trichotomy d1 d2) as [Hd|[<-|Hd]].
      * apply Z.ltb_lt in Hd. by rewrite Hd in H.
      * by left.
      * right. by apply Z.ltb_lt.
    + right. apply Z.ltb_lt in Hm. by rewrite Hm.
  - right. apply Z.ltb_lt in Hy. by rewrite Hy.
Qed.

(** The year of the format has four or six digits. *)
Lemma isoYear_bounds (s r : string) (y : Z) :
  isoYear s = Some (y, r) -> -999999 <= y <= 999999.
Proof.
  unfold isoYear. intros H. repeat case_match; simplify_eq;
    match goal with Hr : readDigits _ 0 _ = Some _ |- _ => apply readDigits_bounds in Hr end;
    simpl in *; lia.
Qed.

Lemma validDate_first (y m : Z) : validMonth m = true -> ValidDate y m 1.
Proof.
  unfold ValidDate, validDay, validMonth. intros Hm. reflect_bool.
  pose proof (daysInMonth_pos y m Hm). lia.
Qed.

(** The time value of a valid date, through its day number. *)
Lemma dateValue_valid (y m d : Z) : ValidDate y m d ->
  dateValue y m d = (dayFromYear y + monthStart y (m - 1) + d - 1) * msPerDay.
Proof. intros H. unfold dateValue, makeDate. rewrite makeDay_valid by done. lia. Qed.

(** A valid date lies within its year. *)
Lemma dateValue_year (y m d : Z) : ValidDate y m d ->
  dayFromYear y * msPerDay <= dateValue y m d < dayFromYear (y + 1) * msPerDay.
Proof.
  intros H. rewrite dateValue_valid, dayFromYear_succ by done.
  pose proof (dayWithinYear_bounds y m d H). unfold msPerDay. lia.
Qed.

(** The parser's result is a calendar date. *)
Lemma isoDatePart_valid (s r : string) (y m d : Z) :
  isoDatePart s = Some (y, m, d, r) -> ValidDate y m d /\ -999999 <= y <= 999999.
Proof.
  unfold isoDatePart. intros H.
  destruct (isoYear s) as [[y0 r0]|] eqn:Hy; [|discriminate].
  pose proof (isoYear_bounds s r0 y0 Hy).
  repeat case_match; simplify_eq; (split; [|lia]);
    first [apply validDate_first; done | unfold ValidDate; done].
Qed.

Lemma isoDateFields_part (s : string) (y m d : Z) :
  isoDateFields s = Some (y, m, d) -> isoDatePart s = Some (y, m, d, EmptyString).
Proof. unfold isoDateFields. repeat case_match; intros; by simplify_eq. Qed.

(** The parser's result is a calendar date. *)
Lemma isoDateFields_validDate (s : string) (y m d : Z) :
  isoDateFields s = Some (y, m, d) -> ValidDate y m d.
Proof. intros H. exact (proj1 (isoDatePart_valid s _ y m d (isoDateFields_part s y m d H))). Qed.

Lemma isoDateFields_year (s : string) (y m d : Z) :
  isoDateFields s = Some (y, m, d) -> -999999 <= y <= 999999.
Proof. intros H. exact (proj2 (isoDatePart_valid s _ y m d (isoDateFields_part s y m d H))). Qed.

Lemma dateValue_lt (y1 m1 d1 y2 m2 d2 : Z) :
  ValidDate y1 m1 d1 -> ValidDate y2 m2 d2 -> dateLtb (y1, m1, d1) (y2, m2, d2) = true ->
  dateValue y1 m1 d1 < dateValue y2 m2 d2.
Proof.
  intros H1 H2 Hb. pose proof (makeDay_lt _ _ _ _ _ _ H1 H2 Hb).
  unfold dateValue, makeDate, msPerDay. lia.
Qed.

(** [TimeClip] keeps the dates of the years -271820 to 275759. *)
Lemma timeClip_dateValue (y m d : Z) :
  ValidDate y m d -> -271821 < y < 275760 -> timeClip (dateValue y m d) = Some (dateValue y m d).
Proof.
  intros Hv Hy. unfold timeClip.
  pose proof (dateValue_year y m d Hv).
  pose proof (dayFromYear_le (-271820) y ltac:(lia)).
  pose proof (dayFromYear_le (y + 1) 275760 ltac:(lia)).
  assert (dayFromYear (-271820) = -99999744) by reflexivity.
  assert (dayFromYear 275760 = 99999744) by reflexivity.
  unfold msPerDay in *. destruct (Z.leb_spec (Z.abs (dateValue y m d)) 8640000000000000); [done|lia].
Qed.

(** The days of a valid month fit in two digits. *)
Lemma validDate_digits (y m d : Z) : ValidDate y m d -> 1 <= m <= 12 /\ 1 <= d <= 31.
Proof.
  intros Hv. unfold ValidDate, validMonth, validDay in Hv. reflect_bool.
  assert (daysInMonth y m <= 31) by (unfold daysInMonth; pose proof (inLeapYear_bounds y);
                                      month_cases m; simpl; lia).
  lia.
Qed.

(** The parser reads a printed date back, whatever follows it. *)
Lemma isoDatePart_format (y m d : Z) (rest : string) :
  0 <= y <= 9999 -> ValidDate y m d -> isoDatePart (formatIsoDate y m d ++ rest) = Some (y, m, d, rest).
Proof.
  intros Hy Hv. destruct (validDate_digits y m d Hv) as [Hm Hd].
  unfold formatIsoDate. autorewrite with motorcade_rw.
  unfold isoDatePart.
  destruct (showDigits_head 3 y) as (c & r & Heq & Hc).
  rewrite Heq, string_app_cons, isoYear_digit by done.
  rewrite <- string_app_cons, <- Heq, readDigits_showDigits by (simpl; lia).
  cbn -[readDigits showDigits].
  rewrite readDigits_showDigits by (simpl; lia). cbn -[readDigits showDigits].
  rewrite readDigits_showDigits by (simpl; lia).
  cbn -[readDigits showDigits validMonth validDay].
  replace (0 * 10 ^ Z.of_nat 2 + d) with d by lia.
  replace (0 * 10 ^ Z.of_nat 2 + m) with m by lia.
  replace (0 * 10 ^ Z.of_nat 4 + y) with y by lia.
  unfold ValidDate in Hv. by rewrite Hv.
Qed.

(** The parser reads a printed time back, whatever follows it. *)
Lemma isoTimeFields_format (hh mm ss ms : Z) (rest : string) :
  0 <= hh <= 99 -> 0 <= mm <= 99 -> 0 <= ss <= 99 -> 0 <= ms <= 999 ->
  isoTimeFields (formatIsoTime hh mm ss ms ++ rest) = Some (hh, mm, ss, ms, rest).
Proof.
  intros Hh Hm Hs Hms. unfold formatIsoTime, isoTimeFields.
  autorewrite with motorcade_rw.
  rewrite readDigits_showDigits by (simpl; lia). cbn -[readDigits showDigits].
  rewrite readDigits_showDigits by (simpl; lia). cbn -[readDigits showDigits].
  rewrite readDigits_showDigits by (simpl; lia). cbn -[readDigits showDigits].
  rewrite readDigits_showDigits by (simpl; lia). cbn -[readDigits showDigits].
  repeat f_equal; lia.
Qed.

(** The offset of a printed suffix, in ms east of UTC. *)
Lemma isoOffset_format (z : TzSuffix) :
  validTz z = true ->
  isoOffset (formatTz z) =
    Some (match z with
          | LocalTime => None
          | Zulu => Some 0
          | UtcOffset east oh om => Some ((if east then 1 else -1) * (oh * 3600000 + om * 60000))
          end).
Proof.
  destruct z as [| |east oh om]; [done|done|]. cbn [validTz]. intros Hz. reflect_bool.
  cbn [formatTz]. rewrite <- (string_app_nil_r (showDigits 2 om)).
  assert (Hsign : (Ascii.eqb (if east then "+" else "-") "Z" = false) /\
                  (Ascii.eqb (if east then "+" else "-") "+" || Ascii.eqb (if east then "+" else "-") "-"
                   = true) /\
                  (Ascii.eqb (if east then "+" else "-") "+" = east)) by (destruct east; done).
  destruct Hsign as (H1 & H2 & H3). unfold isoOffset. rewrite H1, H2.
  rewrite readDigits_showDigits by (simpl; lia). cbn -[readDigits showDigits].
  rewrite readDigits_showDigits by (simpl; lia). cbn -[readDigits showDigits].
  replace (0 * 10 ^ Z.of_nat 2 + oh) with oh by lia.
  replace (0 * 10 ^ Z.of_nat 2 + om) with om by lia.
  rewrite H3. destruct (Z.leb_spec oh 23), (Z.leb_spec om 59); try lia. done.
Qed.

(** [Date.parse] on a date-time form with a valid time and a well-formed
    offset part. *)
Lemma dateParse_datetime (localToUtc : Z -> Z) (fallback : string -> option Z) (s r rest : string)
    (y m d hh mm ss ms : Z) (off : option Z) :
  isoDatePart s = Some (y, m, d, String "T" r) -> isoTimeFields r = Some (hh, mm, ss, ms, rest) ->
  validTime hh mm ss ms = true -> isoOffset rest = Some off ->
  dateParse localToUtc fallback s =
    timeClip (match off with
              | Some o => makeDate (makeDay y (m - 1) d) (makeTime hh mm ss ms) - o
              | None => localToUtc (makeDate (makeDay y (m - 1) d) (makeTime hh mm ss ms))
              end).
Proof.
  intros Hs Hr Hv Ho. unfold dateParse, dateGetTime, isoDateFields, dateTimeGetTime.
  by rewrite Hs, Hr, Hv, Ho.
Qed.

(** ** Properties of the date parser *)

(** C35: Every string the parser reads as a date-only form is a date of
    the calendar: a month from 1 to 12, a day of that month (29 February
    only in a leap year), and a year of at most six digits. *)
Theorem isoDateFields_valid (s : string) (y m d : Z) :
  isoDateFields s = Some (y, m, d) -> ValidDate y m d /\ -999999 <= y <= 999999.
Proof.
  intros H. split; [exact (isoDateFields_validDate s y m d H)|exact (isoDateFields_year s y m d H)].
Qed.

(** C36: Printing a date of the years 0 to 9999 as [YYYY-MM-DD] and
    parsing it gives the date back. *)
Theorem formatIsoDate_roundtrip (y m d : Z) :
  0 <= y <= 9999 -> ValidDate y m d -> isoDateFields (formatIsoDate y m d) = Some (y, m, d).
Proof.
  intros Hy Hv. unfold isoDateFields.
  by rewrite <- (string_app_nil_r (formatIsoDate y m d)), isoDatePart_format.
Qed.

(** C34: On valid dates the time value orders dates as the calendar
    does: earlier year, or same year and earlier month, or same month and
    earlier day. *)
Theorem dateValue_calendar_order (y1 m1 d1 y2 m2 d2 : Z) :
  ValidDate y1 m1 d1 -> ValidDate y2 m2 d2 ->
  dateValue y1 m1 d1 < dateValue y2 m2 d2 <-> dateLtb (y1, m1, d1) (y2, m2, d2) = true.
Proof.
  intros H1 H2. split; [|by apply dateValue_lt].
  intros Hlt. destruct (dateLtb (y1, m1, d1) (y2, m2, d2)) eqn:Hb; [done|exfalso].
  destruct (dateLtb_total _ _ Hb) as [Heq|Hb'].
  - injection Heq as -> -> ->. lia.
  - pose proof (dateValue_lt _ _ _ _ _ _ H2 H1 Hb'). lia.
Qed.

(** C39: A date-only string of a year from -271820 to 275759 is never
    clipped: [new Date(s).getTime()] is its time value, not NaN. *)
Theorem dateGetTime_iso (fallback : string -> option Z) (s : string) (y m d : Z) :
  isoDateFields s = Some (y, m, d) -> -271821 < y < 275760 ->
  dateGetTime fallback s = Some (dateValue y m d).
Proof.
  intros Hs Hy. unfold dateGetTime. rewrite Hs.
  apply timeClip_dateValue; [exact (isoDateFields_validDate s y m d Hs)|done].
Qed.

(** Two dates of the years 0 to 9999 are less than 2^53 ms apart,
    so the subtraction of line 61 is exact in double precision. *)
Theorem dateValue_diff_exact (y1 m1 d1 y2 m2 d2 : Z) :
  ValidDate y1 m1 d1 -> ValidDate y2 m2 d2 -> 0 <= y1 <= 9999 -> 0 <= y2 <= 9999 ->
  Z.abs (dateValue y1 m1 d1 - dateValue y2 m2 d2) < 2 ^ 53.
Proof.
  intros H1 H2 Hy1 Hy2.
  pose proof (dateValue_year y1 m1 d1 H1). pose proof (dateValue_year y2 m2 d2 H2).
  pose proof (dayFromYear_le 0 y1 ltac:(lia)). pose proof (dayFromYear_le 0 y2 ltac:(lia)).
  pose proof (dayFromYear_le (y1 + 1) 10000 ltac:(lia)).
  pose proof (dayFromYear_le (y2 + 1) 10000 ltac:(lia)).
  assert (dayFromYear 0 = -719528) by reflexivity.
  assert (dayFromYear 10000 = 2932897) by reflexivity.
  unfold msPerDay in *. lia.
Qed.

(** C13: Printing a date-time of the years 0 to 9999 as
    [YYYY-MM-DDTHH:mm:ss.sss] followed by [Z], [+HH:mm], [-HH:mm] or
    nothing, [new Date(s).getTime()] gives back its time value: the UTC
    time written, minus the offset east of UTC, plus the offset west of
    it; only without a suffix is the time local and converted by the
    zone's [localToUtc].  A string with [Z] or an offset thus has the same
    value in every time zone and under every engine's fallback. *)
Theorem dateParse_datetime_roundtrip (localToUtc : Z -> Z) (fallback : string -> option Z)
    (y m d hh mm ss ms : Z) (z : TzSuffix) :
  0 <= y <= 9999 -> ValidDate y m d ->
  0 <= hh <= 23 -> 0 <= mm <= 59 -> 0 <= ss <= 59 -> 0 <= ms <= 999 -> validTz z = true ->
  dateParse localToUtc fallback (formatIsoDateTime y m d hh mm ss ms z) =
    timeClip (let t := dateValue y m d + hh * 3600000 + mm * 60000 + ss * 1000 + ms in
              match z with
              | LocalTime => localToUtc t
              | Zulu => t
              | UtcOffset true oh om => t - (oh * 3600000 + om * 60000)
              | UtcOffset false oh om => t + (oh * 3600000 + om * 60000)
              end).
Proof.
  intros Hy Hv Hh Hm Hs Hms Hz. unfold formatIsoDateTime.
  assert (Hvt : validTime hh mm ss ms = true)
    by (unfold validTime; reflect_bool; lia).
  rewrite (dateParse_datetime localToUtc fallback _ _ _ y m d hh mm ss ms _
             (isoDatePart_format y m d _ Hy Hv) (isoTimeFields_format hh mm ss ms _ ltac:(lia) ltac:(lia)
             ltac:(lia) Hms) Hvt (isoOffset_format z Hz)).
  unfold dateValue, makeDate, makeTime. f_equal.
  destruct z as [| |[|] oh om]; lia || (f_equal; lia).
Qed.


(** ** Witnesses *)

Lemma isoDateFields_valid_witness :
  isoDateFields "2024-02-29" = Some (2024, 2, 29) /\ ValidDate 2024 2 29.
Proof.
  assert (H : isoDateFields "2024-02-29" = Some (2024, 2, 29)) by reflexivity.
  split; [exact H|]. exact (proj1 (isoDateFields_valid _ _ _ _ H)).
Defined.

Lemma formatIsoDate_roundtrip_witness :
  ValidDate 2024 1 15 /\ isoDateFields (formatIsoDate 2024 1 15) = Some (2024, 1, 15).
Proof.
  assert (H : ValidDate 2024 1 15) by reflexivity.
  split; [exact H|]. exact (formatIsoDate_roundtrip 2024 1 15 ltac:(lia) H).
Defined.

Lemma dateValue_calendar_order_witness :
  ValidDate 2023 5 10 /\ ValidDate 2024 1 15 /\ dateValue 2023 5 10 < dateValue 2024 1 15.
Proof.
  assert (H1 : ValidDate 2023 5 10) by reflexivity.
  assert (H2 : ValidDate 2024 1 15) by reflexivity.
  split; [exact H1|]. split; [exact H2|].
  apply (dateValue_calendar_order 2023 5 10 2024 1 15 H1 H2). reflexivity.
Defined.

Lemma dateGetTime_iso_witness :
  isoDateFields "2024-03-01" = Some (2024, 3, 1) /\
  dateGetTime (fun _ => None) "2024-03-01" = Some 1709251200000.
Proof.
  assert (H : isoDateFields "2024-03-01" = Some (2024, 3, 1)) by reflexivity.
  split; [exact H|]. rewrite (dateGetTime_iso (fun _ => None) _ 2024 3 1 H ltac:(lia)).
  reflexivity.
Defined.

Lemma dateValue_diff_exact_witness :
  ValidDate 0 1 1 /\ ValidDate 9999 12 31 /\
  Z.abs (dateValue 0 1 1 - dateValue 9999 12 31) < 2 ^ 53.
Proof.
  assert (H1 : ValidDate 0 1 1) by reflexivity.
  assert (H2 : ValidDate 9999 12 31) by reflexivity.
  split; [exact H1|]. split; [exact H2|].
  exact (dateValue_diff_exact 0 1 1 9999 12 31 H1 H2 ltac:(lia) ltac:(lia)).
Defined.

(** [2024-01-15T12:30:00.000+02:00] is 10:30 UTC, in any zone. *)
Lemma dateParse_datetime_roundtrip_witness :
  ValidDate 2024 1 15 /\ validTz (UtcOffset true 2 0) = true /\
  dateParse (fun t => t - 3600000) (fun _ => None) "2024-01-15T12:30:00.000+02:00" = Some 1705314600000.
Proof.
  assert (Hv : ValidDate 2024 1 15) by reflexivity.
  assert (Hz : validTz (UtcOffset true 2 0) = true) by reflexivity.
  split; [exact Hv|]. split; [exact Hz|].
  change "2024-01-15T12:30:00.000+02:00"%string with (formatIsoDateTime 2024 1 15 12 30 0 0 (UtcOffset true 2 0)).
  rewrite (dateParse_datetime_roundtrip (fun t => t - 3600000) (fun _ => None) 2024 1 15 12 30 0 0
             (UtcOffset true 2 0) ltac:(lia) Hv ltac:(lia) ltac:(lia) ltac:(lia) ltac:(lia) Hz).
  reflexivity.
Defined.

End JsDate.
