(* ===== verification/HtmlEmail.v ===== *)
(** * The browser's checks on [<input type="email">]

    [ContactForm.tsx] line 77 declares the email field [type="email"]
    and [required].  The HTML Standard (4.10.5.1.5) then does two
    things the component relies on:

    - value sanitization: the element's value has its newlines stripped
      and its leading and trailing ASCII whitespace stripped, so the
      [e.target.value] that [handleChange] stores never has them;
    - constraint validation: a non-empty value that is not a "valid email
      address" makes the element suffer from a type mismatch, and the form
      is not submitted.

    A valid email address is the Standard's grammar
    [1*(atext / ".") "@" label *("." label)], a label being 1 to 63
    letters, digits and hyphens that starts and ends with a letter or a
    digit.  [validEmail] checks it by splitting at the first ["@"] and
    at every ["."] of the domain; [validEmail_spec] shows the check equal
    to the grammar. *)

From S2P Require Import Prelude.

Module HtmlEmail.

(** ** Characters *)

Definition isAlnum (c : ascii) : bool :=
  let n := nat_of_ascii c in
  (Nat.leb 48 n && Nat.leb n 57) || (Nat.leb 65 n && Nat.leb n 90) || (Nat.leb 97 n && Nat.leb n 122).

Definition allChars (f : ascii -> bool) (s : string) : bool :=
  forallb f (list_ascii_of_string s).

Definition anyChar (f : ascii -> bool) (s : string) : bool :=
  existsb f (list_ascii_of_string s).

(** The characters of the local part: [atext] of RFC 5322 and ["."]. *)
Definition isLocalChar (c : ascii) : bool :=
  isAlnum c || anyChar (Ascii.eqb c) ".!#$%&'*+/=?^_`{|}~-".

Definition isLabelChar (c : ascii) : bool := isAlnum c || Ascii.eqb c "-".

(** ** Splitting *)

(** The text before the first [sep] and the text after it. *)
Fixpoint splitFirst (sep : ascii) (s : string) : option (string * string) :=
  match s with
  | EmptyString => None
  | String c s' =>
      if Ascii.eqb c sep then Some (EmptyString, s')
      else match splitFirst sep s' with
           | Some (a, b) => Some (String c a, b)
           | None => None
           end
  end.

(** The pieces between the [sep]s. *)
Fixpoint splitOn (sep : ascii) (s : string) : list string :=
  match s with
  | EmptyString => [EmptyString]
  | String c s' =>
      if Ascii.eqb c sep then EmptyString :: splitOn sep s'
      else match splitOn sep s' with
           | a :: rest => String c a :: rest
           | [] => [String c EmptyString]
           end
  end.

(** Pieces joined by [sep]. *)
Fixpoint joinWith (sep : ascii) (pieces : list string) : string :=
  match pieces with
  | [] => EmptyString
  | [p] => p
  | p :: rest => (p ++ String sep (joinWith sep rest))%string
  end.

(** ** The valid email address *)

(** [[a-zA-Z0-9]([a-zA-Z0-9-]{0,61}[a-zA-Z0-9])?] *)
Definition validLabel (l : string) : bool :=
  match list_ascii_of_string l with
  | [] => false
  | c :: _ =>
      isAlnum c && Nat.leb (String.length l) 63 && allChars isLabelChar l &&
      match last (list_ascii_of_string l) with Some d => isAlnum d | None => false end
  end.

Definition validEmail (s : string) : bool :=
  match splitFirst "@" s with
  | Some (local, domain) =>
      negb (local =? EmptyString)%string && allChars isLocalChar local &&
      forallb validLabel (splitOn "." domain)
  | None => false
  end.

(** The grammar of the Standard. *)
Definition EmailAddress (s : string) : Prop :=
  exists local labels,
    local <> EmptyString /\ allChars isLocalChar local = true /\
    labels <> [] /\ Forall (fun l => validLabel l = true) labels /\
    s = (local ++ String "@" (joinWith "." labels))%string.

(** ** Value sanitization *)

Definition isNewline (c : ascii) : bool := Ascii.eqb c "010" || Ascii.eqb c "013".

(** ASCII whitespace: tab, newline, form feed, carriage return, space. *)
Definition isAsciiWhitespace (c : ascii) : bool :=
  isNewline c || Ascii.eqb c "009" || Ascii.eqb c "012" || Ascii.eqb c " ".

(** A value the sanitization algorithm leaves as it is: no newline, no
    whitespace at either end. *)
Definition sanitizedEmailValue (v : string) : bool :=
  negb (anyChar isNewline v) &&
  match list_ascii_of_string v with
  | [] => true
  | c :: _ =>
      negb (isAsciiWhitespace c) &&
      match last (list_ascii_of_string v) with Some d => negb (isAsciiWhitespace d) | None => true end
  end.

(** ** Lemmas on characters and splitting *)

(** A character other than [sep]. *)
Definition notSep (sep c : ascii) : bool := negb (Ascii.eqb c sep).

Lemma allChars_cons (f : ascii -> bool) (c : ascii) (s : string) :
  allChars f (String c s) = f c && allChars f s.
Proof. reflexivity. Qed.

Lemma allChars_impl (f g : ascii -> bool) (s : string) :
  (forall c, f c = true -> g c = true) -> allChars f s = true -> allChars g s = true.
Proof.
  intros Hfg. unfold allChars. rewrite !forallb_forall. intros H c Hc. by apply Hfg, H.
Qed.

Lemma isLocalChar_not_at (c : ascii) : isLocalChar c = true -> notSep "@" c = true.
Proof. unfold notSep. by destruct (Ascii.eqb_spec c "@") as [->|]. Qed.

Lemma isLabelChar_not_dot (c : ascii) : isLabelChar c = true -> notSep "." c = true.
Proof. unfold notSep. by destruct (Ascii.eqb_spec c ".") as [->|]. Qed.

Lemma validLabel_chars (l : string) : validLabel l = true -> allChars isLabelChar l = true.
Proof.
  unfold validLabel. destruct (list_ascii_of_string l) eqn:Hl; [discriminate|].
  intros H. reflect_bool. tauto.
Qed.

Lemma splitFirst_app (sep : ascii) (a b : string) :
  allChars (notSep sep) a = true -> splitFirst sep (a ++ String sep b) = Some (a, b).
Proof.
  induction a as [|c a IH]; intros Ha; simpl.
  - by rewrite Ascii.eqb_refl.
  - rewrite allChars_cons in Ha. unfold notSep in Ha. reflect_bool. destruct Ha as [Hc Ha].
    rewrite Hc, IH by done. done.
Qed.

Lemma splitFirst_some (sep : ascii) (s a b : string) :
  splitFirst sep s = Some (a, b) -> s = (a ++ String sep b)%string /\ allChars (notSep sep) a = true.
Proof.
  revert a b; induction s as [|c s IH]; intros a b H; simpl in H; [discriminate|].
  destruct (Ascii.eqb_spec c sep) as [->|Hne].
  - by simplify_eq.
  - destruct (splitFirst sep s) as [[a' b']|] eqn:Hs; [|discriminate]. simplify_eq.
    destruct (IH _ _ eq_refl) as [-> Ha]. split; [done|].
    rewrite allChars_cons, Ha. unfold notSep. by destruct (Ascii.eqb_spec c sep).
Qed.

Lemma splitOn_cons (sep : ascii) (s : string) : exists a rest, splitOn sep s = a :: rest.
Proof. destruct s as [|c s]; simpl; [by eexists _, _|]. repeat case_match; by eexists _, _. Qed.

Lemma joinWith_cons (sep c : ascii) (a : string) (rest : list string) :
  joinWith sep (String c a :: rest) = String c (joinWith sep (a :: rest)).
Proof. by destruct rest. Qed.

(** Joining the pieces gives the string back. *)
Lemma joinWith_splitOn (sep : ascii) (s : string) : joinWith sep (splitOn sep s) = s.
Proof.
  induction s as [|c s IH]; [done|]. simpl.
  destruct (Ascii.eqb_spec c sep) as [->|Hne].
  - destruct (splitOn_cons sep s) as (a & rest & Hs). rewrite Hs in *.
    change (joinWith sep ("" :: a :: rest)) with ("" ++ String sep (joinWith sep (a :: rest)))%string.
    by rewrite IH.
  - destruct (splitOn_cons sep s) as (a & rest & Hs). rewrite Hs in *.
    by rewrite joinWith_cons, IH.
Qed.

Lemma splitOn_app (sep : ascii) (p t : string) :
  allChars (notSep sep) p = true -> splitOn sep (p ++ String sep t) = p :: splitOn sep t.
Proof.
  induction p as [|c p IH]; intros Hp; simpl; [by rewrite Ascii.eqb_refl|].
  rewrite allChars_cons in Hp. unfold notSep in Hp. reflect_bool. destruct Hp as [Hc Hp].
  rewrite Hc, IH by done. done.
Qed.

Lemma splitOn_nosep (sep : ascii) (p : string) :
  allChars (notSep sep) p = true -> splitOn sep p = [p].
Proof.
  induction p as [|c p IH]; intros Hp; simpl; [done|].
  rewrite allChars_cons in Hp. unfold notSep in Hp. reflect_bool. destruct Hp as [Hc Hp].
  rewrite Hc, IH by done. done.
Qed.

(** Splitting pieces without [sep] once joined gives them back. *)
Lemma splitOn_joinWith (sep : ascii) (ps : list string) :
  ps <> [] -> Forall (fun p => allChars (notSep sep) p = true) ps -> splitOn sep (joinWith sep ps) = ps.
Proof.
  induction ps as [|p [|q rest] IH]; intros Hne HF; [done| |].
  - inversion HF; subst. by apply splitOn_nosep.
  - inversion HF as [|? ? Hp HF']; subst. cbn [joinWith].
    rewrite splitOn_app by done. f_equal. by apply IH.
Qed.

(** ** Valid addresses are sanitized values *)

Lemma allChars_app (f : ascii -> bool) (a b : string) :
  allChars f (a ++ b) = allChars f a && allChars f b.
Proof. induction a as [|c a IH]; [done|]. rewrite string_app_cons, !allChars_cons, IH. apply andb_assoc. Qed.

Lemma allChars_joinWith (f : ascii -> bool) (sep : ascii) (pieces : list string) :
  f sep = true -> Forall (fun p => allChars f p = true) pieces -> allChars f (joinWith sep pieces) = true.
Proof.
  intros Hsep HF. induction HF as [|p rest Hp HF IH]; [done|].
  destruct rest as [|q rest]; [done|]. cbn [joinWith].
  rewrite allChars_app, allChars_cons, Hp, Hsep. exact IH.
Qed.

Lemma isLocalChar_not_ws (c : ascii) : isLocalChar c = true -> isAsciiWhitespace c = false.
Proof. destruct c as [[] [] [] [] [] [] [] []]; vm_compute; congruence. Qed.

Lemma isLabelChar_not_ws (c : ascii) : isLabelChar c = true -> isAsciiWhitespace c = false.
Proof. destruct c as [[] [] [] [] [] [] [] []]; vm_compute; congruence. Qed.

(** No character of a valid address is ASCII whitespace. *)
Lemma emailAddress_no_ws (s : string) :
  EmailAddress s -> allChars (fun c => negb (isAsciiWhitespace c)) s = true.
Proof.
  intros (local & labels & _ & Hloc & _ & HF & ->).
  rewrite allChars_app, allChars_cons. apply andb_true_iff. split.
  { apply (allChars_impl isLocalChar); [|done]. intros c Hc. by rewrite isLocalChar_not_ws. }
  apply andb_true_iff. split; [done|]. apply allChars_joinWith; [done|].
  apply List.Forall_forall. intros l Hl.
  apply (allChars_impl isLabelChar); [intros c Hc; by rewrite isLabelChar_not_ws|].
  apply validLabel_chars. exact (proj1 (List.Forall_forall _ _) HF l Hl).
Qed.

(** The browser keeps a valid address as it is typed. *)
Lemma emailAddress_sanitized (s : string) : EmailAddress s -> sanitizedEmailValue s = true.
Proof.
  intros Hs. pose proof (emailAddress_no_ws s Hs) as Hw. unfold allChars in Hw.
  rewrite forallb_forall in Hw. unfold sanitizedEmailValue, anyChar.
  assert (Hn : existsb isNewline (list_ascii_of_string s) = false).
  { apply not_true_is_false. intros Hx. apply existsb_exists in Hx as (c & Hc & Hnl).
    specialize (Hw c Hc). unfold isAsciiWhitespace in Hw. rewrite Hnl in Hw. discriminate. }
  rewrite Hn. destruct (list_ascii_of_string s) as [|c cs] eqn:Hl; [done|].
  rewrite (Hw c (or_introl eq_refl)). cbn [negb andb].
  destruct (last (c :: cs)) as [d|] eqn:Hd; [|done].
  apply Hw. rewrite <- Hl in Hd |- *. apply list_elem_of_In. by apply last_Some_elem_of.
Qed.

(** ** Properties *)

(** C37: The browser's check of line 77 is the grammar of a valid email
    address: a non-empty local part of [atext] and dots, one ["@"], and
    one or more labels joined by dots. *)
Theorem validEmail_spec (s : string) : validEmail s = true <-> EmailAddress s.
Proof.
  unfold validEmail, EmailAddress. split.
  - destruct (splitFirst "@" s) as [[local domain]|] eqn:Hs; [|discriminate].
    intros H. apply andb_true_iff in H as [H Hlab]. apply andb_true_iff in H as [Hne Hloc].
    apply negb_true_iff, String.eqb_neq in Hne.
    apply splitFirst_some in Hs as [-> _].
    exists local, (splitOn "." domain). do 2 (split; [done|]). split.
    { destruct (splitOn_cons "." domain) as (a & rest & ->). discriminate. }
    split; [|by rewrite joinWith_splitOn].
    apply List.Forall_forall. by apply forallb_forall.
  - intros (local & labels & Hne & Hloc & Hl & HF & ->).
    rewrite splitFirst_app by (apply (allChars_impl isLocalChar); [apply isLocalChar_not_at|done]).
    rewrite splitOn_joinWith; [|done|].
    + apply andb_true_iff. split; [apply andb_true_iff; split; [by apply negb_true_iff, String.eqb_neq|done]|].
      apply forallb_forall. by apply List.Forall_forall.
    + apply List.Forall_forall. intros l Hl'.
      apply (allChars_impl isLabelChar); [apply isLabelChar_not_dot|].
      apply validLabel_chars. exact (proj1 (List.Forall_forall _ _) HF l Hl').
Qed.

(** ** Witnesses *)

(** The address of the contact scenario is one of the grammar's. *)
Example validEmail_sample : EmailAddress "ana@example.com".
Proof.
  exists "ana", ["example"; "com"]. repeat split; try discriminate; repeat constructor.
Qed.

End HtmlEmail.
