(* ===== verification/Catalog.v ===== *)
(** * The product pipeline of [src/src/pages/Products.tsx]

    The pure part of the product page: the product record read from
    [/products.json], the category list (lines 12-20), the filter callback
    (lines 49-58), the date comparator (lines 59-66), the effect's
    [updatedProducts] (lines 51-66), [totalPages] (line 72), the page slice
    (lines 73-76) and the page numbers of the pagination bar (line 177).

    The translation function [t] and the date parser [new Date(s).getTime()]
    are parameters ([getTime] returns [None] for NaN).  The engine's sort is
    any instance of [JsArray.ArraySort]: every theorem here holds for every
    engine that honours the ECMA-262 contract. *)

From S2P Require Import Prelude JsString JsArray V8Sort.
Import JsString JsArray V8Sort.

Module Catalog.

(** ** Data *)

(** A record of [/products.json].  Only the fields the page's logic reads
    are kept; the rendering-only attributes passed to [ProductCard] are not
    modelled. *)
Record Product := mkProduct {
  id : string;
  category : string;
  name : string;
  description : string;
  date : string
}.

(** An entry of [categories]: a translation key and its label. *)
Record Category := mkCategory {
  key : string;
  label : string
}.

#[export] Instance Product_eq_dec : EqDecision Product.
Proof. solve_decision. Defined.

#[export] Instance Category_eq_dec : EqDecision Category.
Proof. solve_decision. Defined.

(** Lines 12-20, built at every render with the current [t]. *)
Definition categories (t : string -> string) : list Category :=
  map (fun k => mkCategory k (t k))
    ["category.all"; "category.excavator"; "category.loader"; "category.roller";
     "category.truck"; "category.bulldozer"; "category.underground_machines"].

(** Line 29. *)
Definition itemsPerPage : Z := 9.

(** ** Filtering and sorting (the body of the effect, lines 49-66) *)

Section Pipeline.
Context {engine : ArraySort}.
Variable t : string -> string.
Variable getTime : string -> option Z.

(** Line 49. *)
Definition isAllCategory (selectedCategory : Category) : bool :=
  key selectedCategory === "category.all".

(** The callback of [products.filter], lines 52-58. *)
Definition productMatches (selectedCategory : Category) (searchQuery : string)
    (product : Product) : bool :=
  let isCategoryMatch :=
    isAllCategory selectedCategory || (category product === key selectedCategory) in
  let isSearchMatch :=
    includesIgnoreCase (t (name product)) searchQuery ||
    includesIgnoreCase (t (description product)) searchQuery in
  isCategoryMatch && isSearchMatch.

(** [new Date(x).getTime() - new Date(y).getTime()]: NaN when either
    date is invalid. *)
Definition timeDiff (x y : string) : option Z :=
  match getTime x, getTime y with
  | Some tx, Some ty => Some (tx - ty)%Z
  | _, _ => None
  end.

(** The callback of [.sort], lines 59-66. *)
Definition compareProducts (sortBy : string) (a b : Product) : option Z :=
  if sortBy === "newest" then timeDiff (date b) (date a)
  else if sortBy === "oldest" then timeDiff (date a) (date b)
  else Some 0%Z.

(** The comparator as the engine sees it (SortCompare maps NaN to +0). *)
Definition productCmp (sortBy : string) (a b : Product) : Z :=
  sortCompare (compareProducts sortBy a b).

(** Lines 51-66. *)
Definition updatedProducts (selectedCategory : Category) (searchQuery sortBy : string)
    (products : list Product) : list Product :=
  sort (productCmp sortBy)
    (List.filter (productMatches selectedCategory searchQuery) products).
End Pipeline.

(** ** Pagination (lines 72-76 and 177) *)

(** Line 72: [Math.ceil(filteredProducts.length / itemsPerPage)]. *)
Definition totalPages (filteredProducts : list Product) : Z :=
  ceilDiv (Z.of_nat (length filteredProducts)) itemsPerPage.

(** Lines 73-76. *)
Definition paginatedProducts (filteredProducts : list Product) (currentPage : Z)
    : list Product :=
  slice filteredProducts ((currentPage - 1) * itemsPerPage) (currentPage * itemsPerPage).

(** Line 177: [Array.from({ length: totalPages }, (_, i) => i + 1)], the
    numbers of the page buttons. *)
Definition pageNumbers (totalPages : Z) : list Z :=
  map (fun i => Z.of_nat i + 1)%Z (seq 0 (Z.to_nat totalPages)).

(** ** Sample data for the witnesses *)

Definition sampleGetTime (s : string) : option Z :=
  if s === "2024-03-01" then Some 1709251200000%Z
  else if s === "2023-05-10" then Some 1683676800000%Z
  else if s === "2024-01-15" then Some 1705276800000%Z
  else None.

(** A translation table that returns the key itself. *)
Definition keyTranslation (k : string) : string := k.

Definition allCategory : Category := mkCategory "category.all" "All".

Definition sampleProducts : list Product :=
  [mkProduct "1" "category.loader" "product.l1.name" "product.l1.desc" "2023-05-10";
   mkProduct "2" "category.truck" "product.t1.name" "product.t1.desc" "2024-03-01";
   mkProduct "3" "category.loader" "product.l2.name" "product.l2.desc" "2024-01-15"].

(** Two products of one date around a newer one. *)
Definition tieProducts : list Product :=
  [mkProduct "1" "category.loader" "product.l1.name" "product.l1.desc" "2024-01-15";
   mkProduct "2" "category.truck" "product.t1.name" "product.t1.desc" "2024-03-01";
   mkProduct "3" "category.loader" "product.l2.name" "product.l2.desc" "2024-01-15"].

Definition twentyProducts : list Product :=
  replicate 20 (mkProduct "0" "category.roller" "product.r.name" "product.r.desc" "2024-01-15").

(** ** Lemmas *)

Section PipelineFacts.
Context {engine : ArraySort} (t : string -> string) (getTime : string -> option Z).

Lemma updatedProducts_perm c q s ps :
  Permutation (updatedProducts t getTime c q s ps)
    (List.filter (productMatches t c q) ps).
Proof. apply sort_perm. Qed.

Lemma productMatches_spec c q p :
  productMatches t c q p = true <->
  (key c = "category.all" \/ category p = key c) /\
  (ContainsIgnoringCase (t (name p)) q \/ ContainsIgnoringCase (t (description p)) q).
Proof.
  unfold productMatches, isAllCategory.
  rewrite <- !includesIgnoreCase_spec. by reflect_bool.
Qed.

Lemma in_updatedProducts c q s ps p :
  In p (updatedProducts t getTime c q s ps) -> In p ps /\ productMatches t c q p = true.
Proof.
  intros Hp. apply (Permutation_in p (updatedProducts_perm c q s ps)) in Hp.
  by apply filter_In in Hp.
Qed.

(** On products whose dates parse, the comparator is the difference of
    the dates, newest first or oldest first. *)
Lemma productCmp_dates a b ta tb :
  getTime (date a) = Some ta -> getTime (date b) = Some tb ->
  productCmp getTime "newest" a b = (tb - ta)%Z /\
  productCmp getTime "oldest" a b = (ta - tb)%Z.
Proof.
  intros Ha Hb. unfold productCmp, compareProducts, timeDiff.
  rewrite Ha, Hb. done.
Qed.

Lemma productCmp_keyCmp (l : list Product) s :
  Forall (fun p => is_Some (getTime (date p))) l ->
  forall a b, In a l -> In b l ->
  productCmp getTime s a b =
    if s === "newest" then keyCmp (fun p => - sortCompare (getTime (date p)))%Z a b
    else if s === "oldest" then keyCmp (fun p => sortCompare (getTime (date p))) a b
    else keyCmp (fun _ => 0%Z) a b.
Proof.
  intros Hv a b Ha Hb.
  destruct (proj1 (List.Forall_forall _ _) Hv a Ha) as [ta Hta].
  destruct (proj1 (List.Forall_forall _ _) Hv b Hb) as [tb Htb].
  unfold productCmp, compareProducts, timeDiff, keyCmp.
  rewrite Hta, Htb.
  unfold sortCompare. destruct (s === "newest"); [lia|]. destruct (s === "oldest"); lia.
Qed.

(** When every date parses, the comparator is consistent on the list. *)
Lemma productCmp_consistent (l : list Product) s :
  Forall (fun p => is_Some (getTime (date p))) l ->
  ConsistentOn (fun x => In x l) (productCmp getTime s).
Proof.
  intros Hv. eapply consistentOn_ext.
  { intros a b Ha Hb. symmetry. exact (productCmp_keyCmp l s Hv a b Ha Hb). }
  destruct (s === "newest"); [apply _|]. destruct (s === "oldest"); apply _.
Qed.

(** When every date parses, the list is sorted by the comparator. *)
Lemma updatedProducts_sorted_cmp c q s ps :
  Forall (fun p => is_Some (getTime (date p))) ps ->
  Sorted (cmpLe (productCmp getTime s)) (updatedProducts t getTime c q s ps).
Proof. intros Hv. apply sort_sorted, productCmp_consistent, Forall_filter_sub, Hv. Qed.

(** The comparator of a sort key other than the two date orders. *)
Lemma productCmp_other s a b :
  s <> "newest" -> s <> "oldest" -> productCmp getTime s a b = 0%Z.
Proof.
  intros Hn Ho. unfold productCmp, compareProducts.
  apply String.eqb_neq in Hn, Ho. by rewrite Hn, Ho.
Qed.
(** Two products of the same date compare equal under every sort key
    (a NaN difference too reads as [+0]). *)
Lemma productCmp_same_date s a b : date a = date b -> productCmp getTime s a b = 0%Z.
Proof.
  intros Hd. unfold productCmp, compareProducts, timeDiff. rewrite Hd.
  destruct (s === "newest"), (s === "oldest"), (getTime (date b)); cbn; lia.
Qed.

(** With the "all" category and an empty query every product matches. *)
Lemma updatedProducts_all_perm c s ps :
  key c = "category.all" -> Permutation (updatedProducts t getTime c "" s ps) ps.
Proof.
  intros Hc. rewrite updatedProducts_perm, filter_true_id; [done|].
  intros p _. apply productMatches_spec. split; [by left|].
  left. apply includesIgnoreCase_spec, includesIgnoreCase_empty.
Qed.
End PipelineFacts.




(** ** Lemmas on pagination *)

Lemma totalPages_spec (l : list Product) :
  (9 * (totalPages l - 1) < Z.of_nat (length l) <= 9 * totalPages l)%Z.
Proof. apply ceilDiv_spec. unfold itemsPerPage; lia. Qed.

Lemma totalPages_nonneg (l : list Product) : (0 <= totalPages l)%Z.
Proof. apply ceilDiv_nonneg; unfold itemsPerPage; lia. Qed.

(** Page [i + 1] holds the elements [9 i] to [9 i + 8]. *)
Lemma paginatedProducts_page (l : list Product) (i : nat) :
  paginatedProducts l (Z.of_nat i + 1) = take 9 (drop (9 * i) l).
Proof.
  unfold paginatedProducts, itemsPerPage.
  rewrite slice_nonneg by lia. f_equal; f_equal; lia.
Qed.

(** Page 1 is the first nine products. *)
Lemma paginatedProducts_first (l : list Product) : paginatedProducts l 1 = take 9 l.
Proof. pose proof (paginatedProducts_page l 0) as H. by rewrite Nat.mul_0_r, drop_0 in H. Qed.

#[export] Hint Resolve totalPages_nonneg : motorcade.

(** Close an arithmetic goal on the pages of [l] with the bounds of
    [totalPages l]. *)
Ltac pages_lia l :=
  pose proof (totalPages_spec l); pose proof (totalPages_nonneg l); lia.

(** ** Properties of the pipeline *)

Section PipelineProperties.
Context {engine : ArraySort} (t : string -> string) (getTime : string -> option Z).

(** C1: A product is on the page's list exactly when it is in the catalog,
    belongs to the selected category (or "all" is selected), and its
    translated name or description contains the query, ignoring case. *)
Theorem updatedProducts_spec c q s ps p :
  In p (updatedProducts t getTime c q s ps) <->
  In p ps /\ (key c = "category.all" \/ category p = key c) /\
  (ContainsIgnoringCase (t (name p)) q \/ ContainsIgnoringCase (t (description p)) q).
Proof.
  rewrite <- productMatches_spec. split.
  - apply in_updatedProducts.
  - intros [Hin Hm]. apply (Permutation_in p (Permutation_sym (updatedProducts_perm t getTime c q s ps))).
    by apply filter_In.
Qed.

(** C28: With the "all" category and an empty query, the list holds every
    product of the catalog, in some order. *)
Theorem updatedProducts_all_category c s ps :
  key c = "category.all" -> Permutation (updatedProducts t getTime c "" s ps) ps.
Proof. apply updatedProducts_all_perm. Qed.

(** C6: When every date parses, the "newest" order lists dates from the
    latest to the earliest. *)
Theorem updatedProducts_newest_sorted c q ps :
  Forall (fun p => is_Some (getTime (date p))) ps ->
  Sorted (fun a b => exists ta tb,
            getTime (date a) = Some ta /\ getTime (date b) = Some tb /\ (tb <= ta)%Z)
    (updatedProducts t getTime c q "newest" ps).
Proof.
  intros Hv. apply (Sorted_impl_in (cmpLe (productCmp getTime "newest"))).
  - intros a b Ha Hb Hab.
    apply in_updatedProducts in Ha as [Ha _], Hb as [Hb _].
    destruct (proj1 (List.Forall_forall _ _) Hv a Ha) as [ta Hta].
    destruct (proj1 (List.Forall_forall _ _) Hv b Hb) as [tb Htb].
    exists ta, tb. unfold cmpLe in Hab. rewrite (proj1 (productCmp_dates getTime a b ta tb Hta Htb)) in Hab.
    repeat split; auto with lia.
  - by apply updatedProducts_sorted_cmp.
Qed.

(** C7: When every date parses, the "oldest" order lists dates from the
    earliest to the latest. *)
Theorem updatedProducts_oldest_sorted c q ps :
  Forall (fun p => is_Some (getTime (date p))) ps ->
  Sorted (fun a b => exists ta tb,
            getTime (date a) = Some ta /\ getTime (date b) = Some tb /\ (ta <= tb)%Z)
    (updatedProducts t getTime c q "oldest" ps).
Proof.
  intros Hv. apply (Sorted_impl_in (cmpLe (productCmp getTime "oldest"))).
  - intros a b Ha Hb Hab.
    apply in_updatedProducts in Ha as [Ha _], Hb as [Hb _].
    destruct (proj1 (List.Forall_forall _ _) Hv a Ha) as [ta Hta].
    destruct (proj1 (List.Forall_forall _ _) Hv b Hb) as [tb Htb].
    exists ta, tb. unfold cmpLe in Hab. rewrite (proj2 (productCmp_dates getTime a b ta tb Hta Htb)) in Hab.
    repeat split; auto with lia.
  - by apply updatedProducts_sorted_cmp.
Qed.

(** C8: The sort keys "name-asc" and "name-desc" (any key but "newest"
    and "oldest") leave the filtered products in catalog order: the
    alphabetical orders offered by the select are not implemented. *)
Theorem updatedProducts_other_sort_keeps_order c q s ps :
  s <> "newest" -> s <> "oldest" ->
  updatedProducts t getTime c q s ps = List.filter (productMatches t c q) ps.
Proof.
  intros Hn Ho. unfold updatedProducts.
  set (l := List.filter (productMatches t c q) ps).
  assert (Hall : forall a b, cmpEqb (productCmp getTime s) a b = true).
  { intros a b. unfold cmpEqb. by rewrite productCmp_other. }
  destruct l as [|k l'] eqn:Hl.
  - apply Permutation_nil, Permutation_sym, sort_perm.
  - assert (Hc : ConsistentOn (fun x => In x (k :: l')) (productCmp getTime s)).
    { apply (consistentOn_ext _ (keyCmp (fun _ => 0%Z))); [|apply _].
      intros a b _ _. unfold keyCmp. rewrite productCmp_other; auto with lia. }
    pose proof (sort_stable (productCmp getTime s) (k :: l') Hc k (or_introl eq_refl)) as Hs.
    rewrite !filter_true_id in Hs by (intros x _; apply Hall). exact Hs.
Qed.

(** C30: When every date parses, products with the same date keep their
    catalog order under every sort key: the comparator ties them and the
    sort is stable, so among the products of one date the list follows
    [products.json]. *)
Theorem updatedProducts_same_date_keeps_order c q s ps (d : string) :
  Forall (fun p => is_Some (getTime (date p))) ps ->
  List.filter (fun p => date p =? d)%string (updatedProducts t getTime c q s ps) =
  List.filter (fun p => date p =? d)%string (List.filter (productMatches t c q) ps).
Proof.
  intros Hv. set (l := List.filter (productMatches t c q) ps).
  destruct (List.filter (fun p => date p =? d)%string l) as [|k rest] eqn:Hl.
  - exact (filter_perm_nil _ _ _ (updatedProducts_perm t getTime c q s ps) Hl).
  - assert (Hk : In k (List.filter (fun p => date p =? d)%string l)) by (rewrite Hl; left; done).
    apply filter_In in Hk as [Hk Hkd]. apply String.eqb_eq in Hkd.
    assert (Hsub : forall p, (date p =? d)%string = true -> cmpEqb (productCmp getTime s) k p = true).
    { intros p Hp. apply String.eqb_eq in Hp. unfold cmpEqb.
      rewrite productCmp_same_date by congruence. done. }
    rewrite <- Hl, <- (filter_filter_sub _ _ _ Hsub), <- (filter_filter_sub _ _ l Hsub).
    f_equal. apply sort_stable; [|exact Hk].
    apply productCmp_consistent, Forall_filter_sub, Hv.
Qed.
End PipelineProperties.

(** C9: When every date parses, all engines that honour the
    [Array.prototype.sort] contract produce the same list. *)
Theorem updatedProducts_engine_independent (S1 S2 : ArraySort) t getTime c q s ps :
  Forall (fun p => is_Some (getTime (date p))) ps ->
  @updatedProducts S1 t getTime c q s ps = @updatedProducts S2 t getTime c q s ps.
Proof.
  intros Hv. unfold updatedProducts.
  assert (Hc : ConsistentOn (fun x => In x (List.filter (productMatches t c q) ps))
                 (productCmp getTime s)) by (apply productCmp_consistent, Forall_filter_sub, Hv).
  by rewrite (arraySort_unique S1), (arraySort_unique S2).
Qed.

(** C11: A product whose date does not parse makes the comparator
    inconsistent: NaN compares equal to every date, so [a <=C n <=C c] while
    [c <C a].  ECMA-262 then leaves the order implementation-defined. *)
Theorem productCmp_nan_inconsistent :
  let getTime := fun s => if s === "2024-01-01" then Some 20%Z
                          else if s === "2023-01-01" then Some 10%Z else None in
  let a := mkProduct "1" "category.truck" "a" "a" "2023-01-01" in
  let n := mkProduct "2" "category.truck" "n" "n" "soon" in
  let c := mkProduct "3" "category.truck" "c" "c" "2024-01-01" in
  ~ ConsistentOn (fun x => In x [a; n; c]) (productCmp getTime "newest").
Proof.
  intros getTime a n c Hc.
  pose proof (cmp_le_trans (P := fun x => In x [a; n; c]) a n c) as Ht.
  unfold productCmp, compareProducts, timeDiff in Ht. simpl in Ht.
  specialize (Ht ltac:(simpl; tauto) ltac:(simpl; tauto) ltac:(simpl; tauto)).
  lia.
Qed.

(** ** Properties of pagination *)

(** C12: The page buttons' pages, concatenated, give back the filtered
    list: every product is on exactly one page, in order. *)
Theorem paginatedProducts_concat (l : list Product) :
  concat (map (paginatedProducts l) (pageNumbers (totalPages l))) = l.
Proof.
  unfold pageNumbers. rewrite map_map.
  rewrite (List.map_ext _ (fun i => take 9 (drop (9 * i) l))) by apply paginatedProducts_page.
  rewrite concat_pages. simpl. apply take_ge. pages_lia l.
Qed.

(** C17: [totalPages] is the least number of pages of nine that hold the
    list, and it is 0 exactly for the empty list. *)
Theorem totalPages_correct (l : list Product) :
  (9 * (totalPages l - 1) < Z.of_nat (length l) <= 9 * totalPages l)%Z /\
  (totalPages l = 0%Z <-> l = []).
Proof.
  split; [apply totalPages_spec|]. split.
  - intros H0. pose proof (totalPages_spec l). destruct l; [done|simpl in *; lia].
  - intros ->. reflexivity.
Qed.

(** C15: A page between 1 and [totalPages] shows between one and nine
    products. *)
Theorem paginatedProducts_bounds (l : list Product) (p : Z) :
  (1 <= p <= totalPages l)%Z -> 0 < length (paginatedProducts l p) <= 9.
Proof.
  intros Hp. replace p with (Z.of_nat (Z.to_nat (p - 1)) + 1)%Z by lia.
  rewrite paginatedProducts_page, length_take, length_drop. pages_lia l.
Qed.

(** Page 0 and the pages after [totalPages] are empty. *)
Theorem paginatedProducts_out_of_range (l : list Product) (p : Z) :
  (p = 0 \/ totalPages l < p)%Z -> paginatedProducts l p = [].
Proof.
  intros [->|Hp].
  - apply slice_end_zero.
  - replace p with (Z.of_nat (Z.to_nat (p - 1)) + 1)%Z by pages_lia l.
    rewrite paginatedProducts_page, drop_ge by pages_lia l. apply take_nil.
Qed.

(** Twenty products make three pages: products 1-9, 10-18 and
    19-20. *)
Theorem pagination_twenty (l : list Product) :
  length l = 20 ->
  totalPages l = 3%Z /\ paginatedProducts l 1 = take 9 l /\
  paginatedProducts l 2 = take 9 (drop 9 l) /\ paginatedProducts l 3 = drop 18 l /\
  length (paginatedProducts l 3) = 2.
Proof.
  intros Hl.
  assert (P1 : paginatedProducts l 1 = take 9 l) by exact (paginatedProducts_page l 0).
  assert (P2 : paginatedProducts l 2 = take 9 (drop 9 l))
    by exact (paginatedProducts_page l 1).
  assert (P3 : paginatedProducts l 3 = take 9 (drop 18 l))
    by exact (paginatedProducts_page l 2).
  rewrite P1, P2, P3, (take_ge (drop 18 l)), length_drop
    by (rewrite length_drop; lia).
  unfold totalPages. rewrite Hl. repeat split; lia.
Qed.

(** ** Witnesses *)

Lemma updatedProducts_all_category_witness :
  key allCategory = "category.all" /\
  Permutation (updatedProducts keyTranslation sampleGetTime allCategory "" "newest" sampleProducts)
    sampleProducts.
Proof.
  split; [reflexivity|].
  apply (updatedProducts_all_category keyTranslation sampleGetTime allCategory "newest" sampleProducts).
  reflexivity.
Defined.

Lemma updatedProducts_newest_sorted_witness :
  Forall (fun p => is_Some (sampleGetTime (date p))) sampleProducts /\
  Sorted (fun a b => exists ta tb, sampleGetTime (date a) = Some ta /\
            sampleGetTime (date b) = Some tb /\ (tb <= ta)%Z)
    (updatedProducts keyTranslation sampleGetTime allCategory "" "newest" sampleProducts).
Proof.
  assert (Hv : Forall (fun p => is_Some (sampleGetTime (date p))) sampleProducts)
    by (repeat econstructor).
  split; [exact Hv|].
  exact (updatedProducts_newest_sorted keyTranslation sampleGetTime allCategory "" sampleProducts Hv).
Defined.

Lemma updatedProducts_oldest_sorted_witness :
  Forall (fun p => is_Some (sampleGetTime (date p))) sampleProducts /\
  Sorted (fun a b => exists ta tb, sampleGetTime (date a) = Some ta /\
            sampleGetTime (date b) = Some tb /\ (ta <= tb)%Z)
    (updatedProducts keyTranslation sampleGetTime allCategory "" "oldest" sampleProducts).
Proof.
  assert (Hv : Forall (fun p => is_Some (sampleGetTime (date p))) sampleProducts)
    by (repeat econstructor).
  split; [exact Hv|].
  exact (updatedProducts_oldest_sorted keyTranslation sampleGetTime allCategory "" sampleProducts Hv).
Defined.

Lemma updatedProducts_other_sort_keeps_order_witness :
  "name-asc" <> "newest" /\ "name-asc" <> "oldest" /\
  updatedProducts keyTranslation sampleGetTime allCategory "" "name-asc" sampleProducts =
  List.filter (productMatches keyTranslation allCategory "") sampleProducts.
Proof.
  assert (Hn : "name-asc" <> "newest") by discriminate.
  assert (Ho : "name-asc" <> "oldest") by discriminate.
  split; [exact Hn|]. split; [exact Ho|].
  exact (updatedProducts_other_sort_keeps_order keyTranslation sampleGetTime allCategory "" "name-asc"
           sampleProducts Hn Ho).
Defined.

Lemma updatedProducts_engine_independent_witness :
  Forall (fun p => is_Some (sampleGetTime (date p))) sampleProducts /\
  @updatedProducts insertionArraySort keyTranslation sampleGetTime allCategory "" "newest" sampleProducts =
  @updatedProducts v8ArraySort keyTranslation sampleGetTime allCategory "" "newest" sampleProducts.
Proof.
  assert (Hv : Forall (fun p => is_Some (sampleGetTime (date p))) sampleProducts)
    by (repeat econstructor).
  split; [exact Hv|].
  exact (updatedProducts_engine_independent insertionArraySort v8ArraySort keyTranslation
           sampleGetTime allCategory "" "newest" sampleProducts Hv).
Defined.

Lemma paginatedProducts_bounds_witness :
  (1 <= 3 <= totalPages twentyProducts)%Z /\
  0 < length (paginatedProducts twentyProducts 3) <= 9.
Proof.
  assert (Hp : (1 <= 3 <= totalPages twentyProducts)%Z) by (vm_compute; split; discriminate).
  split; [exact Hp|]. exact (paginatedProducts_bounds twentyProducts 3 Hp).
Defined.

Lemma pagination_twenty_witness :
  length twentyProducts = 20 /\ totalPages twentyProducts = 3%Z.
Proof.
  assert (Hl : length twentyProducts = 20) by reflexivity.
  split; [exact Hl|]. exact (proj1 (pagination_twenty twentyProducts Hl)).
Defined.

(** Under "newest" the 2024-03-01 product comes first, and the two
    products of 2024-01-15 follow in catalog order. *)
Lemma updatedProducts_same_date_keeps_order_witness :
  Forall (fun p => is_Some (sampleGetTime (date p))) tieProducts /\
  List.filter (fun p => date p =? "2024-01-15")%string
    (updatedProducts keyTranslation sampleGetTime allCategory "" "newest" tieProducts) =
  [mkProduct "1" "category.loader" "product.l1.name" "product.l1.desc" "2024-01-15";
   mkProduct "3" "category.loader" "product.l2.name" "product.l2.desc" "2024-01-15"].
Proof.
  assert (Hv : Forall (fun p => is_Some (sampleGetTime (date p))) tieProducts)
    by (repeat econstructor).
  split; [exact Hv|].
  rewrite (updatedProducts_same_date_keeps_order keyTranslation sampleGetTime allCategory "" "newest"
             tieProducts "2024-01-15" Hv).
  reflexivity.
Defined.

End Catalog.
