(* ===== verification/CatalogDates.v ===== *)
(** * The product pipeline with ECMA-262's date parser

    [Catalog] leaves [new Date(x).getTime()] (lines 61 and 63 of
    [Products.tsx]) as a parameter; this file instantiates it with
    [JsDate.dateGetTime] and states the sort orders of the spec on the
    product dates themselves: when every date is a date-only string, "newest"
    lists products from the latest calendar date to the earliest and
    "oldest" the other way round, for every engine that honours the
    [Array.prototype.sort] contract.  It also shows what a date that does
    not parse does to the page: the order then depends on the engine, and
    V8's can list an older product before a newer one under "newest". *)

From S2P Require Import Prelude JsString JsArray V8Sort JsDate Catalog.
Import JsArray V8Sort JsDate Catalog.

Module CatalogDates.

(** A date of the catalog that [Date.parse] reads as a date-only form,
    of a year that [TimeClip] keeps. *)
Definition catalogDate (s : string) : bool :=
  match isoDateFields s with
  | Some (y, _, _) => (-271821 <? y)%Z && (y <? 275760)%Z
  | None => false
  end.

(** A product [a] may come before [b] in the "newest" order: [a]'s date
    is not before [b]'s in the calendar. *)
Definition notBefore (a b : Product) : Prop :=
  exists fa fb, isoDateFields (date a) = Some fa /\ isoDateFields (date b) = Some fb /\
    dateLtb fa fb = false.

(** ** Lemmas *)

Lemma catalogDate_getTime (fallback : string -> option Z) (s : string) :
  catalogDate s = true ->
  exists y m d, isoDateFields s = Some (y, m, d) /\ ValidDate y m d /\
    dateGetTime fallback s = Some (dateValue y m d).
Proof.
  unfold catalogDate. destruct (isoDateFields s) as [[[y m] d]|] eqn:Hs; [|discriminate].
  intros Hy. reflect_bool. exists y, m, d.
  pose proof (isoDateFields_validDate s y m d Hs) as Hv.
  split; [done|]. split; [done|].
  unfold dateGetTime. rewrite Hs. by apply timeClip_dateValue.
Qed.

Lemma catalogDates_parse (fallback : string -> option Z) (ps : list Product) :
  Forall (fun p => catalogDate (date p) = true) ps ->
  Forall (fun p => is_Some (dateGetTime fallback (date p))) ps.
Proof.
  intros Hc. apply List.Forall_forall. intros p Hp.
  destruct (catalogDate_getTime fallback (date p) (proj1 (List.Forall_forall _ _) Hc p Hp))
    as (y & m & d & _ & _ & ->). by eexists.
Qed.

(** Under the comparator of [sortBy], [a <=C b] says that [a]'s date is
    not before [b]'s ("newest") or not after it ("oldest"). *)
Lemma productCmp_calendar (fallback : string -> option Z) (a b : Product) :
  catalogDate (date a) = true -> catalogDate (date b) = true ->
  (cmpLe (productCmp (dateGetTime fallback) "newest") a b -> notBefore a b) /\
  (cmpLe (productCmp (dateGetTime fallback) "oldest") a b -> notBefore b a).
Proof.
  intros Ha Hb.
  destruct (catalogDate_getTime fallback _ Ha) as (y1 & m1 & d1 & Hfa & Hva & Hta).
  destruct (catalogDate_getTime fallback _ Hb) as (y2 & m2 & d2 & Hfb & Hvb & Htb).
  destruct (productCmp_dates (dateGetTime fallback) a b _ _ Hta Htb) as [Hn Ho].
  unfold cmpLe, notBefore. rewrite Hn, Ho. split; intros Hle.
  - exists (y1, m1, d1), (y2, m2, d2). do 2 (split; [done|]).
    destruct (dateLtb _ _) eqn:Hlt; [|done].
    pose proof (dateValue_lt _ _ _ _ _ _ Hva Hvb Hlt). lia.
  - exists (y2, m2, d2), (y1, m1, d1). do 2 (split; [done|]).
    destruct (dateLtb _ _) eqn:Hlt; [|done].
    pose proof (dateValue_lt _ _ _ _ _ _ Hvb Hva Hlt). lia.
Qed.

(** Three products, the middle one with a date [Date.parse] does not
    read. *)
Definition nanCatalog : list Product :=
  [mkProduct "1" "category.truck" "product.a" "product.a" "2023-01-01";
   mkProduct "2" "category.truck" "product.n" "product.n" "coming soon";
   mkProduct "3" "category.truck" "product.c" "product.c" "2024-01-01"].

(** The sample catalog's hand-written time table is the parser's. *)
Lemma sampleGetTime_parser (fallback : string -> option Z) :
  Forall (fun p => sampleGetTime (date p) = dateGetTime fallback (date p)) sampleProducts.
Proof. repeat constructor. Qed.

(** ** Properties *)

Section Properties.
Context {engine : ArraySort} (t : string -> string) (fallback : string -> option Z).

(** C29: With the dates read by [Date.parse], when every product's date
    is a date-only string of a year [TimeClip] keeps, "newest" lists no
    product before one with a later calendar date, and "oldest" no
    product before one with an earlier date. *)
Theorem updatedProducts_calendar_order c q ps :
  Forall (fun p => catalogDate (date p) = true) ps ->
  Sorted notBefore (updatedProducts t (dateGetTime fallback) c q "newest" ps) /\
  Sorted (fun a b => notBefore b a) (updatedProducts t (dateGetTime fallback) c q "oldest" ps).
Proof.
  intros Hc. pose proof (catalogDates_parse fallback ps Hc) as Hv.
  assert (Hin : forall s a, In a (updatedProducts t (dateGetTime fallback) c q s ps) ->
                  catalogDate (date a) = true).
  { intros s a Ha. apply in_updatedProducts in Ha as [Ha _].
    exact (proj1 (List.Forall_forall _ _) Hc a Ha). }
  split; (eapply Sorted_impl_in; [|by apply updatedProducts_sorted_cmp]);
    intros a b Ha Hb; apply (productCmp_calendar fallback); eauto.
Qed.
End Properties.

(** With one product whose date is NaN, the "newest" order depends
    on the engine: V8 keeps the three products as they are, the 2023
    product before the 2024 one, while the insertion sort puts the 2024
    product first.  Both engines honour the [Array.prototype.sort]
    contract, which leaves the order of an inconsistent comparator to the
    implementation. *)
Theorem updatedProducts_nan_engine_dependent :
  map date (@updatedProducts v8ArraySort keyTranslation (dateGetTime (fun _ => None))
              allCategory "" "newest" nanCatalog) =
    ["2023-01-01"; "coming soon"; "2024-01-01"] /\
  map date (@updatedProducts insertionArraySort keyTranslation (dateGetTime (fun _ => None))
              allCategory "" "newest" nanCatalog) =
    ["2024-01-01"; "2023-01-01"; "coming soon"].
Proof. split; vm_compute; reflexivity. Qed.

(** ** Witnesses *)

Lemma updatedProducts_calendar_order_witness :
  Forall (fun p => catalogDate (date p) = true) sampleProducts /\
  Sorted notBefore
    (updatedProducts keyTranslation (dateGetTime (fun _ => None)) allCategory "" "newest"
       sampleProducts).
Proof.
  assert (Hc : Forall (fun p => catalogDate (date p) = true) sampleProducts)
    by (repeat constructor).
  split; [exact Hc|].
  exact (proj1 (updatedProducts_calendar_order keyTranslation (fun _ => None) allCategory ""
                  sampleProducts Hc)).
Defined.

End CatalogDates.
