(* ===== verification/ProductsPage.v ===== *)
(** * The [Products] component of [src/src/pages/Products.tsx] as a state machine

    The React state of lines 22-28 is the record [PageState]; each [useState]
    setter is a function on it.  A user or network event runs its handler
    from the JSX ([handlePageEvent]); React then re-renders and runs the filter effect
    of lines 46-70 when one of its dependencies changed ([dispatch]).  React
    compares dependencies with [Object.is]: strings and booleans by value,
    the [products] array, the [selectedCategory] object and the function [t]
    by identity.  Identity is kept as an allocation number beside each of
    these objects ([productsRef], [selectedCategoryRef], [tRef], with the
    next free number in [nextRef]).  A control that is disabled or not
    rendered produces no event: [pageEventEnabled] holds the guards of the JSX.

    The fetch effect of lines 31-44 runs once at mount; [initState] is the
    state after the first render, with the fetch pending.  [FetchResolved]
    and [FetchRejected] are its two outcomes; the two setters of the
    success branch are batched into one render (React 18).  [t] changes
    when i18next switches language ([ChangeLanguage]).

    [fetchResolvedUnbatched] runs the two setters of the success branch
    one render at a time, as React 17 does after an [await], and
    [pressNext] is a user pressing "next" while it is enabled, with a bound
    on the presses. *)

From S2P Require Import Prelude JsString JsArray Catalog.
Import JsArray Catalog.

Module ProductsPage.

(** ** State *)

Record PageState := mkPageState {
  selectedCategory : Category;
  searchQuery : string;
  sortBy : string;
  products : list Product;
  filteredProducts : list Product;
  currentPage : Z;
  loading : bool;
  t : string -> string;
  selectedCategoryRef : nat;
  productsRef : nat;
  tRef : nat;
  nextRef : nat
}.

(** Lines 22-28 at the first render: [categories[0]] is the "all"
    category, and the fetch of line 43 is pending. *)
Definition initState (t0 : string -> string) : PageState :=
  mkPageState (mkCategory "category.all" (t0 "category.all")) "" "newest" [] [] 1 true t0
    0 1 2 3.

(** ** The [useState] setters *)

(** [setSelectedCategory(category)]: [category] is an object of the
    [categories] array of the latest render, a fresh object. *)
Definition setSelectedCategory (c : Category) (s : PageState) : PageState :=
  mkPageState c (searchQuery s) (sortBy s) (products s) (filteredProducts s)
    (currentPage s) (loading s) (t s) (nextRef s) (productsRef s) (tRef s) (S (nextRef s)).

Definition setSearchQuery (q : string) (s : PageState) : PageState :=
  mkPageState (selectedCategory s) q (sortBy s) (products s) (filteredProducts s)
    (currentPage s) (loading s) (t s) (selectedCategoryRef s) (productsRef s) (tRef s)
    (nextRef s).

Definition setSortBy (v : string) (s : PageState) : PageState :=
  mkPageState (selectedCategory s) (searchQuery s) v (products s) (filteredProducts s)
    (currentPage s) (loading s) (t s) (selectedCategoryRef s) (productsRef s) (tRef s)
    (nextRef s).

(** [setProducts(data)]: [data] is the fresh array parsed from the
    response. *)
Definition setProducts (data : list Product) (s : PageState) : PageState :=
  mkPageState (selectedCategory s) (searchQuery s) (sortBy s) data (filteredProducts s)
    (currentPage s) (loading s) (t s) (selectedCategoryRef s) (nextRef s) (tRef s)
    (S (nextRef s)).

Definition setFilteredProducts (l : list Product) (s : PageState) : PageState :=
  mkPageState (selectedCategory s) (searchQuery s) (sortBy s) (products s) l
    (currentPage s) (loading s) (t s) (selectedCategoryRef s) (productsRef s) (tRef s)
    (nextRef s).

Definition setCurrentPage (p : Z) (s : PageState) : PageState :=
  mkPageState (selectedCategory s) (searchQuery s) (sortBy s) (products s)
    (filteredProducts s) p (loading s) (t s) (selectedCategoryRef s) (productsRef s)
    (tRef s) (nextRef s).

Definition setLoading (b : bool) (s : PageState) : PageState :=
  mkPageState (selectedCategory s) (searchQuery s) (sortBy s) (products s)
    (filteredProducts s) (currentPage s) b (t s) (selectedCategoryRef s) (productsRef s)
    (tRef s) (nextRef s).

(** i18next hands the component a new [t] after a language change. *)
Definition setT (t' : string -> string) (s : PageState) : PageState :=
  mkPageState (selectedCategory s) (searchQuery s) (sortBy s) (products s)
    (filteredProducts s) (currentPage s) (loading s) t' (selectedCategoryRef s)
    (productsRef s) (nextRef s) (S (nextRef s)).

(** ** Events and handlers *)

Inductive PageEvent :=
| FetchResolved (data : list Product)
| FetchRejected
| ClickCategory (c : Category)
| TypeQuery (q : string)
| SelectSort (v : string)
| ClickPrevious
| ClickPage (n : Z)
| ClickNext
| ChangeLanguage (t' : string -> string).

(** The [value]s of the [<option>]s of lines 136-139. *)
Definition sortOptions : list string := ["newest"; "oldest"; "name-asc"; "name-desc"].

Section Page.
Context {engine : ArraySort}.
Variable getTime : string -> option Z.

(** The list the effect computes from the current inputs. *)
Definition effectResult (s : PageState) : list Product :=
  updatedProducts (t s) getTime (selectedCategory s) (searchQuery s) (sortBy s) (products s).

(** The body of the effect, lines 47-69.  The guard [!selectedCategory]
    never holds: the state always holds a category object. *)
Definition filterEffect (s : PageState) : PageState :=
  if loading s then s
  else setCurrentPage 1 (setFilteredProducts (effectResult s) s).

(** The dependency array of line 70, with objects by identity. *)
Definition filterDeps (s : PageState) : nat * nat * string * string * nat * bool :=
  (productsRef s, selectedCategoryRef s, searchQuery s, sortBy s, tRef s, loading s).

Definition depsChanged (s s' : PageState) : bool :=
  bool_decide (filterDeps s <> filterDeps s').

(** The handlers: lines 36-37 and 40 of [fetchProducts], and the
    [onClick] and [onChange] props of lines 102, 115, 133, 169, 180 and
    190. *)
Definition handlePageEvent (s : PageState) (e : PageEvent) : PageState :=
  match e with
  | FetchResolved data => setLoading false (setProducts data s)
  | FetchRejected => setLoading false s
  | ClickCategory c => setSelectedCategory c s
  | TypeQuery q => setSearchQuery q s
  | SelectSort v => setSortBy v s
  | ClickPrevious => setCurrentPage (Z.max (currentPage s - 1) 1) s
  | ClickPage n => setCurrentPage n s
  | ClickNext =>
      setCurrentPage (Z.min (currentPage s + 1) (totalPages (filteredProducts s))) s
  | ChangeLanguage t' => setT t' s
  end.

(** One event: its handler, the re-render, and the effect when a
    dependency changed. *)
Definition dispatch (s : PageState) (e : PageEvent) : PageState :=
  let s' := handlePageEvent s e in
  if depsChanged s s' then filterEffect s' else s'.

(** Which events can happen: the fetch settles once, while [loading];
    a category button is one of [categories]; the select offers
    [sortOptions]; "previous" is disabled on page 1 (line 170), "next"
    on page [totalPages] (line 191); the page buttons are numbered
    [1..totalPages] (line 177). *)
Definition pageEventEnabled (s : PageState) (e : PageEvent) : bool :=
  match e with
  | FetchResolved _ | FetchRejected => loading s
  | ClickCategory c => bool_decide (c ∈ categories (t s))
  | TypeQuery _ => true
  | SelectSort v => bool_decide (v ∈ sortOptions)
  | ClickPrevious => negb (currentPage s =? 1)%Z
  | ClickPage n => bool_decide (n ∈ pageNumbers (totalPages (filteredProducts s)))
  | ClickNext => negb (currentPage s =? totalPages (filteredProducts s))%Z
  | ChangeLanguage _ => true
  end.

(** The states reachable from the first render. *)
Inductive reachable (t0 : string -> string) : PageState -> Prop :=
| reachable_init : reachable t0 (initState t0)
| reachable_step s e :
    reachable t0 s -> pageEventEnabled s e = true -> reachable t0 (dispatch s e).

(** A sequence of events, each of which must be enabled. *)
Fixpoint runEvents (s : PageState) (es : list PageEvent) : option PageState :=
  match es with
  | [] => Some s
  | e :: es' => if pageEventEnabled s e then runEvents (dispatch s e) es' else None
  end.

(** Lines 36-37 as React 17 runs them: outside an event handler, after
    the [await], each setter renders and runs the effects at once. *)
Definition fetchResolvedUnbatched (data : list Product) (s : PageState) : PageState :=
  let s1 := setProducts data s in
  let s1' := if depsChanged s s1 then filterEffect s1 else s1 in
  let s2 := setLoading false s1' in
  if depsChanged s1' s2 then filterEffect s2 else s2.

(** A user who presses "next" as long as it is enabled, with at most
    [fuel] presses and looks. *)
Fixpoint pressNext (fuel : nat) (s : PageState) : option PageState :=
  match fuel with
  | O => None
  | S fuel' => if pageEventEnabled s ClickNext then pressNext fuel' (dispatch s ClickNext) else Some s
  end.
End Page.

(** ** The render *)

Inductive GridView :=
| LoadingView
| NoProductsFound
| ProductGrid (items : list Product).

Record PageView := mkPageView {
  grid : GridView;
  previousDisabled : bool;
  nextDisabled : bool;
  pageButtons : list (Z * bool)
}.

(** Lines 145-196: the grid, or the loading or empty message, and the
    pagination bar with its disabled flags and the active page button. *)
Definition render (s : PageState) : PageView :=
  let tp := totalPages (filteredProducts s) in
  let paginated := paginatedProducts (filteredProducts s) (currentPage s) in
  mkPageView
    (if loading s then LoadingView
     else match paginated with [] => NoProductsFound | _ => ProductGrid paginated end)
    (currentPage s =? 1)%Z
    (currentPage s =? tp)%Z
    (map (fun n => (n, currentPage s =? n)%Z) (pageNumbers tp)).

(** The sample catalog loaded on a page that shows translation keys. *)
Definition loadedState : PageState :=
  dispatch sampleGetTime (initState keyTranslation) (FetchResolved sampleProducts).

(** The events that change a filter criterion: a category click (a fresh
    object each time), a new query, a new sort key, a new [t]. *)
Definition changesFilter (s : PageState) (e : PageEvent) : Prop :=
  match e with
  | ClickCategory _ | ChangeLanguage _ => True
  | TypeQuery q => q <> searchQuery s
  | SelectSort v => v <> sortBy s
  | _ => False
  end.

(** ** Invariants *)

(** The page is within [1..totalPages], or the list is empty and the page
    is 0 or 1. *)
Definition pageInBounds (s : PageState) : Prop :=
  let tp := totalPages (filteredProducts s) in
  (1 <= currentPage s <= tp)%Z \/ (tp = 0%Z /\ (currentPage s = 0 \/ currentPage s = 1)%Z).

(** Every identity in use is below the next free one. *)
Definition refsFresh (s : PageState) : Prop :=
  selectedCategoryRef s < nextRef s /\ productsRef s < nextRef s /\ tRef s < nextRef s.

Section Invariants.
Context {engine : ArraySort} (getTime : string -> option Z).

(** While loading, nothing is listed; afterwards the list is the
    effect's result on the current inputs. *)
Definition viewConsistent (s : PageState) : Prop :=
  if loading s then products s = [] /\ filteredProducts s = []
  else filteredProducts s = effectResult getTime s.

Definition pageInv (s : PageState) : Prop :=
  refsFresh s /\ viewConsistent s /\ pageInBounds s.

Lemma pageInv_init t0 : pageInv (initState t0).
Proof.
  split; [unfold refsFresh; simpl; lia|]. split; [by split|].
  right. split; [reflexivity|by right].
Qed.

(** The effect, once loading is over, lists the result on page 1. *)
Lemma filterEffect_loaded s :
  loading s = false -> refsFresh s -> pageInv (filterEffect getTime s).
Proof.
  intros Hl Hr. unfold filterEffect. rewrite Hl.
  destruct s as [c q v ps fl p ld tt rc rp rt nx]; simpl in *; subst ld.
  split; [exact Hr|]. split; [reflexivity|].
  unfold pageInBounds, setCurrentPage, setFilteredProducts. cbn [currentPage filteredProducts].
  pose proof (totalPages_nonneg (effectResult getTime (mkPageState c q v ps fl p false tt rc rp rt nx))).
  lia.
Qed.

(** An event that touches the effect's inputs but not the list or the
    page keeps the invariant once the effect has run. *)
Lemma filterEffect_inv s s' :
  pageInv s -> refsFresh s' ->
  filteredProducts s' = filteredProducts s -> currentPage s' = currentPage s ->
  (loading s' = true -> loading s = true /\ products s' = products s) ->
  pageInv (filterEffect getTime s').
Proof.
  intros (Hr & Hv & Hb) Hr' Hf Hp Hl.
  destruct (loading s') eqn:Hls'; [|by apply filterEffect_loaded].
  destruct (Hl eq_refl) as [Hls Hps].
  unfold filterEffect. rewrite Hls'. unfold pageInv, viewConsistent, pageInBounds in *.
  rewrite Hls in Hv. rewrite Hls', Hf, Hp, Hps. tauto.
Qed.

(** Setting the page leaves the effect's dependencies as they are. *)
Lemma depsChanged_setCurrentPage p s :
  depsChanged s (setCurrentPage p s) = false.
Proof. unfold depsChanged. apply bool_decide_eq_false_2. intros H. by apply H. Qed.

Lemma pageInv_setCurrentPage p s :
  pageInv s -> pageInBounds (setCurrentPage p s) -> pageInv (setCurrentPage p s).
Proof. intros (Hr & Hv & _) Hb. by destruct s. Qed.
End Invariants.

#[export] Hint Resolve pageInv_init : motorcade.

(** ** Preservation of the invariant *)

Lemma elem_of_pageNumbers (n tp : Z) :
  (0 <= tp)%Z -> n ∈ pageNumbers tp <-> (1 <= n <= tp)%Z.
Proof.
  intros Htp. unfold pageNumbers. rewrite list_elem_of_In, in_map_iff. split.
  - intros (i & <- & Hi). apply in_seq in Hi. lia.
  - intros Hn. exists (Z.to_nat (n - 1)). split; [lia|]. apply in_seq. lia.
Qed.

(** Two states whose dependency arrays differ in some component. *)
Ltac deps_differ :=
  unfold depsChanged; apply bool_decide_eq_true_2; unfold filterDeps;
  intros Heq; injection Heq; intros; subst; (lia || congruence).

Section Preservation.
Context {engine : ArraySort} (getTime : string -> option Z).

(** Events that may change a dependency of the effect. *)
Lemma pageInv_effect_event s e :
  pageInv getTime s -> depsChanged s (handlePageEvent s e) = true ->
  refsFresh (handlePageEvent s e) ->
  filteredProducts (handlePageEvent s e) = filteredProducts s ->
  currentPage (handlePageEvent s e) = currentPage s ->
  (loading (handlePageEvent s e) = true -> loading s = true /\ products (handlePageEvent s e) = products s) ->
  pageInv getTime (dispatch getTime s e).
Proof.
  intros Hinv Hd Hr Hf Hp Hl. unfold dispatch; cbv zeta. rewrite Hd.
  by apply (filterEffect_inv getTime s).
Qed.

(** Events that only move the page. *)
Lemma pageInv_page_event s p :
  pageInv getTime s -> pageInBounds (setCurrentPage p s) ->
  pageInv getTime (if depsChanged s (setCurrentPage p s)
                   then filterEffect getTime (setCurrentPage p s)
                   else setCurrentPage p s).
Proof. rewrite depsChanged_setCurrentPage. apply pageInv_setCurrentPage. Qed.

Lemma pageInv_step s e :
  pageInv getTime s -> pageEventEnabled s e = true -> pageInv getTime (dispatch getTime s e).
Proof.
  intros Hinv Hen. pose proof Hinv as (Hr & Hv & Hb).
  pose proof (totalPages_nonneg (filteredProducts s)) as Htp.
  destruct s as [c q v ps fl p ld tt rc rp rt nx].
  unfold refsFresh, pageInBounds in *; simpl in *.
  destruct e as [data| |c'|q'|v'| |n| |t']; simpl in Hen.
  - subst ld. unfold dispatch, handlePageEvent; cbv zeta.
    replace (depsChanged _ _) with true by (symmetry; deps_differ).
    apply filterEffect_loaded; [done|unfold refsFresh; simpl; lia].
  - subst ld. unfold dispatch, handlePageEvent; cbv zeta.
    replace (depsChanged _ _) with true by (symmetry; deps_differ).
    apply filterEffect_loaded; [done|unfold refsFresh; simpl; lia].
  - apply pageInv_effect_event; simpl; try done; [deps_differ|unfold refsFresh; simpl; lia].
  - destruct (decide (q' = q)) as [->|Hq].
    + unfold dispatch, handlePageEvent, setSearchQuery; cbv zeta; simpl.
      replace (depsChanged _ _) with false; [done|].
      symmetry. unfold depsChanged. apply bool_decide_eq_false_2. intros H; by apply H.
    + apply pageInv_effect_event; simpl; try done; deps_differ.
  - destruct (decide (v' = v)) as [->|Hv'].
    + unfold dispatch, handlePageEvent, setSortBy; cbv zeta; simpl.
      replace (depsChanged _ _) with false; [done|].
      symmetry. unfold depsChanged. apply bool_decide_eq_false_2. intros H; by apply H.
    + apply pageInv_effect_event; simpl; try done; deps_differ.
  - apply pageInv_page_event; [done|]. unfold pageInBounds; simpl.
    apply negb_true_iff, Z.eqb_neq in Hen. lia.
  - apply pageInv_page_event; [done|]. unfold pageInBounds; simpl.
    apply bool_decide_eq_true_1, elem_of_pageNumbers in Hen; [lia|done].
  - apply pageInv_page_event; [done|]. unfold pageInBounds; simpl.
    apply negb_true_iff, Z.eqb_neq in Hen. lia.
  - apply pageInv_effect_event; simpl; try done; [deps_differ|unfold refsFresh; simpl; lia].
Qed.

Lemma reachable_pageInv t0 s : reachable getTime t0 s -> pageInv getTime s.
Proof.
  induction 1 as [|s e _ IH Hen]; [apply pageInv_init|]. by apply pageInv_step.
Qed.
End Preservation.

(** ** Lemmas on runs *)

Section Runs.
Context {engine : ArraySort} (getTime : string -> option Z).

Lemma runEvents_reachable t0 s es s' :
  reachable getTime t0 s -> runEvents getTime s es = Some s' -> reachable getTime t0 s'.
Proof.
  revert s; induction es as [|e es IH]; simpl; intros s Hr Hrun.
  - congruence.
  - destruct (pageEventEnabled s e) eqn:Hen; [|discriminate].
    apply (IH _ (reachable_step _ _ _ _ Hr Hen) Hrun).
Qed.

(** When the handler changes a dependency after loading, the effect
    lists its result on page 1. *)
Lemma dispatch_effect_runs s e :
  depsChanged s (handlePageEvent s e) = true -> loading (handlePageEvent s e) = false ->
  currentPage (dispatch getTime s e) = 1%Z /\
  filteredProducts (dispatch getTime s e) = effectResult getTime (dispatch getTime s e).
Proof.
  intros Hd Hl. unfold dispatch; cbv zeta. rewrite Hd. unfold filterEffect. rewrite Hl.
  by destruct (handlePageEvent s e).
Qed.

(** "Next" only moves the page. *)
Lemma dispatch_next s :
  dispatch getTime s ClickNext =
  setCurrentPage (Z.min (currentPage s + 1) (totalPages (filteredProducts s))) s.
Proof.
  unfold dispatch; cbv zeta.
  change (handlePageEvent s ClickNext)
    with (setCurrentPage (Z.min (currentPage s + 1) (totalPages (filteredProducts s))) s).
  by rewrite depsChanged_setCurrentPage.
Qed.

(** The presses left before "next" is disabled. *)
Definition nextPresses (s : PageState) : nat :=
  let tp := totalPages (filteredProducts s) in
  if (currentPage s =? 0)%Z then 1
  else if (tp <? currentPage s)%Z then 2
  else S (Z.to_nat (tp - currentPage s)).

Lemma pressNext_enough t0 n s :
  reachable getTime t0 s -> nextPresses s <= n ->
  exists s', pressNext getTime n s = Some s' /\ reachable getTime t0 s' /\
    filteredProducts s' = filteredProducts s /\
    currentPage s' = totalPages (filteredProducts s) /\ pageEventEnabled s' ClickNext = false.
Proof.
  revert s; induction n as [|n IH]; intros s Hr Hn.
  { unfold nextPresses in Hn. repeat case_match; lia. }
  destruct (reachable_pageInv getTime t0 s Hr) as (_ & _ & Hb). unfold pageInBounds in Hb.
  pose proof (totalPages_nonneg (filteredProducts s)).
  cbn [pressNext]. destruct (pageEventEnabled s ClickNext) eqn:Hen.
  - pose proof Hen as Hne. simpl in Hne. apply negb_true_iff, Z.eqb_neq in Hne.
    destruct (IH (dispatch getTime s ClickNext)) as (s' & Hrun & Hr' & Hf & Hp & Hd).
    + by apply reachable_step.
    + rewrite dispatch_next. unfold nextPresses in *. destruct s; simpl in *.
      repeat case_match; reflect_bool; lia.
    + exists s'. rewrite dispatch_next in Hf, Hp. destruct s; simpl in *. by repeat split.
  - exists s. split; [done|]. split; [done|]. split; [done|]. split; [|done].
    simpl in Hen. apply negb_false_iff, Z.eqb_eq in Hen. done.
Qed.
End Runs.

(** ** Properties of the page *)

Section PageProperties.
Context {engine : ArraySort} (getTime : string -> option Z).

(** C2: In every reachable state, nothing is listed while the catalog is
    loading, and afterwards the listed products are exactly the effect's
    filtered and sorted result on the current category, query, sort key,
    translation and catalog. *)
Theorem reachable_view_consistent t0 s :
  reachable getTime t0 s ->
  (loading s = true -> products s = [] /\ filteredProducts s = []) /\
  (loading s = false -> filteredProducts s = effectResult getTime s).
Proof.
  intros Hr. destruct (reachable_pageInv getTime t0 s Hr) as (_ & Hv & _).
  unfold viewConsistent in Hv. destruct (loading s); split; intros; done.
Qed.

(** C4: In every reachable state the page is between 1 and
    [totalPages], unless the list is empty, in which case it is 0 or 1. *)
Theorem reachable_page_in_bounds t0 s :
  reachable getTime t0 s ->
  (1 <= currentPage s <= totalPages (filteredProducts s))%Z \/
  (totalPages (filteredProducts s) = 0%Z /\ (currentPage s = 0 \/ currentPage s = 1)%Z).
Proof. intros Hr. apply (reachable_pageInv getTime t0 s Hr). Qed.

(** C3: Once loaded, an event that changes a filter criterion re-runs
    the effect: the page is reset to 1 and the list is recomputed from
    the new criteria.  A category click does so even when the category
    clicked is the one already selected. *)
Theorem filter_change_resets_page t0 s e :
  reachable getTime t0 s -> loading s = false -> changesFilter s e ->
  currentPage (dispatch getTime s e) = 1%Z /\
  filteredProducts (dispatch getTime s e) = effectResult getTime (dispatch getTime s e).
Proof.
  intros Hr Hl He. destruct (reachable_pageInv getTime t0 s Hr) as ((Hc & Hp & Ht) & _ & _).
  apply dispatch_effect_runs; [|by destruct e, s].
  destruct s as [c q v ps fl p ld tt rc rp rt nx]; simpl in *.
  destruct e; simpl in He; try done; deps_differ.
Qed.

(** C18: The pagination buttons only move the page: the list and the
    effect's inputs stay as they are, so the page is not reset. *)
Theorem page_navigation_keeps_list s e :
  (e = ClickPrevious \/ e = ClickNext \/ exists n, e = ClickPage n) ->
  filteredProducts (dispatch getTime s e) = filteredProducts s /\
  effectResult getTime (dispatch getTime s e) = effectResult getTime s /\
  loading (dispatch getTime s e) = loading s.
Proof.
  intros He. assert (Hp : exists p, handlePageEvent s e = setCurrentPage p s)
    by (destruct He as [->|[->|[n ->]]]; eexists; reflexivity).
  destruct Hp as [p Hp]. unfold dispatch; cbv zeta.
  rewrite Hp, depsChanged_setCurrentPage. by destruct s.
Qed.

(** C19: After a failed fetch the page shows the same view as for an
    empty catalog: "no products found", with no error message. *)
Theorem fetch_failure_looks_like_empty_catalog t0 :
  let failed := dispatch getTime (initState t0) FetchRejected in
  let empty := dispatch getTime (initState t0) (FetchResolved []) in
  reachable getTime t0 failed /\ reachable getTime t0 empty /\
  render failed = render empty /\ grid (render failed) = NoProductsFound.
Proof.
  cbv zeta. split; [by apply (reachable_step _ _ _ _ (reachable_init _ _))|].
  split; [by apply (reachable_step _ _ _ _ (reachable_init _ _))|].
  unfold render, dispatch, handlePageEvent, filterEffect, effectResult, updatedProducts; simpl.
  rewrite !sort_nil. split; reflexivity.
Qed.

(** C5: On an empty list the "next" button is enabled on page 1 and
    moves to page 0, a page outside [1..totalPages]; "previous" is then
    enabled and the grid still shows "no products found". *)
Theorem next_on_empty_list_reaches_page_zero t0 :
  let s1 := dispatch getTime (initState t0) FetchRejected in
  let s2 := dispatch getTime s1 ClickNext in
  pageEventEnabled s1 ClickNext = true /\ reachable getTime t0 s2 /\ currentPage s2 = 0%Z /\
  render s2 = mkPageView NoProductsFound false true [].
Proof.
  cbv zeta.
  assert (Hf : filteredProducts (dispatch getTime (initState t0) FetchRejected) = []).
  { unfold dispatch, handlePageEvent, filterEffect, effectResult, updatedProducts; simpl.
    apply sort_nil. }
  assert (Hen : pageEventEnabled (dispatch getTime (initState t0) FetchRejected) ClickNext = true).
  { unfold pageEventEnabled. rewrite Hf. reflexivity. }
  set (s1 := dispatch getTime (initState t0) FetchRejected) in *.
  assert (Hs2 : dispatch getTime s1 ClickNext = setCurrentPage 0 s1).
  { unfold dispatch at 1; cbv zeta.
    change (handlePageEvent s1 ClickNext)
      with (setCurrentPage (Z.min (currentPage s1 + 1) (totalPages (filteredProducts s1))) s1).
    rewrite depsChanged_setCurrentPage, Hf. reflexivity. }
  split; [done|]. split.
  { apply reachable_step; [|done]. by apply (reachable_step _ _ _ _ (reachable_init _ _)). }
  assert (Hl : loading s1 = false) by reflexivity.
  rewrite Hs2. unfold render.
  change (filteredProducts (setCurrentPage 0 s1)) with (filteredProducts s1).
  change (currentPage (setCurrentPage 0 s1)) with 0%Z.
  change (loading (setCurrentPage 0 s1)) with (loading s1).
  rewrite Hf, Hl. split; reflexivity.
Qed.

(** C32: From every reachable state, a user who presses "next" while it
    is enabled stops after at most [totalPages + 1] presses, on page
    [totalPages] with "next" disabled and the list unchanged (page 0 when
    the list is empty). *)
Theorem pressNext_reaches_last_page t0 s :
  reachable getTime t0 s ->
  exists s', pressNext getTime (Z.to_nat (totalPages (filteredProducts s)) + 2) s = Some s' /\
    reachable getTime t0 s' /\ filteredProducts s' = filteredProducts s /\
    currentPage s' = totalPages (filteredProducts s) /\ pageEventEnabled s' ClickNext = false.
Proof.
  intros Hr. apply pressNext_enough; [done|].
  destruct (reachable_pageInv getTime t0 s Hr) as (_ & _ & Hb). unfold pageInBounds in Hb.
  unfold nextPresses. repeat case_match; reflect_bool; lia.
Qed.

(** C38: React 17 does not batch the two setters of lines 36-37 (they
    run after an [await]); rendering after each of them reaches the same
    state as React 18's single batched render: the effect skips the first
    render, still loading, and runs once on the second. *)
Theorem fetch_unbatched_same_state s data :
  loading s = true ->
  fetchResolvedUnbatched getTime data s = dispatch getTime s (FetchResolved data).
Proof.
  intros Hl. unfold fetchResolvedUnbatched, dispatch; cbv zeta.
  assert (Hs1 : (if depsChanged s (setProducts data s) then filterEffect getTime (setProducts data s)
                 else setProducts data s) = setProducts data s).
  { destruct (depsChanged _ _); [|done]. unfold filterEffect. by destruct s; simpl in *; subst. }
  rewrite Hs1. destruct s as [c q v ps fl p ld tt rc rp rt nx]; simpl in Hl; subst ld.
  cbn [handlePageEvent].
  replace (depsChanged _ (setLoading false (setProducts data _))) with true by (symmetry; deps_differ).
  replace (depsChanged _ (setLoading false (setProducts data _))) with true by (symmetry; deps_differ).
  done.
Qed.
End PageProperties.

(** Twenty products, in the page's own terms: page 1 shows nine with
    "previous" disabled and "next" enabled; two clicks on "next" reach
    page 3, which shows the last two with "next" disabled. *)
Theorem twenty_products_scenario :
  let s1 := runEvents sampleGetTime (initState keyTranslation) [FetchResolved twentyProducts] in
  let s3 := runEvents sampleGetTime (initState keyTranslation)
              [FetchResolved twentyProducts; ClickNext; ClickNext] in
  option_map (fun s => (currentPage s, previousDisabled (render s), nextDisabled (render s),
                        length (paginatedProducts (filteredProducts s) (currentPage s)))) s1
    = Some (1%Z, true, false, 9) /\
  option_map (fun s => (currentPage s, previousDisabled (render s), nextDisabled (render s),
                        length (paginatedProducts (filteredProducts s) (currentPage s)))) s3
    = Some (3%Z, false, true, 2).
Proof. split; vm_compute; reflexivity. Qed.

(** ** Witnesses *)

Lemma loadedState_reachable : reachable sampleGetTime keyTranslation loadedState.
Proof. apply reachable_step; [constructor|reflexivity]. Defined.

Lemma reachable_view_consistent_witness :
  reachable sampleGetTime keyTranslation loadedState /\ loading loadedState = false /\
  filteredProducts loadedState = effectResult sampleGetTime loadedState.
Proof.
  assert (Hl : loading loadedState = false) by reflexivity.
  split; [exact loadedState_reachable|]. split; [exact Hl|].
  exact (proj2 (reachable_view_consistent sampleGetTime keyTranslation loadedState
                  loadedState_reachable) Hl).
Defined.

Lemma reachable_page_in_bounds_witness :
  reachable sampleGetTime keyTranslation loadedState /\
  ((1 <= currentPage loadedState <= totalPages (filteredProducts loadedState))%Z \/
   (totalPages (filteredProducts loadedState) = 0%Z /\
    (currentPage loadedState = 0 \/ currentPage loadedState = 1)%Z)).
Proof.
  split; [exact loadedState_reachable|].
  exact (reachable_page_in_bounds sampleGetTime keyTranslation loadedState loadedState_reachable).
Defined.

Lemma filter_change_resets_page_witness :
  reachable sampleGetTime keyTranslation loadedState /\ loading loadedState = false /\
  changesFilter loadedState (TypeQuery "loader") /\
  currentPage (dispatch sampleGetTime loadedState (TypeQuery "loader")) = 1%Z.
Proof.
  assert (Hl : loading loadedState = false) by reflexivity.
  assert (Hc : changesFilter loadedState (TypeQuery "loader")) by (simpl; discriminate).
  split; [exact loadedState_reachable|]. split; [exact Hl|]. split; [exact Hc|].
  exact (proj1 (filter_change_resets_page sampleGetTime keyTranslation loadedState _
                  loadedState_reachable Hl Hc)).
Defined.

Lemma page_navigation_keeps_list_witness :
  (ClickNext = ClickPrevious \/ ClickNext = ClickNext \/ exists n, ClickNext = ClickPage n) /\
  filteredProducts (dispatch sampleGetTime loadedState ClickNext) = filteredProducts loadedState.
Proof.
  assert (He : ClickNext = ClickPrevious \/ ClickNext = ClickNext \/
               exists n, ClickNext = ClickPage n) by (right; left; reflexivity).
  split; [exact He|].
  exact (proj1 (page_navigation_keeps_list sampleGetTime loadedState ClickNext He)).
Defined.

Lemma pressNext_reaches_last_page_witness :
  reachable sampleGetTime keyTranslation loadedState /\
  option_map currentPage (pressNext sampleGetTime 3 loadedState) = Some 1%Z.
Proof.
  split; [exact loadedState_reachable|].
  destruct (pressNext_reaches_last_page sampleGetTime keyTranslation loadedState
              loadedState_reachable) as (s' & Hrun & _ & Hf & Hp & _).
  change (Z.to_nat (totalPages (filteredProducts loadedState)) + 2) with 3 in Hrun.
  rewrite Hrun. simpl. rewrite Hp. vm_compute. reflexivity.
Defined.

Lemma fetch_unbatched_same_state_witness :
  loading (initState keyTranslation) = true /\
  fetchResolvedUnbatched sampleGetTime sampleProducts (initState keyTranslation) = loadedState.
Proof.
  assert (Hl : loading (initState keyTranslation) = true) by reflexivity.
  split; [exact Hl|].
  exact (fetch_unbatched_same_state sampleGetTime (initState keyTranslation) sampleProducts Hl).
Defined.

End ProductsPage.
