(* ===== verification/CatalogFetch.v ===== *)
(** * The catalog fetch of [Products.tsx] (lines 31-44) and what its
      response does to the page

    [fetchProducts] awaits [fetch('/products.json')], then
    [response.json()], and hands the parsed value to [setProducts] before
    [setLoading(false)]; any exception in these steps is caught and only
    clears [loading].  The code never reads [response.ok], and it passes
    whatever JSON value the body holds to [setProducts]: the filter effect
    then calls [products.filter] (line 51) and reads [product.category]
    (line 53) on each element.

    A response is its [ok] flag and its body, [None] when the body is not
    JSON text ([response.json()] rejects with a [SyntaxError]).  A JSON
    value is the inductive [Json] (numbers as integers: the page only reads
    strings).  [fetchOutcome] says what the fetch leads to:

    - [Deliver e]: one of the page events of [ProductsPage]: [FetchRejected]
      after a network error or a body that is not JSON,
      [FetchResolved ps] for an array of product records;
    - [EffectThrows]: the body is JSON but not an array ([filter] is not a
      function), or an array with a [null] element ([null.category]): the
      effect throws a [TypeError] on its first run and React unmounts the
      page;
    - [Unmodelled]: an array with an element that is not a product record
      (a missing field reaches [t(undefined)], whose result depends on the
      i18next configuration).

    The theorems: the outcome does not depend on [response.ok], and a
    catalog of product records is, on the first render after the fetch,
    listed in full, newest first, from page 1. *)

From S2P Require Import Prelude JsString JsArray Catalog ProductsPage.
Import JsArray Catalog ProductsPage.

Module CatalogFetch.

(** ** JSON values and responses *)

#[local] Unset Elimination Schemes.
Inductive Json :=
| JNull
| JBool (b : bool)
| JNumber (n : Z)
| JString (s : string)
| JArray (items : list Json)
| JObject (fields : list (string * Json)).
#[local] Set Elimination Schemes.

Record Response := mkResponse {
  ok : bool;
  body : option Json
}.

Inductive FetchResult :=
| NetworkError
| Responded (r : Response).

Inductive FetchOutcome :=
| Deliver (e : PageEvent)
| EffectThrows
| Unmodelled.

(** ** Reading the product records *)

(** [obj[k]] on a JSON object: the first field named [k]. *)
Definition field (k : string) (fields : list (string * Json)) : option Json :=
  match List.find (fun kv => fst kv =? k)%string fields with
  | Some (_, v) => Some v
  | None => None
  end.

Definition stringField (k : string) (fields : list (string * Json)) : option string :=
  match field k fields with
  | Some (JString s) => Some s
  | _ => None
  end.

(** An element as the filter and sort callbacks read it (lines 52-63):
    [category], [name], [description] and [date] strings; [id] is only the
    React key of line 154 and may be any value. *)
Definition decodeProduct (j : Json) : option Product :=
  match j with
  | JObject fs =>
      match stringField "category" fs, stringField "name" fs, stringField "description" fs,
            stringField "date" fs with
      | Some c, Some n, Some d, Some dt =>
          Some (mkProduct (default "" (stringField "id" fs)) c n d dt)
      | _, _, _, _ => None
      end
  | _ => None
  end.

Fixpoint decodeCatalog (items : list Json) : option (list Product) :=
  match items with
  | [] => Some []
  | j :: rest =>
      match decodeProduct j, decodeCatalog rest with
      | Some p, Some ps => Some (p :: ps)
      | _, _ => None
      end
  end.

(** Line 53 reads [product.category] on every element: on [null] it
    throws. *)
Definition hasNull (items : list Json) : bool :=
  existsb (fun j => match j with JNull => true | _ => false end) items.

(** ** The fetch *)

(** Lines 32-41 and the first run of the filter effect after them. *)
Definition fetchOutcome (r : FetchResult) : FetchOutcome :=
  match r with
  | NetworkError => Deliver FetchRejected
  | Responded resp =>
      match body resp with
      | None => Deliver FetchRejected
      | Some (JArray items) =>
          if hasNull items then EffectThrows
          else match decodeCatalog items with
               | Some ps => Deliver (FetchResolved ps)
               | None => Unmodelled
               end
      | Some _ => EffectThrows
      end
  end.

(** A product record as [/products.json] writes it. *)
Definition encodeProduct (p : Product) : Json :=
  JObject [("id", JString (id p)); ("category", JString (category p)); ("name", JString (name p));
           ("description", JString (description p)); ("date", JString (date p))].

(** ** Lemmas *)

Lemma decodeProduct_encode (p : Product) : decodeProduct (encodeProduct p) = Some p.
Proof. by destruct p. Qed.

(** A catalog written as records is read back as it was. *)
Lemma decodeCatalog_encode (ps : list Product) : decodeCatalog (map encodeProduct ps) = Some ps.
Proof. induction ps as [|p ps IH]; [done|]. cbn [map decodeCatalog]. by rewrite decodeProduct_encode, IH. Qed.

Lemma hasNull_encode (ps : list Product) : hasNull (map encodeProduct ps) = false.
Proof. by induction ps. Qed.

(** A fetch that reaches the page delivers one of the two outcomes of
    [fetchProducts], which the page accepts while loading. *)
Lemma fetchOutcome_events (r : FetchResult) (e : PageEvent) :
  fetchOutcome r = Deliver e -> e = FetchRejected \/ exists ps, e = FetchResolved ps.
Proof.
  destruct r as [|[o [b|]]]; simpl; intros H; [by left; simplify_eq| |by left; simplify_eq].
  destruct b; simplify_eq; repeat case_match; simplify_eq; eauto.
Qed.

Lemma fetchOutcome_reachable `{ArraySort} (getTime : string -> option Z) (t0 : string -> string)
    (r : FetchResult) (e : PageEvent) :
  fetchOutcome r = Deliver e -> reachable getTime t0 (dispatch getTime (initState t0) e).
Proof.
  intros Hr. apply reachable_step; [constructor|].
  by destruct (fetchOutcome_events r e Hr) as [->|[ps ->]].
Qed.

(** A catalog written as product records is delivered as it is, whatever
    the status. *)
Lemma fetchOutcome_records (o : bool) (ps : list Product) :
  fetchOutcome (Responded (mkResponse o (Some (JArray (map encodeProduct ps))))) = Deliver (FetchResolved ps).
Proof. cbn [fetchOutcome body]. by rewrite hasNull_encode, decodeCatalog_encode. Qed.

(** ** Properties *)

(** C16: What the fetch does to the page does not depend on the HTTP
    status, which the code never reads: a catalog written as product
    records is loaded as it is, whatever the status; a body that is not
    JSON (an HTML error page) shows the empty catalog; and a JSON body
    that is not an array, such as the error object of a 404, makes the
    filter effect throw, so the page is unmounted. *)
Theorem fetchOutcome_status_unchecked :
  (forall b, fetchOutcome (Responded (mkResponse true b)) = fetchOutcome (Responded (mkResponse false b))) /\
  (forall o ps, fetchOutcome (Responded (mkResponse o (Some (JArray (map encodeProduct ps))))) =
                Deliver (FetchResolved ps)) /\
  (forall o, fetchOutcome (Responded (mkResponse o None)) = Deliver FetchRejected) /\
  fetchOutcome (Responded (mkResponse false (Some (JObject [("error", JString "Not Found")])))) =
    EffectThrows.
Proof.
  split; [done|]. split; [exact fetchOutcome_records|]. split; [done|reflexivity].
Qed.

(** C14: Loading [/products.json] on the first render: when the response
    holds the catalog as product records, whatever its status, the page
    leaves the loading state on page 1 with every product of the catalog
    listed ("all" category, empty query), newest first, and shows the
    first nine of them, or "no products found" when the catalog is
    empty. *)
Theorem fetch_records_first_page `{ArraySort} (getTime : string -> option Z) (t0 : string -> string)
    (o : bool) (ps : list Product) :
  exists e,
    fetchOutcome (Responded (mkResponse o (Some (JArray (map encodeProduct ps))))) = Deliver e /\
    let s := dispatch getTime (initState t0) e in
    loading s = false /\ currentPage s = 1%Z /\
    filteredProducts s = updatedProducts t0 getTime (selectedCategory (initState t0)) "" "newest" ps /\
    Permutation (filteredProducts s) ps /\
    grid (render s) = match take 9 (filteredProducts s) with
                      | [] => NoProductsFound
                      | l => ProductGrid l
                      end.
Proof.
  exists (FetchResolved ps). split; [apply fetchOutcome_records|]. cbv zeta.
  unfold dispatch; cbv zeta. replace (depsChanged _ _) with true by (symmetry; deps_differ).
  unfold filterEffect, render. cbn. rewrite paginatedProducts_first.
  do 3 (split; [done|]). split; [by apply updatedProducts_all_perm|].
  by destruct (take 9 _).
Qed.

End CatalogFetch.
