(* ===== verification/ContactForm.v ===== *)
(** * The [ContactForm] component of [src/src/components/ContactForm.tsx]

    The state of lines 14-20 is the record [FormState]: [formData] is the
    JavaScript object of the four fields, a [gmap string string] (a key is
    present or absent, as in the object), and [isSubmitting].  Two more
    components model what the asynchronous handler leaves behind: the
    [pending] calls of [emailjs.send] whose [handleSubmit] is suspended at
    its [await] (line 32), and the [toasts] shown so far.

    [handleChange] (lines 22-25) writes the value under the [name]
    attribute of the input that fired.  [handleSubmit] (lines 27-52) is
    split at its [await]: [submitStart] runs lines 28-42 up to the call,
    [submitSettle] runs the rest once the call settles, on the success path
    (lines 44-45) or the error path (lines 47-48), then line 51.  An event
    either changes a field, submits, or settles one pending call, so every
    interleaving of typing, submitting and responses is a sequence of
    events.  [formEventEnabled] holds the browser's rules from the JSX: the submit
    button is disabled while submitting (line 115; pressing Enter in a
    field submits through that button, so it is blocked too), a form whose
    [required] fields (lines 67, 82, 97, 107) are empty is not submitted,
    and the [type="email"] input of line 77 only holds sanitized values and
    blocks a submission whose email is not a valid address
    ([HtmlEmail]).  [settlePending] lets the pending call settle, for the
    theorem that the form always gets back to idle. *)

From S2P Require Import Prelude HtmlEmail.
Import HtmlEmail.

Module ContactForm.

(** ** Data *)

(** The [name] attributes of the four inputs (lines 63, 78, 93, 104). *)
Definition fieldNames : list string := ["name"; "email"; "subject"; "message"].

(** The three [import.meta.env] values of lines 7-9, [None] when unset. *)
Record EmailConfig := mkEmailConfig {
  serviceId : option string;
  templateId : option string;
  publicKey : option string
}.

(** The template parameters of lines 35-40; a property read from an
    object that lacks it is [undefined] ([None]). *)
Record TemplateParams := mkTemplateParams {
  paramName : option string;
  paramEmail : option string;
  paramSubject : option string;
  paramMessage : option string
}.

(** The arguments of one call of [emailjs.send] (lines 32-42). *)
Record SendRequest := mkSendRequest {
  reqServiceId : option string;
  reqTemplateId : option string;
  reqParams : TemplateParams;
  reqPublicKey : option string
}.

Record Toast := mkToast {
  toastTitle : string;
  toastDescription : string;
  toastDestructive : bool
}.

Record FormState := mkFormState {
  formData : gmap string string;
  isSubmitting : bool;
  pending : list SendRequest;
  toasts : list Toast
}.

Inductive FormEvent :=
| Change (fieldName value : string)
| Submit
| SendSettled (i : nat) (ok : bool).

(** Lines 14-19 (and the object of line 45). *)
Definition emptyFormData : gmap string string :=
  <["name" := ""]> (<["email" := ""]> (<["subject" := ""]> (<["message" := ""]> ∅))).

(** Lines 14-20 at the first render. *)
Definition initForm : FormState := mkFormState emptyFormData false [] [].

Section Form.
Variable config : EmailConfig.
Variable t : string -> string.

(** Lines 22-25: [setFormData((prev) => ({ ...prev, [name]: value }))]. *)
Definition handleChange (name value : string) (s : FormState) : FormState :=
  mkFormState (<[name := value]> (formData s)) (isSubmitting s) (pending s) (toasts s).

(** Lines 35-40: the parameters read from the [formData] of the render
    whose handler runs, that is the current state. *)
Definition templateParams (fd : gmap string string) : TemplateParams :=
  mkTemplateParams (fd !! "name") (fd !! "email") (fd !! "subject") (fd !! "message").

(** Lines 28-42 up to the [await]: [setIsSubmitting(true)] and the call. *)
Definition submitStart (s : FormState) : FormState :=
  mkFormState (formData s) true
    (pending s ++ [mkSendRequest (serviceId config) (templateId config)
                     (templateParams (formData s)) (publicKey config)])
    (toasts s).

(** Lines 44-51 after the [i]-th pending call settles: on success a
    toast and the reset of the form, on failure an error toast; in both
    cases [setIsSubmitting(false)]. *)
Definition submitSettle (i : nat) (ok : bool) (s : FormState) : FormState :=
  let rest := take i (pending s) ++ drop (S i) (pending s) in
  if ok then
    mkFormState emptyFormData false rest
      (toasts s ++ [mkToast (t "message_sent") (t "message_sent_description") false])
  else
    mkFormState (formData s) false rest
      (toasts s ++ [mkToast (t "message_error") (t "message_error_description") true]).

Definition handleFormEvent (s : FormState) (e : FormEvent) : FormState :=
  match e with
  | Change n v => handleChange n v s
  | Submit => submitStart s
  | SendSettled i ok => submitSettle i ok s
  end.

(** A [required] field is filled when its value is not the empty string
    (the controlled input shows [formData[name]], or nothing). *)
Definition fieldFilled (fd : gmap string string) (n : string) : bool :=
  match fd !! n with
  | Some v => negb (v === "")
  | None => false
  end.

(** The email input of lines 76-84 is [type="email"]: a non-empty value
    that is not a valid email address is a type mismatch, which blocks
    the submission like an empty [required] field. *)
Definition typeMismatch (fd : gmap string string) : bool :=
  match fd !! "email" with
  | Some v => negb (v =? "")%string && negb (validEmail v)
  | None => false
  end.

(** The events the page can produce: a change comes from one of the four
    inputs, with the email input's sanitized value; a submission needs the
    button enabled, every field filled and no type mismatch; only a
    pending call can settle. *)
Definition formEventEnabled (s : FormState) (e : FormEvent) : bool :=
  match e with
  | Change n v => bool_decide (n ∈ fieldNames) && (if n === "email" then sanitizedEmailValue v else true)
  | Submit =>
      negb (isSubmitting s) && forallb (fieldFilled (formData s)) fieldNames &&
      negb (typeMismatch (formData s))
  | SendSettled i _ => i <? length (pending s)
  end.

Inductive formReachable : FormState -> Prop :=
| formReachable_init : formReachable initForm
| formReachable_step s e : formReachable s -> formEventEnabled s e = true -> formReachable (handleFormEvent s e).

Fixpoint runFormEvents (s : FormState) (es : list FormEvent) : option FormState :=
  match es with
  | [] => Some s
  | e :: es' => if formEventEnabled s e then runFormEvents (handleFormEvent s e) es' else None
  end.

(** The pending call, if there is one, settles with outcome [ok]. *)
Definition settlePending (ok : bool) (s : FormState) : FormState :=
  match pending s with
  | [] => s
  | _ :: _ => handleFormEvent s (SendSettled 0 ok)
  end.
End Form.

(** The events that settle a call of [emailjs.send]. *)
Definition isSettle (e : FormEvent) : bool :=
  match e with SendSettled _ _ => true | _ => false end.

(** ** The render of the submit button (lines 113-122) *)

Record ButtonView := mkButtonView {
  buttonDisabled : bool;
  buttonLabel : string
}.

Definition submitButton (t : string -> string) (s : FormState) : ButtonView :=
  mkButtonView (isSubmitting s) (if isSubmitting s then t "processing" else t "send_message").

(** ** Sample data for the scenarios and witnesses *)

Definition sampleConfig : EmailConfig :=
  mkEmailConfig (Some "service_motorcade") (Some "template_contact") (Some "public_key").

(** A translation table that returns the key itself. *)
Definition keyText (k : string) : string := k.

(** Typing the four fields. *)
Definition fillEvents : list FormEvent :=
  [Change "name" "Ana"; Change "email" "ana@example.com"; Change "subject" "Quote";
   Change "message" "Need a loader"].

Definition filledState : FormState := fold_left (handleFormEvent sampleConfig keyText) fillEvents initForm.

Definition submittedState : FormState := handleFormEvent sampleConfig keyText filledState Submit.

(** ** Invariant *)

(** The keys of [formData]: the four field names. *)
Definition formKeys : gset string := list_to_set fieldNames.

Definition formInv (s : FormState) : Prop :=
  dom (formData s) = formKeys /\
  (isSubmitting s = true <-> pending s <> []) /\
  length (pending s) <= 1.

Lemma dom_emptyFormData : dom emptyFormData = formKeys.
Proof. unfold emptyFormData, formKeys. rewrite !dom_insert_L, dom_empty_L. set_solver. Qed.

Lemma formInv_init : formInv initForm.
Proof. split; [apply dom_emptyFormData|]. split; [split; done|]. simpl; lia. Qed.

Lemma fieldFilled_all (fd : gmap string string) :
  forallb (fieldFilled fd) fieldNames = true ->
  forall n, n ∈ fieldNames -> exists v, fd !! n = Some v /\ v <> "".
Proof.
  intros Hall n Hn. apply list_elem_of_In in Hn.
  pose proof (proj1 (forallb_forall _ _) Hall n Hn) as Hf. unfold fieldFilled in Hf.
  destruct (fd !! n) as [v|]; [|discriminate]. exists v. split; [done|].
  apply negb_true_iff, String.eqb_neq in Hf. exact Hf.
Qed.

Lemma formInv_idle s : formInv s -> isSubmitting s = false -> pending s = [].
Proof.
  intros (_ & Hs & _) Hns. destruct (pending s) as [|r rest]; [done|exfalso].
  assert (Hi : isSubmitting s = true) by (apply Hs; discriminate). congruence.
Qed.

Section Preservation.
Context (config : EmailConfig) (t : string -> string).

Lemma formInv_step s e :
  formInv s -> formEventEnabled s e = true -> formInv (handleFormEvent config t s e).
Proof.
  intros Hinv Hen. pose proof Hinv as (Hd & Hs & Hl).
  destruct e as [n v| |i ok]; simpl in Hen.
  - apply andb_true_iff in Hen as [Hen _].
    apply bool_decide_eq_true_1 in Hen. split; [|done]. simpl.
    rewrite dom_insert_L, Hd. unfold formKeys in *.
    apply (elem_of_list_to_set (C := gset string)) in Hen.
    by apply subseteq_union_1_L, singleton_subseteq_l.
  - apply andb_true_iff in Hen as [[Hns _]%andb_true_iff _]. apply negb_true_iff in Hns.
    pose proof (formInv_idle s Hinv Hns) as Hp.
    split; [done|]. simpl. rewrite Hp. split; [split; done|]. simpl; lia.
  - apply Nat.ltb_lt in Hen.
    destruct (pending s) as [|r [|r' rest]] eqn:Hp; simpl in *; try lia.
    assert (i = 0) as -> by lia.
    unfold submitSettle. rewrite Hp. destruct ok; simpl.
    + split; [apply dom_emptyFormData|]. split; [split; done|]. simpl; lia.
    + split; [done|]. split; [split; done|]. simpl; lia.
Qed.

Lemma formReachable_formInv s : formReachable config t s -> formInv s.
Proof. induction 1; [apply formInv_init|]. by apply formInv_step. Qed.

Lemma runFormEvents_reachable s es s' :
  formReachable config t s -> runFormEvents config t s es = Some s' -> formReachable config t s'.
Proof.
  revert s; induction es as [|e es IH]; simpl; intros s Hr Hrun.
  - congruence.
  - destruct (formEventEnabled s e) eqn:Hen; [|discriminate].
    apply (IH _ (formReachable_step _ _ _ _ Hr Hen) Hrun).
Qed.

(** A change of one of the four fields is enabled with any value the
    input keeps. *)
Lemma change_enabled s n v :
  n ∈ fieldNames -> (n = "email" -> sanitizedEmailValue v = true) -> formEventEnabled s (Change n v) = true.
Proof.
  intros Hn Hv. cbn [formEventEnabled]. rewrite bool_decide_eq_true_2 by done.
  destruct (String.eqb_spec n "email"); [by apply Hv|done].
Qed.

(** Once the pending call (if any) settles the form is idle. *)
Lemma settlePending_idle s ok :
  formReachable config t s ->
  formReachable config t (settlePending config t ok s) /\ pending (settlePending config t ok s) = [] /\
  isSubmitting (settlePending config t ok s) = false.
Proof.
  intros Hr. pose proof (formReachable_formInv s Hr) as Hinv.
  pose proof Hinv as (_ & Hs & Hl). unfold settlePending.
  destruct (pending s) as [|r [|r' rest]] eqn:Hp; simpl in Hl; try lia.
  - split; [done|]. split; [done|].
    destruct (isSubmitting s); [by destruct (proj1 Hs eq_refl)|done].
  - assert (Hen : formEventEnabled s (SendSettled 0 ok) = true) by (simpl; rewrite Hp; done).
    split; [by apply formReachable_step|].
    unfold handleFormEvent, submitSettle. rewrite Hp. by destruct ok.
Qed.

(** While a call is pending, the events other than its settlement keep it
    pending as it was. *)
Lemma run_while_pending s es s' :
  formReachable config t s -> pending s <> [] -> Forall (fun e => isSettle e = false) es ->
  runFormEvents config t s es = Some s' -> formReachable config t s' /\ pending s' = pending s.
Proof.
  intros Hr Hp HF. revert s Hr Hp. induction HF as [|e es He HF IH]; intros s Hr Hp Hrun.
  - cbn in Hrun. by simplify_eq.
  - cbn [runFormEvents] in Hrun. destruct (formEventEnabled s e) eqn:Hen; [|discriminate].
    destruct e as [n v| |i ok]; [|exfalso|discriminate].
    + destruct (IH (handleChange n v s) (formReachable_step _ _ _ _ Hr Hen) Hp Hrun) as [Hr' ->].
      done.
    + destruct (formReachable_formInv s Hr) as (_ & Hs & _).
      cbn in Hen. rewrite (proj2 Hs Hp) in Hen. discriminate.
Qed.
End Preservation.

(** ** Properties *)

Section FormProperties.
Context (config : EmailConfig) (t : string -> string).

(** C20: In every formReachable state the submit button is disabled and reads
    "processing" exactly while a call of [emailjs.send] is pending, and
    at most one call is pending: the form is never sent twice at once. *)
Theorem reachable_one_send_in_flight s :
  formReachable config t s ->
  (buttonDisabled (submitButton t s) = true <-> pending s <> []) /\
  (buttonLabel (submitButton t s) = t "processing" \/ pending s = []) /\
  length (pending s) <= 1.
Proof.
  intros Hr. destruct (formReachable_formInv config t s Hr) as (_ & Hs & Hl).
  unfold submitButton; simpl. split; [done|]. split; [|done].
  destruct (isSubmitting s) eqn:Hi; [by left|right].
  apply (formInv_idle s (formReachable_formInv config t s Hr) Hi).
Qed.

(** C24: In every formReachable state [formData] has exactly the four keys
    [name], [email], [subject] and [message]. *)
Theorem reachable_form_keys s :
  formReachable config t s -> dom (formData s) = list_to_set fieldNames.
Proof. intros Hr. apply (formReachable_formInv config t s Hr). Qed.

(** C23: A submission sends the four fields as they are at that moment,
    all non-empty and the email a valid email address, with the configured
    service, template and key. *)
Theorem submit_sends_current_fields s :
  formReachable config t s -> formEventEnabled s Submit = true ->
  exists n m sub msg,
    n <> "" /\ m <> "" /\ sub <> "" /\ msg <> "" /\ EmailAddress m /\
    formData s !! "name" = Some n /\ formData s !! "email" = Some m /\
    formData s !! "subject" = Some sub /\ formData s !! "message" = Some msg /\
    pending (handleFormEvent config t s Submit) =
      [mkSendRequest (serviceId config) (templateId config)
         (mkTemplateParams (Some n) (Some m) (Some sub) (Some msg)) (publicKey config)] /\
    isSubmitting (handleFormEvent config t s Submit) = true.
Proof.
  intros Hr Hen. pose proof (formReachable_formInv config t s Hr) as Hinv.
  simpl in Hen. apply andb_true_iff in Hen as [[Hns Hall]%andb_true_iff Htm].
  apply negb_true_iff in Hns, Htm.
  pose proof (formInv_idle s Hinv Hns) as Hp.
  pose proof (fieldFilled_all _ Hall) as Hf.
  destruct (Hf "name" ltac:(set_solver)) as (n & Hn & Hn').
  destruct (Hf "email" ltac:(set_solver)) as (m & Hm & Hm').
  destruct (Hf "subject" ltac:(set_solver)) as (sub & Hsub & Hsub').
  destruct (Hf "message" ltac:(set_solver)) as (msg & Hmsg & Hmsg').
  assert (Hv : EmailAddress m).
  { apply validEmail_spec. unfold typeMismatch in Htm. rewrite Hm in Htm.
    apply String.eqb_neq in Hm'. rewrite Hm' in Htm. by destruct (validEmail m). }
  exists n, m, sub, msg. do 9 (split; [done|]). simpl. rewrite Hp.
  unfold templateParams. rewrite Hn, Hm, Hsub, Hmsg. done.
Qed.

(** C21: When the pending call succeeds, the form is cleared, the button
    is enabled again and a success toast is shown. *)
Theorem send_success_clears_form s :
  formReachable config t s -> pending s <> [] ->
  let s' := handleFormEvent config t s (SendSettled 0 true) in
  formEventEnabled s (SendSettled 0 true) = true /\
  formData s' = emptyFormData /\ isSubmitting s' = false /\ pending s' = [] /\
  last (toasts s') = Some (mkToast (t "message_sent") (t "message_sent_description") false).
Proof.
  intros Hr Hp. destruct (formReachable_formInv config t s Hr) as (_ & _ & Hl).
  destruct (pending s) as [|r [|r' rest]] eqn:Hps; [done| |simpl in Hl; lia].
  simpl. rewrite Hps. repeat split; try done. apply last_snoc.
Qed.

(** C22: When the pending call fails, the form keeps its fields (with any
    edit made while the call was pending), the button is enabled again
    and an error toast is shown. *)
Theorem send_failure_keeps_form s :
  formReachable config t s -> pending s <> [] ->
  let s' := handleFormEvent config t s (SendSettled 0 false) in
  formEventEnabled s (SendSettled 0 false) = true /\
  formData s' = formData s /\ isSubmitting s' = false /\ pending s' = [] /\
  last (toasts s') = Some (mkToast (t "message_error") (t "message_error_description") true).
Proof.
  intros Hr Hp. destruct (formReachable_formInv config t s Hr) as (_ & _ & Hl).
  destruct (pending s) as [|r [|r' rest]] eqn:Hps; [done| |simpl in Hl; lia].
  simpl. rewrite Hps. repeat split; try done. apply last_snoc.
Qed.

(** C31: From every reachable state the form gets back to idle: once the
    pending call (if any) settles, whatever its outcome, the state is
    reachable, nothing is pending, the button is enabled, and submitting
    is enabled again as soon as the fields are filled and the email is
    valid. *)
Theorem reachable_send_settles s ok :
  formReachable config t s ->
  let s' := settlePending config t ok s in
  formReachable config t s' /\ pending s' = [] /\ buttonDisabled (submitButton t s') = false /\
  formEventEnabled s' Submit =
    forallb (fieldFilled (formData s')) fieldNames && negb (typeMismatch (formData s')).
Proof.
  intros Hr. destruct (settlePending_idle config t s ok Hr) as (Hr' & Hp & Hns).
  split; [done|]. split; [done|]. unfold submitButton. cbn [buttonDisabled]. rewrite Hns.
  split; [done|]. cbn [formEventEnabled]. by rewrite Hns.
Qed.

(** C26: Whatever the user types while a send is pending, the call
    carries the fields as they were at the submission, the button stays
    disabled, and nothing else is sent, until the call settles: an edit
    made meanwhile is never sent (and a success then clears it with the
    rest of the form). *)
Theorem edit_while_sending_is_lost s es s' :
  formReachable config t s -> pending s <> [] -> Forall (fun e => isSettle e = false) es ->
  runFormEvents config t s es = Some s' ->
  pending s' = pending s /\ buttonDisabled (submitButton t s') = true.
Proof.
  intros Hr Hp HF Hrun. destruct (run_while_pending config t s es s' Hr Hp HF Hrun) as [Hr' Hp'].
  split; [done|]. destruct (formReachable_formInv config t s' Hr') as (_ & Hs & _).
  apply Hs. by rewrite Hp'.
Qed.

(** C25: The form never gets stuck: from every reachable state, once the
    pending call (if any) settles either way, a user who types a name, a
    valid email address, a subject and a message and presses the button
    sends exactly those four values. *)
Theorem reachable_can_always_send s ok n m sub msg :
  formReachable config t s -> n <> "" -> sub <> "" -> msg <> "" -> EmailAddress m ->
  exists s',
    runFormEvents config t (settlePending config t ok s)
      [Change "name" n; Change "email" m; Change "subject" sub; Change "message" msg; Submit] = Some s' /\
    pending s' = [mkSendRequest (serviceId config) (templateId config)
                    (mkTemplateParams (Some n) (Some m) (Some sub) (Some msg)) (publicKey config)].
Proof.
  intros Hr Hn Hsub Hmsg Hm. destruct (settlePending_idle config t s ok Hr) as (_ & Hp & Hns).
  set (s0 := settlePending config t ok s) in *.
  assert (Hm0 : m <> "") by (intros ->; destruct Hm as (l & ls & Hl & _ & _ & _ & Heq); by destruct l).
  cbn [runFormEvents].
  rewrite !change_enabled
    by first [set_solver | intros; (discriminate || by apply emailAddress_sanitized)].
  cbn [formEventEnabled handleFormEvent handleChange formData isSubmitting pending]. rewrite Hns.
  unfold fieldFilled, typeMismatch. cbn [forallb fieldNames].
  simplify_map_eq.
  apply String.eqb_neq in Hn, Hsub, Hmsg, Hm0. rewrite Hn, Hsub, Hmsg, Hm0.
  rewrite (proj2 (validEmail_spec m) Hm). cbn.
  eexists. split; [reflexivity|]. cbn. rewrite Hp. unfold templateParams. by simplify_map_eq.
Qed.
End FormProperties.

(** The scenario of the spec: with the four fields filled and the
    form submitted, a successful send clears every field and shows the
    success toast, and a rejected send keeps every field and shows the
    error toast. *)
Theorem contact_submit_scenario (config : EmailConfig) (t : string -> string) :
  let filled := fillEvents ++ [Submit] in
  option_map (fun s => (formData s, isSubmitting s, last (toasts s)))
    (runFormEvents config t initForm (filled ++ [SendSettled 0 true])) =
    Some (emptyFormData, false,
          Some (mkToast (t "message_sent") (t "message_sent_description") false)) /\
  option_map (fun s => (formData s !! "name", formData s !! "email", formData s !! "subject",
                        formData s !! "message", isSubmitting s, last (toasts s)))
    (runFormEvents config t initForm (filled ++ [SendSettled 0 false])) =
    Some (Some "Ana", Some "ana@example.com", Some "Quote", Some "Need a loader", false,
          Some (mkToast (t "message_error") (t "message_error_description") true)).
Proof. split; vm_compute; reflexivity. Qed.


(** ** Witnesses *)

Lemma filledState_reachable : formReachable sampleConfig keyText filledState.
Proof.
  apply (runFormEvents_reachable sampleConfig keyText initForm fillEvents);
    [constructor|vm_compute; reflexivity].
Defined.

Lemma submittedState_reachable : formReachable sampleConfig keyText submittedState.
Proof. apply formReachable_step; [exact filledState_reachable|vm_compute; reflexivity]. Defined.

Lemma reachable_one_send_in_flight_witness :
  formReachable sampleConfig keyText submittedState /\ length (pending submittedState) <= 1.
Proof.
  split; [exact submittedState_reachable|].
  exact (proj2 (proj2 (reachable_one_send_in_flight sampleConfig keyText submittedState
                         submittedState_reachable))).
Defined.

Lemma reachable_form_keys_witness :
  formReachable sampleConfig keyText submittedState /\
  dom (formData submittedState) = list_to_set fieldNames.
Proof.
  split; [exact submittedState_reachable|].
  exact (reachable_form_keys sampleConfig keyText submittedState submittedState_reachable).
Defined.

Lemma submit_sends_current_fields_witness :
  formReachable sampleConfig keyText filledState /\ formEventEnabled filledState Submit = true /\
  isSubmitting (handleFormEvent sampleConfig keyText filledState Submit) = true.
Proof.
  assert (Hen : formEventEnabled filledState Submit = true) by (vm_compute; reflexivity).
  split; [exact filledState_reachable|]. split; [exact Hen|].
  destruct (submit_sends_current_fields sampleConfig keyText filledState filledState_reachable Hen)
    as (n & m & sub & msg & _ & _ & _ & _ & _ & _ & _ & _ & _ & _ & Hs).
  exact Hs.
Defined.

Lemma send_success_clears_form_witness :
  formReachable sampleConfig keyText submittedState /\ pending submittedState <> [] /\
  formData (handleFormEvent sampleConfig keyText submittedState (SendSettled 0 true)) = emptyFormData.
Proof.
  assert (Hp : pending submittedState <> []) by (vm_compute; discriminate).
  split; [exact submittedState_reachable|]. split; [exact Hp|].
  exact (proj1 (proj2 (send_success_clears_form sampleConfig keyText submittedState
                         submittedState_reachable Hp))).
Defined.

Lemma send_failure_keeps_form_witness :
  formReachable sampleConfig keyText submittedState /\ pending submittedState <> [] /\
  formData (handleFormEvent sampleConfig keyText submittedState (SendSettled 0 false)) =
  formData submittedState.
Proof.
  assert (Hp : pending submittedState <> []) by (vm_compute; discriminate).
  split; [exact submittedState_reachable|]. split; [exact Hp|].
  exact (proj1 (proj2 (send_failure_keeps_form sampleConfig keyText submittedState
                         submittedState_reachable Hp))).
Defined.

Lemma reachable_send_settles_witness :
  formReachable sampleConfig keyText submittedState /\
  pending (settlePending sampleConfig keyText true submittedState) = [].
Proof.
  split; [exact submittedState_reachable|].
  exact (proj1 (proj2 (reachable_send_settles sampleConfig keyText submittedState true
                         submittedState_reachable))).
Defined.

(** Editing the message while the sample submission is pending. *)
Lemma edit_while_sending_is_lost_witness :
  formReachable sampleConfig keyText submittedState /\ pending submittedState <> [] /\
  exists s', runFormEvents sampleConfig keyText submittedState [Change "message" "Need two loaders"] = Some s' /\
             pending s' = pending submittedState.
Proof.
  assert (Hp : pending submittedState <> []) by (vm_compute; discriminate).
  assert (HF : Forall (fun e => isSettle e = false) [Change "message" "Need two loaders"])
    by (repeat constructor).
  split; [exact submittedState_reachable|]. split; [exact Hp|].
  eexists. split; [reflexivity|].
  exact (proj1 (edit_while_sending_is_lost sampleConfig keyText submittedState _ _
                  submittedState_reachable Hp HF eq_refl)).
Defined.

(** After the sample send fails, a second message goes out. *)
Lemma reachable_can_always_send_witness :
  formReachable sampleConfig keyText submittedState /\ EmailAddress "bo@example.org" /\
  exists s', runFormEvents sampleConfig keyText (settlePending sampleConfig keyText false submittedState)
    [Change "name" "Bo"; Change "email" "bo@example.org"; Change "subject" "Rental";
     Change "message" "Two rollers"; Submit] = Some s' /\
    pending s' = [mkSendRequest (Some "service_motorcade") (Some "template_contact")
                    (mkTemplateParams (Some "Bo") (Some "bo@example.org") (Some "Rental") (Some "Two rollers"))
                    (Some "public_key")].
Proof.
  assert (Hm : EmailAddress "bo@example.org")
    by (exists "bo", ["example"; "org"]; repeat split; try discriminate; repeat constructor).
  split; [exact submittedState_reachable|]. split; [exact Hm|].
  exact (reachable_can_always_send sampleConfig keyText submittedState false "Bo" "bo@example.org"
           "Rental" "Two rollers" submittedState_reachable ltac:(discriminate) ltac:(discriminate)
           ltac:(discriminate) Hm).
Defined.

End ContactForm.
